(** * Code-generator upgrade flow of the IoT workbench

    A shallow embedding of [compareVersion], of the target selection and
    of [UpgradeCodeGenerator] from [src/DigitalTwin/CodeGenerateCore.ts],
    together with the part of the JavaScript runtime these functions rely
    on: [String.prototype.split], [Number] applied to a string, the
    relational operators on numbers and [Array.prototype.sort]. *)

From Stdlib Require Import ZArith QArith Ascii String List Lia Bool.
From Stdlib Require Import DecimalString DecimalN DecimalPos.
From stdpp Require Import base gmap strings list sorting.

Local Open Scope Z_scope.

(** ** JavaScript numbers *)

(** A JavaScript number is an IEEE 754 double.  A finite double is a
    dyadic rational; it is kept here as a rational in lowest terms, so
    that two equal numbers are equal terms.  The two zeros are not told
    apart: the code only ever compares numbers. *)
Inductive jsnum : Type :=
  | NaN : jsnum
  | NegInf : jsnum
  | Fin (q : Q) : jsnum
  | PosInf : jsnum.

Module JS.

(** The relational operators [<] and [>] of the language.  Any comparison
    with [NaN] is false. *)
Definition lt (a b : jsnum) : bool :=
  match a, b with
  | NaN, _ | _, NaN => false
  | NegInf, NegInf => false
  | NegInf, _ => true
  | Fin _, NegInf => false
  | Fin x, Fin y => match Qcompare x y with Lt => true | _ => false end
  | Fin _, PosInf => true
  | PosInf, _ => false
  end.

Definition gt (a b : jsnum) : bool := lt b a.

Definition neg (a : jsnum) : jsnum :=
  match a with
  | NaN => NaN
  | NegInf => PosInf
  | Fin q => Fin (Qopp q)
  | PosInf => NegInf
  end.

Definition of_Z (n : Z) : jsnum := Fin (inject_Z n).
Definition of_N (n : N) : jsnum := of_Z (Z.of_N n).

(** Rounding of the non-negative rational [n / d] to the nearest double,
    ties to even, with overflow to infinity and gradual underflow. *)
Definition round_double (n d : Z) : jsnum :=
  if n =? 0 then of_Z 0 else
  let e0 := Z.log2 n - Z.log2 d in
  let above := if 0 <=? e0 then d * 2 ^ e0 <=? n else d <=? n * 2 ^ (- e0) in
  let e := if above then e0 else e0 - 1 in
  let k := Z.max (e - 52) (-1074) in
  let num := if 0 <=? k then n else n * 2 ^ (- k) in
  let den := if 0 <=? k then d * 2 ^ k else d in
  let q := num / den in
  let r := num mod den in
  let m := match 2 * r ?= den with
           | Lt => q
           | Gt => q + 1
           | Eq => if Z.even q then q else q + 1
           end in
  if m =? 0 then of_Z 0
  else if 1024 <=? Z.log2 m + k then PosInf
  else if 0 <=? k then of_Z (m * 2 ^ k)
  else Fin (Qred (Qmake m (Z.to_pos (2 ^ (- k))))).

(** *** Strings

    A string is a sequence of code units; the embedding covers the code
    units below 256. *)

Definition chars (s : string) : list ascii := list_ascii_of_string s.

(** [s.split(c)] for a separator [c] of one code unit. *)
Fixpoint split_from (sep : ascii) (cur : list ascii) (s : list ascii)
  : list (list ascii) :=
  match s with
  | [] => [rev cur]
  | x :: s' =>
      if Ascii.eqb x sep then rev cur :: split_from sep [] s'
      else split_from sep (x :: cur) s'
  end.

Definition split (sep : ascii) (s : string) : list string :=
  map string_of_list_ascii (split_from sep [] (chars s)).

(** *** [Number(s)]: the StringNumericLiteral grammar *)

Definition is_white (c : ascii) : bool :=
  let n := N_of_ascii c in
  ((9 <=? n) && (n <=? 13) || (n =? 32) || (n =? 160))%N.

Fixpoint trim_left (s : list ascii) : list ascii :=
  match s with
  | c :: s' => if is_white c then trim_left s' else s
  | [] => []
  end.

Definition trim (s : list ascii) : list ascii :=
  rev (trim_left (rev (trim_left s))).

(** Value of a digit in a base up to sixteen. *)
Definition digit_val (base : N) (c : ascii) : option N :=
  let n := N_of_ascii c in
  let v := if ((48 <=? n) && (n <=? 57))%N then Some (n - 48)%N
           else if ((97 <=? n) && (n <=? 102))%N then Some (n - 87)%N
           else if ((65 <=? n) && (n <=? 70))%N then Some (n - 55)%N
           else None in
  match v with
  | Some d => if (d <? base)%N then Some d else None
  | None => None
  end.

Definition is_digit (c : ascii) : bool :=
  match digit_val 10 c with Some _ => true | None => false end.

(** The value of a digit sequence, most significant digit first; [None]
    when a character is not a digit of the base. *)
Fixpoint digits_from (base : N) (acc : N) (s : list ascii) : option N :=
  match s with
  | [] => Some acc
  | c :: s' =>
      match digit_val base c with
      | Some d => digits_from base (acc * base + d)%N s'
      | None => None
      end
  end.

Definition digits (base : N) (s : list ascii) : option N :=
  match s with
  | [] => None
  | _ => digits_from base 0%N s
  end.

(** The longest prefix of decimal digits and what follows it. *)
Fixpoint span_digits (s : list ascii) : list ascii * list ascii :=
  match s with
  | c :: s' =>
      if is_digit c then
        let (ds, rest) := span_digits s' in (c :: ds, rest)
      else ([], s)
  | [] => ([], [])
  end.

(** An optional sign: [true] for a minus. *)
Definition take_sign (s : list ascii) : bool * list ascii :=
  match s with
  | "-"%char :: s' => (true, s')
  | "+"%char :: s' => (false, s')
  | _ => (false, s)
  end.

(** ExponentPart, or nothing, up to the end of the input. *)
Definition exponent (s : list ascii) : option Z :=
  match s with
  | [] => Some 0
  | c :: s' =>
      if Ascii.eqb c "e" || Ascii.eqb c "E" then
        let (minus, ds) := take_sign s' in
        match digits 10 ds with
        | Some n => Some (if minus then - Z.of_N n else Z.of_N n)
        | None => None
        end
      else None
  end.

(** The double nearest to [m * 10 ^ e]. *)
Definition decimal_value (m : N) (e : Z) : jsnum :=
  if 0 <=? e then round_double (Z.of_N m * 10 ^ e) 1
  else round_double (Z.of_N m) (10 ^ (- e)).

(** StrUnsignedDecimalLiteral. *)
Definition unsigned_decimal (s : list ascii) : jsnum :=
  if decide (s = chars "Infinity") then PosInf else
  let (ip, r1) := span_digits s in
  let (fp, r2) :=
    match r1 with
    | "."%char :: r => span_digits r
    | _ => ([], r1)
    end in
  match ip ++ fp, exponent r2 with
  | _ :: _, Some e =>
      match digits_from 10 0%N (ip ++ fp) with
      | Some m => decimal_value m (e - Z.of_nat (length fp))
      | None => NaN
      end
  | _, _ => NaN
  end.

(** NonDecimalIntegerLiteral: a binary, octal or hexadecimal integer. *)
Definition non_decimal (s : list ascii) : option jsnum :=
  match s with
  | "0"%char :: p :: ds =>
      let base :=
        if Ascii.eqb p "x" || Ascii.eqb p "X" then Some 16%N
        else if Ascii.eqb p "o" || Ascii.eqb p "O" then Some 8%N
        else if Ascii.eqb p "b" || Ascii.eqb p "B" then Some 2%N
        else None in
      match base with
      | Some b =>
          Some match digits b ds with
               | Some n => round_double (Z.of_N n) 1
               | None => NaN
               end
      | None => None
      end
  | _ => None
  end.

Definition StringToNumber (s : string) : jsnum :=
  let t := trim (chars s) in
  match t with
  | [] => of_Z 0
  | _ =>
      match non_decimal t with
      | Some v => v
      | None =>
          let (minus, u) := take_sign t in
          let v := unsigned_decimal u in
          if minus then neg v else v
      end
  end.

(** [Number(x)] where [x] is a string or [undefined], as an array read
    past the end gives. *)
Definition Number (x : option string) : jsnum :=
  match x with
  | Some s => StringToNumber s
  | None => NaN
  end.

End JS.

(** [a.sort(comparefn)].  The language asks of a conforming sort that,
    for a consistent [comparefn], the result is a permutation of the array
    in which no element is followed by one that [comparefn] puts strictly
    before it, and (since ES2019) that elements comparing equal keep their
    relative order.  These properties fix the result; the embedding is the
    stable insertion sort.  For a [comparefn] that is not consistent (here:
    when a version has a component that is not a number) the language
    leaves the order to the implementation, and an engine need not return
    what the insertion sort returns: what is stated below of the order of
    the result, or of an item selected by its place in the result, is
    stated for numeric versions; the other statements hold of every
    permutation of the array. *)
Module JSArray.
Section Sort.
Context {A : Type} (comparefn : A -> A -> Z).

Fixpoint insert (x : A) (l : list A) : list A :=
  match l with
  | [] => [x]
  | y :: l' => if comparefn x y <=? 0 then x :: l else y :: insert x l'
  end.

Fixpoint sort (l : list A) : list A :=
  match l with
  | [] => []
  | x :: l' => insert x (sort l')
  end.

(** No element is followed by one that [comparefn] puts strictly
    before it. *)
Definition ordered : list A -> Prop :=
  StronglySorted (fun x y => comparefn x y <= 0).
End Sort.
End JSArray.

(** ** The version comparator *)

(** The loop of [compareVersion]: [i] is the index, [n] the number of
    iterations left until [i] reaches 3. *)
Fixpoint compareVersion_loop (ver1 ver2 : list string) (i n : nat) : Z :=
  match n with
  | O => 0
  | S n' =>
      let v1 := JS.Number (ver1 !! i) in
      let v2 := JS.Number (ver2 !! i) in
      if JS.gt v1 v2 then 1
      else if JS.lt v1 v2 then -1
      else compareVersion_loop ver1 ver2 (S i) n'
  end.

Definition compareVersion (verion1 verion2 : string) : Z :=
  let ver1 := JS.split "." verion1 in
  let ver2 := JS.split "." verion2 in
  compareVersion_loop ver1 ver2 0 3.

(** The three numbers the comparator reads from a version string. *)
Definition components (v : string) : list jsnum :=
  let ver := JS.split "." v in
  [JS.Number (ver !! 0%nat); JS.Number (ver !! 1%nat); JS.Number (ver !! 2%nat)].

(** The comparison the loop makes of two sequences of numbers. *)
Fixpoint compare_numbers (xs ys : list jsnum) : Z :=
  match xs, ys with
  | x :: xs', y :: ys' =>
      if JS.gt x y then 1
      else if JS.lt x y then -1
      else compare_numbers xs' ys'
  | _, _ => 0
  end.

(** ** Version triples, as the specification has them *)

Record VersionTriple : Type := {
  major : N;
  minor : N;
  patch : N
}.

(** [compare] as the specification words it: major, then minor, then
    patch; the first component that differs decides. *)
Definition compare_spec (a b : VersionTriple) : Z :=
  if negb (major a =? major b)%N then (if (major a <? major b)%N then -1 else 1)
  else if negb (minor a =? minor b)%N then (if (minor a <? minor b)%N then -1 else 1)
  else if negb (patch a =? patch b)%N then (if (patch a <? patch b)%N then -1 else 1)
  else 0.

(** A version string denotes a triple when its first three components
    convert to the numbers of the triple. *)
Definition denotes (v : string) (a : VersionTriple) : Prop :=
  components v = [JS.of_N (major a); JS.of_N (minor a); JS.of_N (patch a)].

(** The decimal writing of a natural number, and the version string
    that writes a triple. *)
Definition decimal (n : N) : string := NilZero.string_of_uint (N.to_uint n).

Definition version_string (a : VersionTriple) : string :=
  decimal (major a) +:+ "." +:+ decimal (minor a) +:+ "." +:+ decimal (patch a).

(** The triples whose components a double holds exactly. *)
Definition safe (a : VersionTriple) : Prop :=
  (major a < 2 ^ 53)%N /\ (minor a < 2 ^ 53)%N /\ (patch a < 2 ^ 53)%N.

(** A version string is numeric when none of the three numbers read
    from it is [NaN]. *)
Definition is_nan (x : jsnum) : bool :=
  match x with NaN => true | _ => false end.

Definition numeric (v : string) : bool :=
  forallb (fun x => negb (is_nan x)) (components v).

(** ** The remote configuration document *)

Record CodeGeneratorDownloadLocation : Type := {
  win32Md5 : string;
  win32PackageUrl : string;
  macOSMd5 : string;
  macOSPackageUrl : string;
  ubuntuMd5 : string;
  ubuntuPackageUrl : string
}.

Record CodeGeneratorConfigItem : Type := {
  codeGeneratorVersion : string;
  iotWorkbenchMinimalVersion : string;
  codeGeneratorLocation : CodeGeneratorDownloadLocation
}.

Record CodeGeneratorConfig : Type := {
  codeGeneratorConfigItems : list CodeGeneratorConfigItem
}.

(** ** Target selection *)

(** One or more decimal digits, then the rest of the input. *)
Definition digits1 (s : list ascii) : option (list ascii) :=
  match JS.span_digits s with
  | ([], _) => None
  | (_ :: _, rest) => Some rest
  end.

(** [/^[0-9]+\.[0-9]+\.[0-9]+$/.test(v)]. *)
Definition is_release (v : string) : bool :=
  match digits1 (JS.chars v) with
  | Some ("."%char :: s1) =>
      match digits1 s1 with
      | Some ("."%char :: s2) =>
          match digits1 s2 with
          | Some [] => true
          | _ => false
          end
      | _ => false
      end
  | _ => false
  end.

(** The comparator handed to [sort]: descending by generator version. *)
Definition reverse_order (configItem1 configItem2 : CodeGeneratorConfigItem) : Z :=
  compareVersion (codeGeneratorVersion configItem2) (codeGeneratorVersion configItem1).

(** The order of the sorted candidates: generator versions descend. *)
Definition descending : list CodeGeneratorConfigItem -> Prop :=
  JSArray.ordered reverse_order.

(** Does the extension version admit the item: the gate of the release
    branch. *)
Definition admits (extensionVersion : string) (item : CodeGeneratorConfigItem) : bool :=
  0 <=? compareVersion extensionVersion (iotWorkbenchMinimalVersion item).

(** The value of [targetConfigItem] once the selection block of
    [UpgradeCodeGenerator] has run (the specification's [selectTarget]):
    [codeGenConfig] is the fetched document, [None] when it is falsy. *)
Definition targetConfigItem (extensionVersion : string)
    (codeGenConfig : option CodeGeneratorConfig) : option CodeGeneratorConfigItem :=
  match codeGenConfig with
  | None => None
  | Some config =>
      let items := JSArray.sort reverse_order (codeGeneratorConfigItems config) in
      if negb (is_release extensionVersion) then head items
      else List.find (admits extensionVersion) items
  end.

(** ** The upgrade flow *)

(** Names the sources import from [constants.ts] and
    [DigitalTwinConstants.ts], which are not among the sources at hand;
    they are taken as parameters. *)
Record Constants : Type := {
  codeGeneratorToolPath : string;     (* CodeGenConstants.codeGeneratorToolPath *)
  iotworkbenchTempFolder : string;    (* FileNames.iotworkbenchTempFolder *)
  codeGeneratorVersionKey : string    (* ConfigKey.codeGeneratorVersion *)
}.

(** What [extract-zip] does with the bytes of an archive: it creates the
    target directory and writes the entries, or it fails, possibly after
    having created the directory and written some of the entries. *)
Inductive unzip_result : Type :=
  | Unzipped (entries : list (string * string))
  | UnzipError (mkdir : bool) (written : list (string * string)).

(** The collaborators of the flow: the extension manifest, the operating
    system, the network, the hash function and the archive reader. *)
Record World : Type := {
  extensionVersion : string;          (* version of package.json *)
  codeGenConfigUrl : string;          (* codeGenConfigUrl of package.json *)
  platform : string;                  (* os.platform() *)
  homedir : string;                   (* os.homedir() *)
  tmpdir : string;                    (* os.tmpdir() *)
  path_join : string -> string -> string;
  path_dirname : string -> string;    (* path.dirname *)
  (* mkdirp.sync(dir): the directories it leaves in existence, [dir] and
     its ancestors when it returns, some of the ancestors when it throws;
     a write into a directory that cannot be made is not [writable] *)
  mkdirp : string -> list string;
  (* GET with json: true; [None] when the request is rejected,
     [Some None] when the body is falsy *)
  get_json : string -> option (option CodeGeneratorConfig);
  (* GET with encoding: null; [None] when the request is rejected *)
  get_binary : string -> option string;
  (* does a write to this path succeed, the making of its directory
     included *)
  writable : string -> bool;
  (* crypto.createHash('md5') ... digest('hex') of a byte sequence *)
  md5_hex : string -> string;
  unzip : string -> unzip_result;
  (* does a write to the settings succeed *)
  settings_writable : bool
}.

(** The calls made to the collaborators, in the order they are made. *)
Inductive event : Type :=
  | Request (uri : string)
  | WriteFile (path : string)
  | HashFile (path : string)
  | Extract (sourceZip targetFoder : string) (ok : bool)
  | UpdateSetting (key value : string).

(** The store the flow reads and writes: the files and directories of the
    file system, the persisted settings, and the calls made so far. *)
Record state : Type := {
  files : gmap string string;
  dirs : gset string;
  settings : gmap string string;
  trace : list event
}.

Inductive error : Type :=
  | RequestError (uri : string)
  | WriteError (path : string)
  | ReadError (path : string)
  | HashError                         (* 'Validating hash code failed.' *)
  | ExtractError
  | SettingsError.

Inductive result (A : Type) : Type :=
  | Ok (a : A)
  | Throw (e : error).
Arguments Ok {A} a.
Arguments Throw {A} e.

(** Computations that read and write the store and may throw; what was
    written before a throw stays written. *)
Definition M (A : Type) : Type := state -> result A * state.

Definition ret {A} (a : A) : M A := fun st => (Ok a, st).
Definition throw {A} (e : error) : M A := fun st => (Throw e, st).
Definition bind {A B} (m : M A) (f : A -> M B) : M B :=
  fun st =>
    match m st with
    | (Ok a, st') => f a st'
    | (Throw e, st') => (Throw e, st')
    end.

Declare Scope upgrade_scope.
Delimit Scope upgrade_scope with upgrade.
Notation "x <- m ;; k" := (bind m (fun x => k))
  (at level 100, m at next level, right associativity) : upgrade_scope.
Notation "m ;;; k" := (bind m (fun _ => k))
  (at level 100, right associativity) : upgrade_scope.

(** The store after one more call has been made. *)
Definition logged (e : event) (st : state) : state :=
  {| files := files st; dirs := dirs st; settings := settings st;
     trace := trace st ++ [e] |}.

Definition record (e : event) : M unit := fun st => (Ok tt, logged e st).

Section Flow.
Variable K : Constants.
Variable W : World.
Local Open Scope upgrade_scope.

(** [request(options).promise()] for the configuration document. *)
Definition request_config : M (option CodeGeneratorConfig) :=
  record (Request (codeGenConfigUrl W)) ;;;
  match get_json W (codeGenConfigUrl W) with
  | Some body => ret body
  | None => throw (RequestError (codeGenConfigUrl W))
  end.

(** [request(downloadOption).promise()] for the package. *)
Definition request_package (uri : string) : M string :=
  record (Request uri) ;;;
  match get_binary W uri with
  | Some zipData => ret zipData
  | None => throw (RequestError uri)
  end.

Definition isDirectorySync (path : string) : M bool :=
  fun st => (Ok (bool_decide (path ∈ dirs st)), st).

(** [mkdirp.sync(dir)], as far as the directories go: whether it throws
    is part of [writable]. *)
Definition made (dir : string) (st : state) : state :=
  {| files := files st; dirs := list_to_set (mkdirp W dir) ∪ dirs st;
     settings := settings st; trace := trace st |}.

(** [fs.writeFileSync] of [fs-plus]: the directory of the file is made
    before the file is written, and stays when the write fails. *)
Definition writeFileSync (path data : string) : M unit :=
  record (WriteFile path) ;;;
  (fun st => (Ok tt, made (path_dirname W path) st)) ;;;
  if writable W path then
    fun st =>
      (Ok tt, {| files := <[path := data]> (files st); dirs := dirs st;
                 settings := settings st; trace := trace st |})
  else throw (WriteError path).

(** [fileHash]: the digest of the content of the file, read as a
    stream; a read error rejects. *)
Definition fileHash (filename : string) : M string :=
  record (HashFile filename) ;;;
  fun st =>
    match files st !! filename with
    | Some data => (Ok (md5_hex W data), st)
    | None => (Throw (ReadError filename), st)
    end.

Definition write_entries (targetFoder : string) (entries : list (string * string))
    (fs : gmap string string) : gmap string string :=
  foldl (fun fs e => <[path_join W targetFoder (fst e) := snd e]> fs) fs entries.

(** [extract]: [extractzip(sourceZip, {dir: targetFoder}, ...)]. *)
Definition extract (sourceZip targetFoder : string) : M bool :=
  fun st =>
    match files st !! sourceZip with
    | None =>
        (Throw ExtractError,
         {| files := files st; dirs := dirs st; settings := settings st;
            trace := trace st ++ [Extract sourceZip targetFoder false] |})
    | Some data =>
        match unzip W data with
        | Unzipped entries =>
            (Ok true,
             {| files := write_entries targetFoder entries (files st);
                dirs := {[targetFoder]} ∪ dirs st;
                settings := settings st;
                trace := trace st ++ [Extract sourceZip targetFoder true] |})
        | UnzipError mkdir written =>
            (Throw ExtractError,
             {| files := write_entries targetFoder written (files st);
                dirs := if mkdir then {[targetFoder]} ∪ dirs st else dirs st;
                settings := settings st;
                trace := trace st ++ [Extract sourceZip targetFoder false] |})
        end
    end.

(** Modelled from the spec: [ConfigHandler] ([configHandler.ts] is not
    among the sources at hand), the configuration-handler collaborator
    through which the key-value store of persisted settings is read and
    written.  [get] gives [undefined] for a key that is not set. *)
Definition ConfigHandler_get (key : string) : M (option string) :=
  fun st => (Ok (settings st !! key), st).

Definition ConfigHandler_update (key value : string) : M unit :=
  record (UpdateSetting key value) ;;;
  if settings_writable W then
    fun st =>
      (Ok tt, {| files := files st; dirs := dirs st;
                 settings := <[key := value]> (settings st); trace := trace st |})
  else throw SettingsError.

(** The package address and the expected digest for the platform. *)
Definition download_option (configItem : CodeGeneratorConfigItem) : string * string :=
  let location := codeGeneratorLocation configItem in
  if bool_decide (platform W = "win32") then
    (win32PackageUrl location, win32Md5 location)
  else if bool_decide (platform W = "darwin") then
    (macOSPackageUrl location, macOSMd5 location)
  else
    (ubuntuPackageUrl location, ubuntuMd5 location).

Definition codeGenCommandPath : string :=
  path_join W (homedir W) (codeGeneratorToolPath K).

(** The scratch file of a download. *)
Definition scratch_file (md5value : string) : string :=
  let tempPath := path_join W (tmpdir W) (iotworkbenchTempFolder K) in
  path_join W tempPath (md5value +:+ ".zip").

(** The detection of the need to upgrade.  [!currentVersion] holds of
    [undefined] and of the empty string. *)
Definition needUpgrade (target : CodeGeneratorConfigItem) : M bool :=
  isDir <- isDirectorySync codeGenCommandPath ;;
  if negb isDir then ret true
  else
    currentVersion <- ConfigHandler_get (codeGeneratorVersionKey K) ;;
    match currentVersion with
    | None => ret true
    | Some v =>
        ret (bool_decide (v = "")
             || (0 <? compareVersion (codeGeneratorVersion target) v))
    end.

(** The body run under the progress notification. *)
Definition upgrade (configItem : CodeGeneratorConfigItem) : M unit :=
  let (uri, md5value) := download_option configItem in
  zipData <- request_package uri ;;
  let filePath := scratch_file md5value in
  writeFileSync filePath zipData ;;;
  hashvalue <- fileHash filePath ;;
  if negb (bool_decide (hashvalue = md5value)) then throw HashError
  else
    extract filePath codeGenCommandPath ;;;
    ConfigHandler_update (codeGeneratorVersionKey K)
      (codeGeneratorVersion configItem).

(** The output-channel narration, the progress notification and the
    interval timer of the source neither read nor write the store and
    do not steer the control flow; they are left out. *)
Definition UpgradeCodeGenerator : M bool :=
  codeGenConfig <- request_config ;;
  match targetConfigItem (extensionVersion W) codeGenConfig with
  | None => ret false
  | Some target =>
      need <- needUpgrade target ;;
      if need then upgrade target ;;; ret true
      else ret true
  end.
End Flow.

(** ** A sample configuration

    The scenario of the specification: generator 1.3.0 asks for workbench
    1.0.0, generator 1.4.0 for workbench 9.9.9; the expected digest of
    every package is ["abc123"], the digest of what is downloaded is
    ["xyz999"]. *)
Module Sample.

Definition location (name : string) : CodeGeneratorDownloadLocation :=
  {| win32Md5 := "abc123"; win32PackageUrl := "https://host/win32/" +:+ name;
     macOSMd5 := "abc123"; macOSPackageUrl := "https://host/macos/" +:+ name;
     ubuntuMd5 := "abc123"; ubuntuPackageUrl := "https://host/ubuntu/" +:+ name |}.

Definition item_1_3_0 : CodeGeneratorConfigItem :=
  {| codeGeneratorVersion := "1.3.0"; iotWorkbenchMinimalVersion := "1.0.0";
     codeGeneratorLocation := location "1.3.0" |}.

Definition item_1_4_0 : CodeGeneratorConfigItem :=
  {| codeGeneratorVersion := "1.4.0"; iotWorkbenchMinimalVersion := "9.9.9";
     codeGeneratorLocation := location "1.4.0" |}.

Definition config : CodeGeneratorConfig :=
  {| codeGeneratorConfigItems := [item_1_3_0; item_1_4_0] |}.

Definition constants : Constants :=
  {| codeGeneratorToolPath := "codegen";
     iotworkbenchTempFolder := "iotworkbench";
     codeGeneratorVersionKey := "codeGeneratorVersion" |}.

(** A world in which every request and every write succeeds; [digest]
    is the digest of the downloaded bytes. *)
Definition world (version digest : string) : World :=
  {| extensionVersion := version;
     codeGenConfigUrl := "https://host/config.json";
     platform := "linux";
     homedir := "/home/user";
     tmpdir := "/tmp";
     path_join := fun a b => a +:+ "/" +:+ b;
     path_dirname := fun p => String.concat "/" (removelast (JS.split "/" p));
     mkdirp := fun dir => [dir];
     get_json := fun _ => Some (Some config);
     get_binary := fun _ => Some "payload";
     writable := fun _ => true;
     md5_hex := fun _ => digest;
     unzip := fun _ => Unzipped [("run", "binary")];
     settings_writable := true |}.

(** Nothing installed, nothing recorded. *)
Definition fresh : state :=
  {| files := ∅; dirs := {["/tmp/iotworkbench"]}; settings := ∅; trace := [] |}.

End Sample.

(** ** A failed verification, as the specification states it *)

Definition is_extract (e : event) : bool :=
  match e with Extract _ _ _ => true | _ => false end.

(** When the digest of the downloaded bytes differs from the expected
    one, the upgrade fails with the verification error, the scratch file
    is gone afterwards, and no extraction has been attempted. *)
Definition mismatch_discards_download (K : Constants) (W : World)
    (configItem : CodeGeneratorConfigItem) (st : state) : Prop :=
  forall data : string,
    get_binary W (fst (download_option W configItem)) = Some data ->
    writable W (scratch_file K W (snd (download_option W configItem))) = true ->
    md5_hex W data <> snd (download_option W configItem) ->
    fst (upgrade K W configItem st) = Throw HashError /\
    files (snd (upgrade K W configItem st))
      !! scratch_file K W (snd (download_option W configItem)) = None /\
    existsb is_extract (trace (snd (upgrade K W configItem st))) = false.


(** * Code generation from a capability model

    [GenerateDeviceCodeStub], [GenerateDeviceCodeCore] and
    [DownloadInterfaceFile] of [CodeGenerateCore.ts]: the functions around
    [UpgradeCodeGenerator]. *)

(** ** Computations with a store and exceptions *)

Inductive outcome (E A : Type) : Type :=
  | Done (a : A)
  | Failed (e : E).
Arguments Done {E A} a.
Arguments Failed {E A} e.

Definition Act (S E A : Type) : Type := S -> outcome E A * S.

Module Act.
Section Monad.
Context {S E : Type}.

Definition ret {A} (a : A) : Act S E A := fun s => (Done a, s).
Definition throw {A} (e : E) : Act S E A := fun s => (Failed e, s).
Definition bind {A B} (m : Act S E A) (f : A -> Act S E B) : Act S E B :=
  fun s =>
    match m s with
    | (Done a, s') => f a s'
    | (Failed e, s') => (Failed e, s')
    end.

(** [try { m } catch { handler }]. *)
Definition catch {A} (m : Act S E A) (handler : E -> Act S E A) : Act S E A :=
  fun s =>
    match m s with
    | (Done a, s') => (Done a, s')
    | (Failed e, s') => handler e s'
    end.
End Monad.
End Act.

Declare Scope act_scope.
Delimit Scope act_scope with act.
Notation "x <- m ;; k" := (Act.bind m (fun x => k))
  (at level 100, m at next level, right associativity) : act_scope.
Notation "m ;;; k" := (Act.bind m (fun _ => k))
  (at level 100, right associativity) : act_scope.

(** ** Values read from JSON documents *)

#[local] Unset Elimination Schemes.
Inductive json : Type :=
  | JNull
  | JBool (b : bool)
  | JNumber (x : jsnum)
  | JString (s : string)
  | JArray (elements : list json)
  | JObject (members : list (string * json)).
#[local] Set Elimination Schemes.

Module Json.

(** [x[key]] for a key that is neither an array index nor [length], as
    are the keys the code reads.  The members of an object are listed
    with distinct keys.  [None] stands for the [TypeError] of reading a
    member of [null]; [Some None] for [undefined]. *)
Definition member (x : json) (key : string) : option (option json) :=
  match x with
  | JNull => None
  | JObject members =>
      Some (snd <$> List.find (fun m => String.eqb (fst m) key) members)
  | _ => Some None
  end.

(** Is the value truthy; [None] is [undefined]. *)
Definition truthy (x : option json) : bool :=
  match x with
  | None | Some JNull => false
  | Some (JBool b) => b
  | Some (JNumber y) => JS.lt y (JS.of_Z 0) || JS.gt y (JS.of_Z 0)
  | Some (JString s) => negb (bool_decide (s = ""))
  | Some (JArray _) | Some (JObject _) => true
  end.

(** The values [for (const x of v)] goes through; [None] when [v] is not
    iterable.  A string is iterated by code unit. *)
Definition iterate (v : option json) : option (list json) :=
  match v with
  | Some (JArray elements) => Some elements
  | Some (JString s) =>
      Some (map (fun c => JString (String c EmptyString)) (JS.chars s))
  | _ => None
  end.

End Json.

(** ** The prompts *)

Record QuickPickItem : Type := {
  label : string;
  description : option string;
  detail : option string
}.

(** What the user does at a prompt: pick the item at an index of a quick
    pick, enter a text, or dismiss the prompt. *)
Inductive answer : Type :=
  | Pick (index : nat)
  | Text (value : string)
  | Dismiss.

(** The calls made to the collaborators of the code generation. *)
Inductive action : Type :=
  | ShowQuickPick (placeHolder : string) (items : list QuickPickItem)
  | ShowInputBox (prompt : string)
  | SelectWorkspaceItem
  | MkDir (path : string)
  | CopyFile (source target : string)
  | WriteInterface (path : string)
  | Connect (connectionString : string)
  | GetInterface (urnId : string) (repositoryId : option string)
  | GenerateCode (targetFolder capabilityModelFilePath fileCoreName schemaPath : string)
  | SaveExecutionInfo (value : string).

(** The store of the code generation: the store of the upgrade flow, the
    answers the user is going to give, in order (once they are used up
    every prompt is dismissed), and the calls made so far. *)
Record desk : Type := {
  store : state;
  script : list answer;
  journal : list action
}.

Inductive failure : Type :=
  | UpgradeFailed (e : error)        (* thrown by UpgradeCodeGenerator *)
  | FolderSelectionCancelled         (* 'User cancelled folder selection.' *)
  | TypeError                        (* a member of undefined or null, a value not iterable *)
  | FileSystemError (path : string)  (* thrown by fs *)
  | SyntaxError                      (* thrown by JSON.parse *)
  | RepositoryError                  (* thrown by the repository client *)
  | GeneratorError                   (* GenerateCode rejected *)
  | SettingsUpdateError.             (* ConfigHandler.update rejected *)

Inductive CodeGenProjectType : Type := CMake | VisualStudio | IoTDevKit.
Inductive DeviceConnectionType : Type := DeviceConnectionString | IoTCSasKey.

Record CodeGenExecutionInfo : Type := {
  schemaFolder : string;
  targetFolder : string;
  languageLabel : string;
  codeGenProjectType : CodeGenProjectType;
  deviceConnectionType : DeviceConnectionType
}.

Record InterfaceInfo : Type := {
  urnId : json;
  path : string
}.

(** Names imported from [DigitalTwinConstants.ts] and [constants.ts],
    which are not among the sources at hand. *)
Record StubConstants : Type := {
  capabilityModelSuffix : string;     (* DigitalTwinConstants.capabilityModelSuffix *)
  interfaceSuffix : string;           (* DigitalTwinConstants.interfaceSuffix *)
  modelRepositoryKeyName : string;    (* ConfigKey.modelRepositoryKeyName *)
  codeGeneratorExecutionInfo : string; (* ConfigKey.codeGeneratorExecutionInfo *)
  productName : string                (* DigitalTwinConstants.productName *)
}.

(** [codeGenerator.GenerateCode(targetFolder, capabilityModelFilePath,
    fileCoreName, schemaPath)]: [None] when it rejects.  What the generator
    writes is not part of the store. *)
Definition CodeGenerator : Type :=
  string -> string -> string -> string -> option bool.

(** The collaborators of the code generation. *)
Record Studio : Type := {
  (* vscode.workspace.workspaceFolders, each folder by its uri.fsPath *)
  workspaceFolders : option (list string);
  (* fs.listTreeSync at the time of the call *)
  listTreeSync : string -> list string;
  basename : string -> string;
  dirname : string -> string;
  JSON_parse : string -> option json;
  JSON_stringify : CodeGenExecutionInfo -> string;
  (* utils.mkdirRecursivelySync: does it succeed *)
  mkdir_succeeds : string -> bool;
  (* utils.generateInterfaceFileNameFromUrnId *)
  generateInterfaceFileNameFromUrnId : string -> string -> string;
  (* DigitalTwinConnector.ConnectMetamodelRepository; [None] when it rejects *)
  ConnectMetamodelRepository : string -> option bool;
  (* DigitalTwinConnectionStringBuilder.Create(...).RepositoryIdValue;
     [None] when the client or the builder throws *)
  RepositoryIdValue : string -> option string;
  (* GetInterfaceAsync(urnId, repositoryId, true): [None] when it rejects,
     [Some None] for a falsy result, else JSON.stringify(content, null, 4) *)
  GetInterfaceAsync : string -> option string -> option (option string);
  (* AnsiCCodeGeneratorFactory.CreateCodeGeneratorImpl *)
  CreateCodeGeneratorImpl :
    CodeGenProjectType -> DeviceConnectionType -> option CodeGenerator
}.

(** [s.endsWith(suffix)]. *)
Definition ends_with (s suffix : string) : bool :=
  let l := JS.chars s in
  let f := JS.chars suffix in
  (length f <=? length l)%nat && bool_decide (drop (length l - length f) l = f).

(** *** The pattern of a capability model file name *)

(** LF and CR, the line terminators among the code units below 256: the
    characters [.] does not match. *)
Definition line_terminator (c : ascii) : bool :=
  Ascii.eqb c "010" || Ascii.eqb c "013".

(** [(.*?)] followed by a pattern that matches [follow] and the end of
    the input: the shortest prefix is tried first; the result is the text
    of the group. *)
Fixpoint lazy_any (follow taken s : list ascii) : option (list ascii) :=
  if bool_decide (s = follow) then Some (rev taken)
  else
    match s with
    | c :: s' =>
        if line_terminator c then None else lazy_any follow (c :: taken) s'
    | [] => None
    end.

(** Group 1 of [fileName.match(/^(.*?)\.(capabilitymodel)\.json$/)]. *)
Definition capability_core (fileName : string) : option string :=
  string_of_list_ascii
    <$> lazy_any (JS.chars ".capabilitymodel.json") [] (JS.chars fileName).

(** ** The functions *)

Definition set_files (fs : gmap string string) (st : state) : state :=
  {| files := fs; dirs := dirs st; settings := settings st; trace := trace st |}.

Definition set_dirs (ds : gset string) (st : state) : state :=
  {| files := files st; dirs := ds; settings := settings st; trace := trace st |}.

Definition set_settings (cfg : gmap string string) (st : state) : state :=
  {| files := files st; dirs := dirs st; settings := cfg; trace := trace st |}.

Definition set_store (st : state) (d : desk) : desk :=
  {| store := st; script := script d; journal := journal d |}.

(** The desk after one more call has been made. *)
Definition noted (a : action) (d : desk) : desk :=
  {| store := store d; script := script d; journal := journal d ++ [a] |}.

Section CodeGen.
Variable K : Constants.
Variable W : World.
Variable C : StubConstants.
Variable U : Studio.
Local Open Scope act_scope.

Definition note (a : action) : Act desk failure unit :=
  fun d => (Done tt, noted a d).

(** The next answer of the user. *)
Definition next_answer : Act desk failure answer :=
  fun d =>
    match script d with
    | [] => (Done Dismiss, d)
    | a :: rest =>
        (Done a, {| store := store d; script := rest; journal := journal d |})
    end.

(** [vscode.window.showQuickPick]: one of the items, or [undefined]. *)
Definition showQuickPick (placeHolder : string) (items : list QuickPickItem)
  : Act desk failure (option QuickPickItem) :=
  note (ShowQuickPick placeHolder items) ;;;
  a <- next_answer ;;
  Act.ret (match a with Pick i => items !! i | _ => None end).

(** [vscode.window.showInputBox]: the text entered, or [undefined]. *)
Definition showInputBox (prompt : string) : Act desk failure (option string) :=
  note (ShowInputBox prompt) ;;;
  a <- next_answer ;;
  Act.ret (match a with Text value => Some value | _ => None end).

(** [utils.selectWorkspaceItem]: the folder chosen in the dialog, or
    [undefined]. *)
Definition selectWorkspaceItem : Act desk failure (option string) :=
  note SelectWorkspaceItem ;;;
  a <- next_answer ;;
  Act.ret (match a with Text value => Some value | _ => None end).

Definition readFileSync (filePath : string) : Act desk failure string :=
  fun d =>
    match files (store d) !! filePath with
    | Some text => (Done text, d)
    | None => (Failed (FileSystemError filePath), d)
    end.

(** [mkdirp.sync(path.dirname(filePath))], with which the writes and the
    copies of [fs-plus] begin. *)
Definition make_directory_of (filePath : string) : Act desk failure unit :=
  fun d => (Done tt, set_store (made W (path_dirname W filePath) (store d)) d).

Definition put_file (filePath text : string) : Act desk failure unit :=
  if writable W filePath then
    fun d => (Done tt, set_store (set_files (<[filePath := text]> (files (store d))) (store d)) d)
  else Act.throw (FileSystemError filePath).

(** [fs.writeFileSync] of [fs-plus]. *)
Definition write_file (filePath text : string) : Act desk failure unit :=
  make_directory_of filePath ;;;
  put_file filePath text.

(** [fs.copyFileSync] of [fs-plus]: the directory of the target is made,
    then the source is opened. *)
Definition copyFileSync (source target : string) : Act desk failure unit :=
  note (CopyFile source target) ;;;
  make_directory_of target ;;;
  text <- readFileSync source ;;
  put_file target text.

Definition mkdirRecursivelySync (dir : string) : Act desk failure unit :=
  note (MkDir dir) ;;;
  if mkdir_succeeds U dir then
    fun d => (Done tt, set_store (set_dirs ({[dir]} ∪ dirs (store d)) (store d)) d)
  else Act.throw (FileSystemError dir).

(** [UpgradeCodeGenerator], on the store of the desk. *)
Definition upgrade_generator : Act desk failure bool :=
  fun d =>
    match UpgradeCodeGenerator K W (store d) with
    | (Ok upgradestate, st) => (Done upgradestate, set_store st d)
    | (Throw e, st) => (Failed (UpgradeFailed e), set_store st d)
    end.

(** *** [GenerateDeviceCodeCore] *)

Definition GenerateDeviceCodeCore (capabilityModelFilePath : string)
    (codeGenExecutionInfo : CodeGenExecutionInfo) : Act desk failure bool :=
  match CreateCodeGeneratorImpl U (codeGenProjectType codeGenExecutionInfo)
          (deviceConnectionType codeGenExecutionInfo) with
  | None => Act.ret false
  | Some codeGenerator =>
      let fileName := basename U capabilityModelFilePath in
      match capability_core fileName with
      | None => Act.ret false
      | Some fileCoreName =>
          if bool_decide (fileCoreName = "") then Act.ret false
          else
            let schemaPath :=
              path_join W (targetFolder codeGenExecutionInfo)
                (schemaFolder codeGenExecutionInfo) in
            note (GenerateCode (targetFolder codeGenExecutionInfo)
                    capabilityModelFilePath fileCoreName schemaPath) ;;;
            match codeGenerator (targetFolder codeGenExecutionInfo)
                    capabilityModelFilePath fileCoreName schemaPath with
            | None => Act.throw GeneratorError
            | Some result => Act.ret true
            end
      end
  end.

(** *** [DownloadInterfaceFile] *)

(** The body of one [try] block: [true] when the interface was found and
    written, which is when the function returns [true] from the block. *)
Definition fetch_interface (urnId : string) (repositoryId : option string)
    (filePath : string) : Act desk failure bool :=
  note (GetInterface urnId repositoryId) ;;;
  match GetInterfaceAsync U urnId repositoryId with
  | None => Act.throw RepositoryError
  | Some None => Act.ret false
  | Some (Some content) =>
      note (WriteInterface filePath) ;;;
      write_file filePath content ;;;
      Act.ret true
  end.

(** The branch taken with a connection string. *)
Definition download_connected (urnId filePath connectionString : string)
  : Act desk failure bool :=
  note (Connect connectionString) ;;;
  match ConnectMetamodelRepository U connectionString with
  | None => Act.throw RepositoryError
  | Some false => Act.ret false
  | Some true =>
      match RepositoryIdValue U connectionString with
      | None => Act.throw RepositoryError
      | Some repositoryId =>
          (* Try to download interface file from private repo *)
          found <- Act.catch
                     (fetch_interface urnId (Some repositoryId) filePath)
                     (fun _ => Act.ret false) ;;
          if found then Act.ret true
          else
            (* Try to download interface file from public repo *)
            Act.catch (fetch_interface urnId None filePath)
              (fun _ => Act.ret false)
      end
  end.

Definition DownloadInterfaceFile (urnId targetFolder : string)
  : Act desk failure bool :=
  let fileName := generateInterfaceFileNameFromUrnId U urnId targetFolder in
  let filePath := path_join W targetFolder fileName in
  configured <-
    (fun d => (Done (settings (store d) !! modelRepositoryKeyName C), d)) ;;
  connectionString <-
    match configured with
    | Some (String _ _) => Act.ret configured
    | _ => showInputBox
             "Please input the connection string to access the model repository."
    end ;;
  match connectionString with
  | Some (String c cs) => download_connected urnId filePath (String c cs)
  | _ => Act.ret false
  end.

(** *** [GenerateDeviceCodeStub] *)

(** The classification of one path of the listing. *)
Definition scan_file (st : state)
    (found : list QuickPickItem * list InterfaceInfo) (filePath : string)
  : list QuickPickItem * list InterfaceInfo :=
  if bool_decide (filePath ∈ dirs st) then found
  else
    let fileName := basename U filePath in
    if ends_with fileName (capabilityModelSuffix C) then
      (fst found ++
         [{| label := fileName; description := Some (dirname U filePath);
             detail := None |}],
       snd found)
    else if ends_with fileName (interfaceSuffix C) then
      let urnId :=
        match files st !! filePath with
        | Some text =>
            match JSON_parse U text with
            | Some fileJson => default None (Json.member fileJson "@id")
            | None => None
            end
        | None => None
        end in
      match urnId with
      | Some id =>
          if Json.truthy urnId then
            (fst found, snd found ++ [{| urnId := id; path := filePath |}])
          else found
      | None => found
      end
    else found.

Definition scan (st : state) (fileList : list string)
  : list QuickPickItem * list InterfaceInfo :=
  foldl (scan_file st) ([], []) fileList.

(** [item.urnId === schema] for a string [schema]. *)
Definition has_id (schema : string) (item : InterfaceInfo) : bool :=
  match urnId item with
  | JString s => String.eqb s schema
  | _ => false
  end.

(** The loop over the interfaces the capability model implements;
    [false] when the function returns [false] from inside the loop. *)
Fixpoint resolve_interfaces (interfaceItems : list InterfaceInfo)
    (schemaTargetFolder : string) (implementedInterfaces : list json)
  : Act desk failure bool :=
  match implementedInterfaces with
  | [] => Act.ret true
  | interfaceItem :: rest =>
      match Json.member interfaceItem "schema" with
      | None => Act.throw TypeError
      | Some (Some (JString schema)) =>
          match List.find (has_id schema) interfaceItems with
          | Some item =>
              let interfaceName := basename U (path item) in
              copyFileSync (path item) (path_join W schemaTargetFolder interfaceName) ;;;
              resolve_interfaces interfaceItems schemaTargetFolder rest
          | None =>
              result <- DownloadInterfaceFile schema schemaTargetFolder ;;
              if result then resolve_interfaces interfaceItems schemaTargetFolder rest
              else Act.ret false
          end
      | Some _ => resolve_interfaces interfaceItems schemaTargetFolder rest
      end
  end.

Definition targetItems : list QuickPickItem :=
  [ {| label := "CMake Project"; description := None;
       detail := Some "Generate device agnostic standard ANSI C code to integrate into existing device project." |};
    {| label := "Visual Studio Project"; description := None;
       detail := Some "Generate device agnostic standard ANSI C code for Visual Studio project." |};
    {| label := "MXChip IoT DevKit Project"; description := None;
       detail := Some "Generate Arduino project for MXChip IoT DevKit" |} ].

Definition deviceConnectionSelections : list QuickPickItem :=
  [ {| label := "Via IoT Hub device connection string"; description := None;
       detail := Some "To connect to Azure IoT Hub directly" |};
    {| label := "Via DPS (Device Provision Service) symmetric key"; description := None;
       detail := Some "To connect to Azure IoT Hub, Azure IoT Central or Azure IoT Certification Service" |} ].

Definition project_type (targetSelection : QuickPickItem) : CodeGenProjectType :=
  if bool_decide (label targetSelection = "MXChip IoT DevKit Project") then IoTDevKit
  else if bool_decide (label targetSelection = "Visual Studio Project") then VisualStudio
  else CMake.

Definition connection_type (deviceConnectionSelection : QuickPickItem)
  : DeviceConnectionType :=
  if bool_decide (label deviceConnectionSelection
                  = "Via IoT Hub device connection string")
  then DeviceConnectionString
  else if bool_decide (label deviceConnectionSelection
                       = "Via DPS (Device Provision Service) symmetric key")
  then IoTCSasKey
  else DeviceConnectionString.

(** [ConfigHandler.update(ConfigKey.codeGeneratorExecutionInfo, ...)]. *)
Definition save_execution_info (value : string) : Act desk failure unit :=
  note (SaveExecutionInfo value) ;;;
  if settings_writable W then
    fun d =>
      (Done tt,
       set_store (set_settings (<[codeGeneratorExecutionInfo C := value]>
                                  (settings (store d))) (store d)) d)
  else Act.throw SettingsUpdateError.

(** From the copy of the capability model on: the part of the function
    that writes. *)
Definition generate (selectedFilePath capbilityModelFileName folderPath : string)
    (interfaceItems : list InterfaceInfo)
    (codeGenProjectType : CodeGenProjectType)
    (connectionType : DeviceConnectionType) : Act desk failure bool :=
  let schemaTargetFolder := path_join W folderPath "schema" in
  mkdirRecursivelySync schemaTargetFolder ;;;
  copyFileSync selectedFilePath (path_join W schemaTargetFolder capbilityModelFileName) ;;;
  text <- readFileSync selectedFilePath ;;
  match JSON_parse U text with
  | None => Act.throw SyntaxError
  | Some capabilityModel =>
      match Json.member capabilityModel "implements" with
      | None => Act.throw TypeError
      | Some implementedInterfaces =>
          match Json.iterate implementedInterfaces with
          | None => Act.throw TypeError
          | Some implemented =>
              resolved <- resolve_interfaces interfaceItems schemaTargetFolder implemented ;;
              if negb resolved then Act.ret false
              else
                let codeGenExecutionInfo :=
                  {| schemaFolder := "schema"; targetFolder := folderPath;
                     languageLabel := "ANSI C";
                     codeGenProjectType := codeGenProjectType;
                     deviceConnectionType := connectionType |} in
                executionResult <-
                  GenerateDeviceCodeCore
                    (path_join W schemaTargetFolder capbilityModelFileName)
                    codeGenExecutionInfo ;;
                save_execution_info (JSON_stringify U codeGenExecutionInfo) ;;;
                Act.ret executionResult
          end
      end
  end.

(** The prompts, once a capability model has been selected. *)
Definition ask_and_generate (fileSelection : QuickPickItem)
    (interfaceItems : list InterfaceInfo) : Act desk failure bool :=
  match description fileSelection with
  | None => Act.throw TypeError
  | Some directory =>
      let capbilityModelFileName := label fileSelection in
      let selectedFilePath := path_join W directory capbilityModelFileName in
      folderPath <- selectWorkspaceItem ;;
      match folderPath with
      | Some (String c cs) =>
          let folderPath := String c cs in
          languageSelection <-
            showQuickPick "Please select a language:"
              [{| label := "ANSI C"; description := Some ""; detail := None |}] ;;
          match languageSelection with
          | None => Act.ret false
          | Some languageSelection =>
              if negb (bool_decide (label languageSelection = "ANSI C"))
              then Act.ret false
              else
                targetSelection <-
                  showQuickPick "Please select a target:" targetItems ;;
                match targetSelection with
                | None => Act.ret false
                | Some targetSelection =>
                    deviceConnectionSelection <-
                      showQuickPick
                        "Please specify how will the device connect to Azure IoT?"
                        deviceConnectionSelections ;;
                    match deviceConnectionSelection with
                    | None => Act.ret false
                    | Some deviceConnectionSelection =>
                        generate selectedFilePath capbilityModelFileName folderPath
                          interfaceItems (project_type targetSelection)
                          (connection_type deviceConnectionSelection)
                    end
                end
          end
      | _ => Act.throw FolderSelectionCancelled
      end
  end.

(** From the workspace folder to the selection of the capability model.
    The placeholder of the quick pick is built from
    [DigitalTwinConstants.productName], which is not at hand; the empty
    string stands for it. *)
Definition select_capability_model : Act desk failure bool :=
  match workspaceFolders U with
  | None => Act.ret false
  | Some [] => Act.throw TypeError
  | Some (rootPath :: _) =>
      if bool_decide (rootPath = "") then Act.ret false
      else
        fun d =>
          let (metamodelItems, interfaceItems) :=
            scan (store d) (listTreeSync U rootPath) in
          match metamodelItems with
          | [] => (Done false, d)
          | _ =>
              (fileSelection <-
                 showQuickPick
                   ("Select a " +:+ productName C +:+ " capability model file")
                   metamodelItems ;;
               match fileSelection with
               | None => Act.ret false
               | Some fileSelection => ask_and_generate fileSelection interfaceItems
               end) d
          end
  end.

(** The narration on the output channel and the warning and information
    messages are left out; the result of the upgrade is used for the
    narration only. *)
Definition GenerateDeviceCodeStub : Act desk failure bool :=
  upgradestate <- upgrade_generator ;;
  select_capability_model.


(** The item offered for a capability model file. *)
Definition capability_item (filePath : string) : QuickPickItem :=
  {| label := basename U filePath; description := Some (dirname U filePath);
     detail := None |}.




End CodeGen.

(** * Configuration of the project environment

    [ProjectEnvironmentConfiger]: [configureProjectEnvironmentCore] and
    the prompts it shows. *)

Inductive PlatformType : Type :=
  | EmbeddedLinux
  | Arduino
  | OtherPlatform.

Record ProjectTemplate : Type := {
  template_tag : string;
  template_name : string;
  template_path : string;
  template_description : string
}.

(** Of a template file, what the configuration reads. *)
Record TemplateFileInfo : Type := {
  fileName : string;
  targetPath : string
}.

(** What [JSON.parse] makes of the template list: a falsy value, or a
    document with or without [templates]. *)
Inductive TemplatesType : Type :=
  | Falsy
  | Templates (templates : option (list ProjectTemplate)).

(** [telemetryContext.properties]. *)
Record Telemetry : Type := {
  t_platform : option PlatformType;
  t_templateName : option string;
  t_customizeEnvironment : option string;
  t_errorMessage : option string;
  t_result : option string
}.

Inductive EnvError : Type :=
  | ProjectPathEmpty          (* 'Unable to find the project path, ...' *)
  | ReadFileError             (* FileUtility.readFile rejected *)
  | TemplateSyntaxError       (* JSON.parse threw *)
  | TemplateListError         (* 'Fail to load template list.' *)
  | TemplatesTypeError        (* templates of a document that has none *)
  | TemplateNameError         (* 'Internal Error: Cannot get template name ...' *)
  | UnsupportedPlatform       (* 'Unsupported Platform type!' *)
  | EnvironmentTemplateError  (* 'Fail to get project development environment template files.' *)
  | TemplateFilesError        (* utils.getTemplateFilesInfo rejected *)
  | FileExistsError           (* FileUtility.fileExists rejected *)
  | CancelOperationError (message : string)
  | ConfigureError.           (* project.configureProjectEnv rejected *)

Inductive EnvCall : Type :=
  | Asked (placeHolder : string) (items : list QuickPickItem)
  | ConfigureProjectEnv (platform : PlatformType) (projectPath : string)
      (templateFilesInfo : list TemplateFileInfo)
      (openInNewWindow customizeEnvironment : bool).

(** The store of the configuration: the answers the user is going to
    give, the calls made, and the telemetry properties. *)
Record session : Type := {
  answers : list answer;
  calls : list EnvCall;
  telemetry : Telemetry
}.

(** The collaborators of the configuration. *)
Record Configurer : Type := {
  DevelopmentEnvironment : string;    (* TemplateTag.DevelopmentEnvironment *)
  (* context.asAbsolutePath(path.join(resources, templates, name)) *)
  template_location : string -> string;
  templateFileName : string;          (* FileNames.templateFileName *)
  (* FileUtility.readFile(scaffoldType, path, 'utf8'); [None] when it rejects *)
  readFile : string -> option string;
  (* JSON.parse of the template list; [None] when it throws *)
  parse_templates : string -> option TemplatesType;
  (* utils.getTemplateFilesInfo; [None] when it rejects *)
  getTemplateFilesInfo : string -> option (list TemplateFileInfo);
  (* FileUtility.fileExists(scaffoldType, path); [None] when it rejects *)
  fileExists : string -> option bool;
  (* path.join(projectPath, targetPath, fileName) *)
  join3 : string -> string -> string -> string;
  (* project.configureProjectEnv: does it resolve *)
  configureProjectEnv_resolves :
    PlatformType -> string -> list TemplateFileInfo -> bool -> bool -> bool
}.

Definition set_telemetry (t : Telemetry) (s : session) : session :=
  {| answers := answers s; calls := calls s; telemetry := t |}.

(** [properties.errorMessage = message; properties.result = 'Cancelled']. *)
Definition cancelled (message : string) (s : session) : session :=
  set_telemetry
    {| t_platform := t_platform (telemetry s);
       t_templateName := t_templateName (telemetry s);
       t_customizeEnvironment := t_customizeEnvironment (telemetry s);
       t_errorMessage := Some message;
       t_result := Some "Cancelled" |} s.

Section Environment.
Variable P : Configurer.
Local Open Scope act_scope.

Definition called (c : EnvCall) : Act session EnvError unit :=
  fun s =>
    (Done tt, {| answers := answers s; calls := calls s ++ [c];
                 telemetry := telemetry s |}).

(** [vscode.window.showQuickPick] on a session. *)
Definition ask (placeHolder : string) (items : list QuickPickItem)
  : Act session EnvError (option QuickPickItem) :=
  called (Asked placeHolder items) ;;;
  fun s =>
    match answers s with
    | [] => (Done None, s)
    | a :: rest =>
        (Done (match a with Pick i => items !! i | _ => None end),
         {| answers := rest; calls := calls s; telemetry := telemetry s |})
    end.

Definition is_environment (template : ProjectTemplate) : bool :=
  String.eqb (template_tag template) (DevelopmentEnvironment P).

Definition selectContainer (templates : list ProjectTemplate)
  : Act session EnvError (option QuickPickItem) :=
  let containerTemplates := List.filter is_environment templates in
  let containerList :=
    map (fun container =>
           {| label := template_name container;
              description := Some (template_description container);
              detail := None |}) containerTemplates in
  ask "Select a platform" containerList.

Definition askToOverwriteFile (fileName : string)
  : Act session EnvError QuickPickItem :=
  overwriteSelection <-
    ask ("Configuration file " +:+ fileName +:+
         " already exists. Do you want to overwrite all existed configuration files or cancel the configuration process?")
      [ {| label := "No"; description := None;
           detail := Some "Do not overwrite existed file and cancel the configuration process." |};
        {| label := "Yes to all"; description := None;
           detail := Some "Automatically overwrite all configuration files." |} ] ;;
  match overwriteSelection with
  | None =>
      Act.throw (CancelOperationError
                   ("Ask to overwrite " +:+ fileName +:+ " selection cancelled."))
  | Some overwriteSelection => Act.ret overwriteSelection
  end.

Fixpoint askToOverwrite (projectPath : string)
    (templateFilesInfo : list TemplateFileInfo) : Act session EnvError bool :=
  match templateFilesInfo with
  | [] => Act.ret true      (* No files exist, overwrite directly. *)
  | fileInfo :: rest =>
      let targetFilePath :=
        join3 P projectPath (targetPath fileInfo) (fileName fileInfo) in
      match fileExists P targetFilePath with
      | None => Act.throw FileExistsError
      | Some true =>
          fileOverwrite <- askToOverwriteFile (fileName fileInfo) ;;
          Act.ret (String.eqb (label fileOverwrite) "Yes to all")
      | Some false => askToOverwrite projectPath rest
      end
  end.

Definition askToCustomize : Act session EnvError bool :=
  customizationSelection <-
    ask "Do you want to customize the development environment?"
      [ {| label := "Yes"; description := Some ""; detail := None |};
        {| label := "No"; description := Some ""; detail := None |} ] ;;
  match customizationSelection with
  | None =>
      Act.throw (CancelOperationError
                   "Ask to customization development environment selection cancelled.")
  | Some customizationSelection =>
      Act.ret (String.eqb (label customizationSelection) "Yes")
  end.

(** From the list of template files on: steps 3 to 5. *)
Definition overwrite_and_configure (platform : PlatformType) (projectPath : string)
    (templateFilesInfo : list TemplateFileInfo) (openInNewWindow : bool)
  : Act session EnvError unit :=
  fun s0 =>
    match askToOverwrite projectPath templateFilesInfo s0 with
    | (Failed (CancelOperationError message), s) => (Done tt, cancelled message s)
    | (Failed e, s) => (Failed e, s)
    | (Done false, s) =>
        (Done tt,
         cancelled "Do not overwrite configuration files and cancel configuration process." s)
    | (Done true, s) =>
        let configure (customizeEnvironment : bool) : Act session EnvError unit :=
          called (ConfigureProjectEnv platform projectPath templateFilesInfo
                    openInNewWindow customizeEnvironment) ;;;
          if configureProjectEnv_resolves P platform projectPath templateFilesInfo
               openInNewWindow customizeEnvironment
          then Act.ret tt else Act.throw ConfigureError in
        match platform with
        | EmbeddedLinux =>
            match askToCustomize s with
            | (Failed (CancelOperationError message), s') =>
                (Done tt, cancelled message s')
            | (Failed e, s') => (Failed e, s')
            | (Done customizeEnvironment, s') =>
                configure customizeEnvironment
                  (set_telemetry
                     {| t_platform := t_platform (telemetry s');
                        t_templateName := t_templateName (telemetry s');
                        t_customizeEnvironment :=
                          Some (if customizeEnvironment then "true" else "false");
                        t_errorMessage := t_errorMessage (telemetry s');
                        t_result := t_result (telemetry s') |} s')
            end
        | _ => configure false s
        end
    end.

(** The template of the environment, from the template list on. *)
Definition configure_with_template (platform : PlatformType) (projectPath : string)
    (templates : option (list ProjectTemplate)) (templateName : string)
    (openInNewWindow : bool) : Act session EnvError unit :=
  (fun s =>
     (Done tt,
      set_telemetry
        {| t_platform := t_platform (telemetry s);
           t_templateName := Some templateName;
           t_customizeEnvironment := t_customizeEnvironment (telemetry s);
           t_errorMessage := t_errorMessage (telemetry s);
           t_result := t_result (telemetry s) |} s)) ;;;
  match templates with
  | None => Act.throw TemplatesTypeError
  | Some templates =>
      let projectEnvTemplate :=
        List.filter
          (fun template =>
             is_environment template &&
             String.eqb (template_name template) templateName)
          templates in
      match projectEnvTemplate with
      | [] => Act.throw EnvironmentTemplateError
      | template :: _ =>
          let templateFolder := template_location P (template_path template) in
          match getTemplateFilesInfo P templateFolder with
          | None => Act.throw TemplateFilesError
          | Some templateFilesInfo =>
              overwrite_and_configure platform projectPath templateFilesInfo
                openInNewWindow
          end
      end
  end.

Definition configureProjectEnvironmentCore (projectPath : string)
    (platform : PlatformType) (openInNewWindow : bool) : Act session EnvError unit :=
  (fun s =>
     (Done tt,
      set_telemetry
        {| t_platform := Some platform;
           t_templateName := t_templateName (telemetry s);
           t_customizeEnvironment := t_customizeEnvironment (telemetry s);
           t_errorMessage := t_errorMessage (telemetry s);
           t_result := t_result (telemetry s) |} s)) ;;;
  if bool_decide (projectPath = "") then Act.throw ProjectPathEmpty
  else
    match readFile P (template_location P (templateFileName P)) with
    | None => Act.throw ReadFileError
    | Some templateJsonFileString =>
        match parse_templates P templateJsonFileString with
        | None => Act.throw TemplateSyntaxError
        | Some Falsy => Act.throw TemplateListError
        | Some (Templates templates) =>
            match platform with
            | EmbeddedLinux =>
                match templates with
                | None => Act.throw TemplatesTypeError
                | Some templates =>
                    containerSelection <- selectContainer templates ;;
                    match containerSelection with
                    | None =>
                        fun s => (Done tt, cancelled "Container selection cancelled." s)
                    | Some containerSelection =>
                        let templateName := label containerSelection in
                        if bool_decide (templateName = "")
                        then Act.throw TemplateNameError
                        else configure_with_template platform projectPath
                               (Some templates) templateName openInNewWindow
                    end
                end
            | Arduino =>
                configure_with_template platform projectPath templates
                  "Arduino Task" openInNewWindow
            | OtherPlatform => Act.throw UnsupportedPlatform
            end
        end
    end.
(** ** What a run leaves in a session *)

Definition overwrite_prompt (name : string) : EnvCall :=
  Asked ("Configuration file " +:+ name +:+
         " already exists. Do you want to overwrite all existed configuration files or cancel the configuration process?")
    [ {| label := "No"; description := None;
         detail := Some "Do not overwrite existed file and cancel the configuration process." |};
      {| label := "Yes to all"; description := None;
         detail := Some "Automatically overwrite all configuration files." |} ].

Definition target_exists (projectPath : string) (f : TemplateFileInfo) : option bool :=
  fileExists P (join3 P projectPath (targetPath f) (fileName f)).

Definition is_configure (c : EnvCall) : bool :=
  match c with ConfigureProjectEnv _ _ _ _ _ => true | Asked _ _ => false end.

Definition customize_prompt : EnvCall :=
  Asked "Do you want to customize the development environment?"
    [ {| label := "Yes"; description := Some ""; detail := None |};
      {| label := "No"; description := Some ""; detail := None |} ].

(** What a run of steps 3 to 5 adds to a session: prompts, then at most
    one configuration. *)
Definition steps_shape (platform : PlatformType) (projectPath : string)
    (infos : list TemplateFileInfo) (openInNewWindow : bool) (s : session)
    (run : outcome EnvError unit * session) : Prop :=
  let (r, s') := run in
  (forall message, r <> Failed (CancelOperationError message)) /\
  exists asks,
    Forall (fun c => is_configure c = false) asks /\
    (platform <> EmbeddedLinux -> ~ In customize_prompt asks) /\
    ((calls s' = calls s ++ asks /\
      (r = Done tt ->
       t_result (telemetry s') = Some "Cancelled" /\
       is_Some (t_errorMessage (telemetry s')))) \/
     (exists customizeEnvironment,
        calls s' =
          calls s ++ asks ++
          [ConfigureProjectEnv platform projectPath infos openInNewWindow
             customizeEnvironment] /\
        (platform <> EmbeddedLinux ->
         customizeEnvironment = false /\ telemetry s' = telemetry s) /\
        (platform = EmbeddedLinux ->
         t_customizeEnvironment (telemetry s') =
           Some (if customizeEnvironment then "true" else "false")) /\
        (Exists (fun f => target_exists projectPath f = Some true) infos ->
         exists rest, answers s = Pick 1 :: rest) /\
        (r = Done tt <->
         configureProjectEnv_resolves P platform projectPath infos
           openInNewWindow customizeEnvironment = true))).

(** A run that stops before step 3: it fails, or the container prompt
    was dismissed. *)
Definition stops_early (platform : PlatformType) (s : session)
    (run : outcome EnvError unit * session) : Prop :=
  exists asks,
    calls run.2 = calls s ++ asks /\
    Forall (fun c => is_configure c = false) asks /\
    (platform <> EmbeddedLinux -> asks = []) /\
    ~ In customize_prompt asks /\
    ((exists e, run.1 = Failed e /\
                forall message, e <> CancelOperationError message) \/
     (run.1 = Done tt /\
      t_result (telemetry run.2) = Some "Cancelled" /\
      is_Some (t_errorMessage (telemetry run.2)))).

(** The answer that the overwrite prompt consumes: the second one after
    a container prompt, the first one otherwise. *)
Definition overwrite_answer (platform : PlatformType) (s : session) : option answer :=
  answers s !! (match platform with EmbeddedLinux => 1 | _ => 0 end)%nat.

(** What a run of the configuration adds to a session. *)
Definition core_shape (projectPath : string) (platform : PlatformType)
    (openInNewWindow : bool) (s : session)
    (run : outcome EnvError unit * session) : Prop :=
  (forall message, run.1 <> Failed (CancelOperationError message)) /\
  exists asks,
    Forall (fun c => is_configure c = false) asks /\
    (platform <> EmbeddedLinux -> ~ In customize_prompt asks) /\
    ((calls run.2 = calls s ++ asks /\
      (run.1 = Done tt ->
       t_result (telemetry run.2) = Some "Cancelled" /\
       is_Some (t_errorMessage (telemetry run.2)))) \/
     (exists infos customizeEnvironment,
        calls run.2 =
          calls s ++ asks ++
          [ConfigureProjectEnv platform projectPath infos openInNewWindow
             customizeEnvironment] /\
        (platform <> EmbeddedLinux -> customizeEnvironment = false) /\
        (platform = EmbeddedLinux ->
         t_customizeEnvironment (telemetry run.2) =
           Some (if customizeEnvironment then "true" else "false")) /\
        (Exists (fun f => target_exists projectPath f = Some true) infos ->
         overwrite_answer platform s = Some (Pick 1)) /\
        (run.1 = Done tt <->
         configureProjectEnv_resolves P platform projectPath infos
           openInNewWindow customizeEnvironment = true))).

End Environment.

(** ** A sample project *)

Module Project.

Definition templates : list ProjectTemplate :=
  [ {| template_tag := "general"; template_name := "Arduino Task";
       template_path := "examples"; template_description := "An example" |};
    {| template_tag := "development_environment"; template_name := "Arduino Task";
       template_path := "arduino_task"; template_description := "Tasks of Arduino" |};
    {| template_tag := "development_environment"; template_name := "Raspberry Pi";
       template_path := "raspberrypi"; template_description := "A container" |} ].

(** A project folder in which [c_cpp_properties.json] exists already. *)
Definition configurer : Configurer :=
  {| DevelopmentEnvironment := "development_environment";
     template_location := fun name => "/extension/resources/templates/" +:+ name;
     templateFileName := "templates.json";
     readFile := fun _ => Some "templates";
     parse_templates := fun _ => Some (Templates (Some templates));
     getTemplateFilesInfo := fun _ =>
       Some [ {| fileName := "tasks.json"; targetPath := ".vscode" |};
              {| fileName := "c_cpp_properties.json"; targetPath := ".vscode" |};
              {| fileName := "settings.json"; targetPath := ".vscode" |} ];
     fileExists := fun path =>
       Some (String.eqb path "/project/.vscode/c_cpp_properties.json");
     join3 := fun a b c => a +:+ "/" +:+ b +:+ "/" +:+ c;
     configureProjectEnv_resolves := fun _ _ _ _ _ => true |}.

Definition session_with (answers : list answer) : session :=
  {| answers := answers; calls := [];
     telemetry := {| t_platform := None; t_templateName := None;
                     t_customizeEnvironment := None; t_errorMessage := None;
                     t_result := None |} |}.

End Project.

(** * Upload to a Raspberry Pi

    [RaspberryPiDevice]: the SSH settings it asks for, and [upload]. *)

Module RaspberryPi.

(** The static fields of [RaspberryPiUploadConfig]. *)
Record RaspberryPiUploadConfig : Type := {
  host : string;
  port : jsnum;
  user : string;
  password : string;
  projectPath : string;
  updated : bool
}.

Definition initial : RaspberryPiUploadConfig :=
  {| host := "hostname"; port := JS.of_Z 22; user := "username";
     password := "password"; projectPath := "IoTProject"; updated := false |}.

(** Of a [DeviceInfo], the optional fields that are read. *)
Record DeviceInfo : Type := {
  device_ip : option string;
  device_host : option string
}.

(** A quick-pick item whose label may be [undefined], as the address of a
    discovered device may be. *)
Record PickItem : Type := {
  item_label : option string;
  item_description : option string;
  item_detail : option string
}.

Inductive Rejection : Type :=
  | AskAndOpenInRemote | Discover | FileExists | ExecuteCommand | Open | UploadFile
  | Exec | Close.

(** [OperationFailedError] is kept with its operation and the error its
    message is made of. *)
Inductive DeviceError : Type :=
  | OperationCanceledError (message : string)
  | OperationFailedError (operation : string) (cause : DeviceError)
  | Rejected (call : Rejection).

Inductive Shown : Type :=
  | QuickPick (placeHolder : string) (items : list PickItem)
  | InputBox (prompt : string)
  | OpenInRemote                       (* askAndOpenInRemote(OperationType.Upload, ..) *)
  | WarningMessage (message : string)
  | InformationMessage (message : string)
  | ChannelLine (message : string)
  | SshOpen (host : string) (port : jsnum) (user password : string)
  | SshUploadFile (filePath remotePath : string)
  | SshExec (command : string)
  | SshClose.

Record terminal : Type := {
  config : RaspberryPiUploadConfig;
  replies : list answer;
  scans : nat;                         (* the calls of sdk.SSH.discover so far *)
  shown : list Shown
}.

(** The device and its surroundings. *)
Record Board : Type := {
  isRemote : bool;                     (* RemoteExtension.isRemote(extensionContext) *)
  askAndOpenInRemote_resolves : bool;  (* askAndOpenInRemote(OperationType.Upload, ..) *)
  projectFolder : string;
  outputPath : string;
  cmakeFileName : string;              (* FileNames.cmakeFileName *)
  join : string -> string -> string;   (* path.join *)
  fileExists : string -> option bool;  (* [None] when it rejects *)
  executeCommand : string -> option string;
  discover : nat -> option (list DeviceInfo);   (* the n-th sdk.SSH.discover *)
  ssh_open : string -> jsnum -> string -> string -> bool;
  ssh_uploadFile : string -> string -> bool;
  ssh_exec : string -> bool;
  ssh_close : bool
}.

Definition set_config (c : RaspberryPiUploadConfig) (t : terminal) : terminal :=
  {| config := c; replies := replies t; scans := scans t; shown := shown t |}.

Definition truthy (x : option string) : bool :=
  match x with
  | Some s => negb (String.eqb s "")
  | None => false
  end.

Definition label_is (item : PickItem) (text : string) : bool :=
  match item_label item with
  | Some l => String.eqb l text
  | None => false
  end.

Section Device.
Variable B : Board.
Local Open Scope act_scope.

Definition show (x : Shown) : Act terminal DeviceError unit :=
  fun t =>
    (Done tt,
     {| config := config t; replies := replies t; scans := scans t;
        shown := shown t ++ [x] |}).

Definition reply : Act terminal DeviceError answer :=
  fun t =>
    match replies t with
    | [] => (Done Dismiss, t)
    | a :: rest =>
        (Done a,
         {| config := config t; replies := rest; scans := scans t;
            shown := shown t |})
    end.

Definition quickPick (placeHolder : string) (items : list PickItem)
  : Act terminal DeviceError (option PickItem) :=
  show (QuickPick placeHolder items) ;;;
  a <- reply ;;
  Act.ret (match a with Pick i => items !! i | _ => None end).

Definition inputBox (prompt : string) : Act terminal DeviceError (option string) :=
  show (InputBox prompt) ;;;
  a <- reply ;;
  Act.ret (match a with Text value => Some value | _ => None end).

Definition getBinaryFileName : Act terminal DeviceError (option string) :=
  let cmakeFilePath := join B (projectFolder B) (cmakeFileName B) in
  match fileExists B cmakeFilePath with
  | None => Act.throw (Rejected FileExists)
  | Some false => Act.ret None
  | Some true =>
      let getBinaryFileNameCmd :=
        "cat " +:+ cmakeFilePath +:+ " | grep 'add_executable' " +:+
        "    | sed -e 's/^add_executable(//' | awk '{$1=$1};1' | cut -d ' ' -f1 | tr -d '" +:+
        String (ascii_of_nat 10) "'" in
      match executeCommand B getBinaryFileNameCmd with
      | None => Act.throw (Rejected ExecuteCommand)
      | Some binaryName => Act.ret (Some binaryName)
      end
  end.

Definition enableBinaryExecutability (binaryName : string)
  : Act terminal DeviceError unit :=
  if String.eqb binaryName "" then Act.ret tt
  else
    fun t =>
      let chmodCmd :=
        "cd " +:+ projectPath (config t) +:+ " && [ -f " +:+ binaryName +:+
        " ] && chmod +x " +:+ binaryName in
      (show (SshExec chmodCmd) ;;;
       if ssh_exec B chmodCmd then Act.ret tt else Act.throw (Rejected Exec)) t.

Definition device_items (deviceInfos : list DeviceInfo) : list PickItem :=
  map (fun deviceInfo =>
         {| item_label := device_ip deviceInfo;
            item_description :=
              Some (if truthy (device_host deviceInfo)
                    then default "" (device_host deviceInfo) else "<Unknown>");
            item_detail := None |}) deviceInfos ++
  [ {| item_label := Some "$(sync) Discover again"; item_description := None;
       item_detail := Some "Auto discover SSH enabled device in LAN" |};
    {| item_label := Some "$(gear) Manual setup"; item_description := None;
       item_detail := Some "Setup device SSH configuration manually" |} ].

(** [autoDiscoverDeviceIp]: one more discovery. *)
Definition autoDiscoverDeviceIp : Act terminal DeviceError (list PickItem) :=
  fun t =>
    let t' :=
      {| config := config t; replies := replies t; scans := S (scans t);
         shown := shown t |} in
    match discover B (scans t) with
    | None => (Failed (Rejected Discover), t')
    | Some deviceInfos => (Done (device_items deviceInfos), t')
    end.

(** The loop that discovers and asks, as long as the answer is to discover
    again; [script] is what is left of the replies, one of which every
    turn takes. *)
Fixpoint selectDevice (script : list answer)
  : Act terminal DeviceError (option PickItem) :=
  selectDeviceItems <- autoDiscoverDeviceIp ;;
  selectDeviceChoice <- quickPick "Select a device" selectDeviceItems ;;
  match script with
  | [] => Act.ret selectDeviceChoice
  | _ :: rest =>
      match selectDeviceChoice with
      | Some item =>
          if label_is item "$(sync) Discover again" then selectDevice rest
          else Act.ret selectDeviceChoice
      | None => Act.ret selectDeviceChoice
      end
  end.

Definition configDeviceSettings : Act terminal DeviceError unit :=
  sshDiscoverOrInputChoice <-
    quickPick "Select an option"
      [ {| item_label := Some "$(search) Auto discover"; item_description := None;
           item_detail := Some "Auto discover SSH enabled device in LAN" |};
        {| item_label := Some "$(gear) Manual setup"; item_description := None;
           item_detail := Some "Setup device SSH configuration manually" |} ] ;;
  match sshDiscoverOrInputChoice with
  | None => Act.throw (OperationCanceledError "SSH configuration type selection cancelled.")
  | Some sshDiscoverOrInputChoice =>
      raspiHost <-
        (if label_is sshDiscoverOrInputChoice "$(search) Auto discover" then
           selectDeviceChoice <- (fun t => selectDevice (replies t) t) ;;
           match selectDeviceChoice with
           | None => Act.throw (OperationCanceledError "Device selection cancelled.")
           | Some selectDeviceChoice =>
               if label_is selectDeviceChoice "$(gear) Manual setup"
               then Act.ret None
               else Act.ret (item_label selectDeviceChoice)
           end
         else Act.ret None) ;;
      raspiHost <-
        (if truthy raspiHost then Act.ret (default "" raspiHost)
         else
           raspiHost <- inputBox "Please input device ip or hostname here." ;;
           if truthy raspiHost then Act.ret (default "" raspiHost)
           else Act.throw (OperationCanceledError "Hostname input cancelled.")) ;;
      raspiPortString <- inputBox "Please input SSH port here." ;;
      if negb (truthy raspiPortString)
      then Act.throw (OperationCanceledError "Port input cancelled.")
      else
        raspiPort <-
          (fun t =>
             (Done (if negb (is_nan (JS.Number raspiPortString))
                    then JS.Number raspiPortString
                    else port (config t)), t)) ;;
        raspiUser <- inputBox "Please input user name here." ;;
        if negb (truthy raspiUser)
        then Act.throw (OperationCanceledError "User name input cancelled.")
        else
          raspiPassword <- inputBox "Please input password here." ;;
          match raspiPassword with
          | None => Act.throw (OperationCanceledError "Password input cancelled.")
          | Some entered =>
              raspiPassword <-
                (fun t =>
                   (Done (if String.eqb entered "" then password (config t)
                          else entered), t)) ;;
              raspiPath <- inputBox "Please input project destination path here." ;;
              if negb (truthy raspiPath)
              then Act.throw (OperationCanceledError
                                "Project destination path input cancelled.")
              else
                (fun t =>
                   (Done tt,
                    set_config
                      {| host := raspiHost; port := raspiPort;
                         user := default "" raspiUser;
                         password := raspiPassword;
                         projectPath := default "" raspiPath;
                         updated := true |} t)) ;;;
                show (InformationMessage "Config SSH successfully.")
          end
  end.

(** The body of the [try] block of [upload]. *)
Definition upload_body : Act terminal DeviceError bool :=
  binaryName <- getBinaryFileName ;;
  if negb (truthy binaryName) then
    let message :=
      "No executable file specified in " +:+ cmakeFileName B +:+
      ".         Nothing to upload to target machine." in
    show (WarningMessage message) ;;;
    show (ChannelLine message) ;;;
    Act.ret false
  else
    let binaryName := default "" binaryName in
    let binaryFilePath := join B (outputPath B) binaryName in
    match fileExists B binaryFilePath with
    | None => Act.throw (Rejected FileExists)
    | Some false =>
        let message :=
          "Executable file " +:+ binaryName +:+ " does not exist under " +:+
          outputPath B +:+ ".         Please compile device code first." in
        show (WarningMessage message) ;;;
        show (ChannelLine message) ;;;
        Act.ret false
    | Some true =>
        (fun t =>
           (if updated (config t) then Act.ret tt else configDeviceSettings) t) ;;;
        (fun t =>
           let c := config t in
           (show (SshOpen (host c) (port c) (user c) (password c)) ;;;
            if ssh_open B (host c) (port c) (user c) (password c)
            then Act.ret tt else Act.throw (Rejected Open)) t) ;;;
        Act.catch
          (fun t =>
             let remotePath := projectPath (config t) in
             (show (SshUploadFile binaryFilePath remotePath) ;;;
              if ssh_uploadFile B binaryFilePath remotePath
              then Act.ret tt else Act.throw (Rejected UploadFile)) t)
          (fun error =>
             Act.throw (OperationFailedError "upload file to device" error)) ;;;
        Act.catch (enableBinaryExecutability binaryName)
          (fun error =>
             Act.throw (OperationFailedError "enable binary executability" error)) ;;;
        Act.catch
          (show SshClose ;;;
           if ssh_close B then Act.ret tt else Act.throw (Rejected Close))
          (fun error =>
             Act.throw (OperationFailedError "close SSH connection" error)) ;;;
        let message := "Successfully deploy compiled files to device board." in
        show (ChannelLine message) ;;;
        show (InformationMessage message) ;;;
        Act.ret true
    end.

Definition upload : Act terminal DeviceError bool :=
  if negb (isRemote B) then
    show OpenInRemote ;;;
    if askAndOpenInRemote_resolves B then Act.ret false
    else Act.throw (Rejected AskAndOpenInRemote)
  else
    Act.catch upload_body
      (fun error t =>
         (Failed
            (OperationFailedError
               ("upload binary file to device " +:+ user (config t) +:+ "@" +:+
                host (config t) +:+ " failed.") error), t)).


End Device.



(** ** A sample board *)

Definition board : Board :=
  {| isRemote := true;
     askAndOpenInRemote_resolves := true;
     projectFolder := "/work/device";
     outputPath := "/work/device/cmake";
     cmakeFileName := "CMakeLists.txt";
     join := fun a b => a +:+ "/" +:+ b;
     fileExists := fun _ => Some true;
     executeCommand := fun _ => Some "blink";
     discover := fun n =>
       Some (if Nat.eqb n 0 then []
             else [ {| device_ip := Some "192.168.0.7";
                       device_host := Some "raspberrypi" |} ]);
     ssh_open := fun _ _ _ password => String.eqb password "raspberry";
     ssh_uploadFile := fun _ _ => true;
     ssh_exec := fun _ => true;
     ssh_close := true |}.

Definition terminal_with (replies : list answer) : terminal :=
  {| config := initial; replies := replies; scans := 0; shown := [] |}.

End RaspberryPi.

(** ** Further sample data *)
Module Scenario.

(** The sample world with an archive reader that fails after having
    created the target directory. *)
Definition broken_world : World :=
  {| extensionVersion := "1.5.0";
     codeGenConfigUrl := "https://host/config.json";
     platform := "linux";
     homedir := "/home/user";
     tmpdir := "/tmp";
     path_join := fun a b => a +:+ "/" +:+ b;
     path_dirname := fun p => String.concat "/" (removelast (JS.split "/" p));
     mkdirp := fun dir => [dir];
     get_json := fun _ => Some (Some Sample.config);
     get_binary := fun _ => Some "payload";
     writable := fun _ => true;
     md5_hex := fun _ => "abc123";
     unzip := fun _ => UnzipError true [];
     settings_writable := true |}.

(** The sample world without a network. *)
Definition offline_world : World :=
  {| extensionVersion := "1.5.0";
     codeGenConfigUrl := "https://host/config.json";
     platform := "linux";
     homedir := "/home/user";
     tmpdir := "/tmp";
     path_join := fun a b => a +:+ "/" +:+ b;
     path_dirname := fun p => String.concat "/" (removelast (JS.split "/" p));
     mkdirp := fun dir => [dir];
     get_json := fun _ => Some (Some Sample.config);
     get_binary := fun _ => None;
     writable := fun _ => true;
     md5_hex := fun _ => "abc123";
     unzip := fun _ => Unzipped [];
     settings_writable := true |}.


(** Generator 1.3.0 is recorded, its directory has been removed. *)
Definition removed : state :=
  {| files := ∅; dirs := ∅;
     settings := {["codeGeneratorVersion" := "1.3.0"]}; trace := [] |}.

End Scenario.

(** ** A sample workspace *)
Module Workspace.

Definition constants : StubConstants :=
  {| capabilityModelSuffix := ".capabilitymodel.json";
     interfaceSuffix := ".interface.json";
     modelRepositoryKeyName := "ModelRepositoryKey";
     codeGeneratorExecutionInfo := "CodeGeneratorExecutionInfo";
     productName := "IoT Plug and Play" |}.

(** The part of a path after its last slash, and the part before it. *)
Definition base (p : string) : string := List.last (JS.split "/" p) "".

Definition parent (p : string) : string :=
  String.concat "/" (removelast (JS.split "/" p)).

(** The documents of the workspace, by their text. *)
Definition parse (text : string) : option json :=
  if String.eqb text "thermostat" then
    Some (JObject
            [("@id", JString "urn:thermostat");
             ("implements",
              JArray [JObject [("schema", JString "urn:sensor")];
                      JObject [("schema", JObject [("@id", JString "urn:inline")])]])])
  else if String.eqb text "cloud" then
    Some (JObject
            [("implements", JArray [JObject [("schema", JString "urn:remote")]])])
  else if String.eqb text "sensor" then
    Some (JObject [("@id", JString "urn:sensor")])
  else None.

(** A generator that reports a failure. *)
Definition generator : CodeGenerator := fun _ _ _ _ => Some false.

(** The private repository ["repo"] holds nothing, the public one holds
    the interface ["urn:remote"]. *)
Definition studio : Studio :=
  {| workspaceFolders := Some ["/ws"];
     listTreeSync := fun _ =>
       ["/ws/models"; "/ws/models/thermostat.capabilitymodel.json";
        "/ws/models/sensor.interface.json"; "/ws/notes.txt"];
     basename := base;
     dirname := parent;
     JSON_parse := parse;
     JSON_stringify := fun info => targetFolder info;
     mkdir_succeeds := fun _ => true;
     generateInterfaceFileNameFromUrnId := fun id _ => id +:+ ".interface.json";
     ConnectMetamodelRepository := fun _ => Some true;
     RepositoryIdValue := fun _ => Some "repo";
     GetInterfaceAsync := fun id repo =>
       match repo with
       | Some _ => None
       | None => if String.eqb id "urn:remote" then Some (Some "remote") else Some None
       end;
     CreateCodeGeneratorImpl := fun _ _ => Some generator |}.

(** Generator 1.3.0 is installed; the workspace holds a capability model
    and the interface it implements. *)
Definition installed : state :=
  {| files := {[ "/ws/models/thermostat.capabilitymodel.json" := "thermostat";
                 "/ws/models/sensor.interface.json" := "sensor";
                 "/ws/notes.txt" := "notes" ]};
     dirs := {[ "/ws"; "/ws/models"; "/home/user/codegen" ]};
     settings := {[ "codeGeneratorVersion" := "1.3.0" ]};
     trace := [] |}.

Definition desk_with (answers : list answer) : desk :=
  {| store := installed; script := answers; journal := [] |}.

Definition info : CodeGenExecutionInfo :=
  {| schemaFolder := "schema"; targetFolder := "/out"; languageLabel := "ANSI C";
     codeGenProjectType := CMake; deviceConnectionType := DeviceConnectionString |}.

(** A studio whose private repository holds every interface. *)
Definition private_studio : Studio :=
  {| workspaceFolders := workspaceFolders studio;
     listTreeSync := listTreeSync studio;
     basename := base;
     dirname := parent;
     JSON_parse := parse;
     JSON_stringify := JSON_stringify studio;
     mkdir_succeeds := fun _ => true;
     generateInterfaceFileNameFromUrnId := generateInterfaceFileNameFromUrnId studio;
     ConnectMetamodelRepository := fun _ => Some true;
     RepositoryIdValue := fun _ => Some "repo";
     GetInterfaceAsync := fun id repo =>
       match repo with
       | Some _ => Some (Some "private")
       | None => Some (Some "public")
       end;
     CreateCodeGeneratorImpl := CreateCodeGeneratorImpl studio |}.

(** The connection string of the repository is configured. *)
Definition configured : desk :=
  {| store := set_settings (<["ModelRepositoryKey" := "HostName=repo"]> (settings installed))
                installed;
     script := []; journal := [] |}.

End Workspace.

(** * Properties *)

(** ** The embedding at work *)

Example Number_examples :
  map JS.StringToNumber ["12"; "007"; ""; " 7 "; "0x10"; "1e3"; "-4"]
  = map JS.of_Z [12; 7; 0; 7; 16; 1000; -4] /\
  map JS.StringToNumber ["x"; "1a"; "1_0"; "0x"; "+"; "e5"]
  = [NaN; NaN; NaN; NaN; NaN; NaN] /\
  map JS.StringToNumber ["9007199254740993"; "1e309"; "-Infinity"]
  = [JS.of_Z 9007199254740992; PosInf; NegInf] /\
  JS.Number None = NaN.
Proof. vm_compute. auto. Qed.

Example split_examples :
  map (JS.split ".") ["1.2.3"; ""; "1..2"; "1.2.3.4"]
  = [["1"; "2"; "3"]; [""]; ["1"; ""; "2"]; ["1"; "2"; "3"; "4"]].
Proof. reflexivity. Qed.

Example is_release_examples :
  map is_release ["1.2.3"; "10.20.30"; "1.2"; "1.2.3.4"; "0.10.0-rc"; "1..3"; "1.2.3 "]
  = [true; true; false; false; false; false; false].
Proof. reflexivity. Qed.

Example compareVersion_examples :
  compareVersion "1.2.3" "1.2.4" = -1 /\ compareVersion "1.10.0" "1.9.0" = 1 /\
  compareVersion "1.2.0" "1.2.0" = 0 /\ compareVersion "1.2" "1.2.5" = 0.
Proof. vm_compute. auto. Qed.

(** The scenario of the specification: the extension 1.5.0 is offered
    generator 1.3.0, generator 1.4.0 being kept for workbench 9.9.9; with
    1.2.0 recorded and the tool directory present an upgrade is needed. *)
Example scenario_selects_1_3_0 :
  targetConfigItem "1.5.0" (Some Sample.config) = Some Sample.item_1_3_0 /\
  fst (needUpgrade Sample.constants (Sample.world "1.5.0" "abc123") Sample.item_1_3_0
         {| files := ∅; dirs := {["/home/user/codegen"]};
            settings := {["codeGeneratorVersion" := "1.2.0"]}; trace := [] |})
  = Ok true.
Proof. vm_compute. auto. Qed.

(** ** The relational operators *)

Module JSFacts.
Import JS.

Lemma lt_Fin (x y : Q) : lt (Fin x) (Fin y) = true <-> Qlt x y.
Proof.
  simpl. rewrite Qlt_alt. destruct (Qcompare x y); intuition congruence.
Qed.

Lemma lt_irrefl (a : jsnum) : lt a a = false.
Proof.
  destruct a as [| |q|]; try reflexivity.
  apply not_true_is_false. rewrite lt_Fin. apply Qlt_irrefl.
Qed.

Lemma lt_asym (a b : jsnum) : lt a b = true -> lt b a = false.
Proof.
  destruct a as [| |x|], b as [| |y|]; simpl; try congruence.
  intros H. apply not_true_is_false. change (lt (Fin y) (Fin x) <> true).
  rewrite lt_Fin. apply (proj1 (lt_Fin x y)) in H.
  intros H'. exact (Qlt_irrefl x (Qlt_trans _ _ _ H H')).
Qed.

(** [a <= b] for numbers that are not [NaN]: [b < a] is false. *)
Lemma lt_le_trans (a b c : jsnum) :
  is_nan c = false -> lt a b = true -> lt c b = false -> lt a c = true.
Proof.
  destruct a as [| |x|], b as [| |y|], c as [| |z|]; simpl; try congruence.
  intros _ Hxy Hzy. change (lt (Fin x) (Fin z) = true).
  apply lt_Fin. apply (proj1 (lt_Fin x y)) in Hxy.
  apply Qlt_le_trans with y; [exact Hxy|].
  apply Qnot_lt_le. intros H. apply (proj2 (lt_Fin z y)) in H.
  simpl in H. congruence.
Qed.

Lemma le_lt_trans (a b c : jsnum) :
  is_nan a = false -> lt b a = false -> lt b c = true -> lt a c = true.
Proof.
  destruct a as [| |x|], b as [| |y|], c as [| |z|]; simpl; try congruence.
  intros _ Hyx Hyz. change (lt (Fin x) (Fin z) = true).
  apply lt_Fin. apply (proj1 (lt_Fin y z)) in Hyz.
  apply Qle_lt_trans with y; [|exact Hyz].
  apply Qnot_lt_le. intros H. apply (proj2 (lt_Fin y x)) in H.
  simpl in H. congruence.
Qed.

Lemma lt_of_N (x y : N) : lt (of_N x) (of_N y) = (x <? y)%N.
Proof.
  unfold of_N, of_Z. apply eq_true_iff_eq. rewrite lt_Fin, N.ltb_lt.
  rewrite <- Zlt_Qlt. lia.
Qed.

End JSFacts.

(** ** The comparator *)

Lemma compareVersion_components (v1 v2 : string) :
  compareVersion v1 v2 = compare_numbers (components v1) (components v2).
Proof. reflexivity. Qed.

Lemma compare_numbers_range (xs ys : list jsnum) :
  compare_numbers xs ys = -1 \/ compare_numbers xs ys = 0 \/ compare_numbers xs ys = 1.
Proof.
  revert ys. induction xs as [|x xs IH]; intros [|y ys]; simpl; auto.
  destruct (JS.gt x y); [auto|]. destruct (JS.lt x y); auto.
Qed.

Lemma compare_numbers_antisym (xs ys : list jsnum) :
  compare_numbers xs ys = - compare_numbers ys xs.
Proof.
  revert ys. induction xs as [|x xs IH]; intros [|y ys]; simpl; auto.
  unfold JS.gt.
  destruct (JS.lt y x) eqn:Hyx.
  - rewrite (JSFacts.lt_asym _ _ Hyx). reflexivity.
  - destruct (JS.lt x y); [reflexivity|apply IH].
Qed.

Lemma compare_numbers_refl (xs : list jsnum) : compare_numbers xs xs = 0.
Proof.
  induction xs as [|x xs IH]; simpl; auto.
  unfold JS.gt. rewrite JSFacts.lt_irrefl. exact IH.
Qed.

Lemma compare_numbers_trans (xs ys zs : list jsnum) :
  forallb (fun x => negb (is_nan x)) xs = true ->
  forallb (fun x => negb (is_nan x)) ys = true ->
  forallb (fun x => negb (is_nan x)) zs = true ->
  length xs = length ys -> length ys = length zs ->
  compare_numbers xs ys <= 0 -> compare_numbers ys zs <= 0 ->
  compare_numbers xs zs <= 0.
Proof.
  revert ys zs.
  induction xs as [|x xs IH]; intros [|y ys] [|z zs]; simpl; try lia.
  intros [Hx Hxs]%andb_prop [Hy Hys]%andb_prop [Hz Hzs]%andb_prop [=Hl1] [=Hl2].
  apply negb_true_iff in Hx, Hy, Hz.
  unfold JS.gt.
  destruct (JS.lt y x) eqn:Hyx; [lia|].
  destruct (JS.lt z y) eqn:Hzy; [lia|].
  destruct (JS.lt x y) eqn:Hxy.
  - intros _ _.
    pose proof (JSFacts.lt_le_trans x y z Hz Hxy Hzy) as Hxz.
    rewrite (JSFacts.lt_asym _ _ Hxz), Hxz. lia.
  - destruct (JS.lt y z) eqn:Hyz.
    + intros _ _.
      pose proof (JSFacts.le_lt_trans x y z Hx Hyx Hyz) as Hxz.
      rewrite (JSFacts.lt_asym _ _ Hxz), Hxz. lia.
    + destruct (JS.lt z x) eqn:Hzx.
      { rewrite (JSFacts.lt_le_trans z x y Hy Hzx Hyx) in Hzy. discriminate. }
      destruct (JS.lt x z) eqn:Hxz; [lia|].
      apply IH; assumption.
Qed.

Lemma compareVersion_range (v1 v2 : string) :
  compareVersion v1 v2 = -1 \/ compareVersion v1 v2 = 0 \/ compareVersion v1 v2 = 1.
Proof. rewrite compareVersion_components. apply compare_numbers_range. Qed.

Lemma compareVersion_antisym (v1 v2 : string) :
  compareVersion v1 v2 = - compareVersion v2 v1.
Proof. rewrite !compareVersion_components. apply compare_numbers_antisym. Qed.

Lemma compareVersion_refl (v : string) : compareVersion v v = 0.
Proof. rewrite compareVersion_components. apply compare_numbers_refl. Qed.

Lemma compareVersion_trans (v1 v2 v3 : string) :
  numeric v1 = true -> numeric v2 = true -> numeric v3 = true ->
  compareVersion v1 v2 <= 0 -> compareVersion v2 v3 <= 0 ->
  compareVersion v1 v3 <= 0.
Proof.
  intros H1 H2 H3. rewrite !compareVersion_components.
  apply compare_numbers_trans; auto.
Qed.

Lemma denotes_numeric (v : string) (a : VersionTriple) :
  denotes v a -> numeric v = true.
Proof. unfold denotes, numeric. intros ->. reflexivity. Qed.

(** On strings that denote triples the comparator is the comparison of
    the specification. *)
Lemma compareVersion_compare_spec (v1 v2 : string) (a b : VersionTriple) :
  denotes v1 a -> denotes v2 b -> compareVersion v1 v2 = compare_spec a b.
Proof.
  unfold denotes. intros Ha Hb.
  rewrite compareVersion_components, Ha, Hb.
  unfold compare_spec, compare_numbers, JS.gt.
  rewrite !JSFacts.lt_of_N.
  destruct a as [a1 a2 a3], b as [b1 b2 b3]; simpl.
  repeat match goal with
         | |- context [(?x <? ?y)%N] => destruct (N.ltb_spec x y)
         | |- context [(?x =? ?y)%N] => destruct (N.eqb_spec x y)
         end; simpl; try reflexivity; lia.
Qed.

Lemma compare_spec_zero (a b : VersionTriple) : compare_spec a b = 0 <-> a = b.
Proof.
  destruct a as [a1 a2 a3], b as [b1 b2 b3]. unfold compare_spec; simpl. split.
  - intros Hc.
    destruct (N.eqb_spec a1 b1); simpl in Hc; [|destruct (a1 <? b1)%N; discriminate].
    destruct (N.eqb_spec a2 b2); simpl in Hc; [|destruct (a2 <? b2)%N; discriminate].
    destruct (N.eqb_spec a3 b3); simpl in Hc; [|destruct (a3 <? b3)%N; discriminate].
    congruence.
  - intros [= -> -> ->]. rewrite !N.eqb_refl. reflexivity.
Qed.

(** ** Conversion of safe integers *)

Lemma Qred_scaled (n c : Z) : 0 < c -> Qred (Qmake (n * c) (Z.to_pos c)) = inject_Z n.
Proof.
  intros Hc.
  rewrite (Qred_complete _ (inject_Z n)).
  - unfold inject_Z, Qred. simpl.
    pose proof (Z.ggcd_gcd n 1) as Hg. pose proof (Z.ggcd_correct_divisors n 1) as Hd.
    destruct (Z.ggcd n 1) as [g [a b]]. simpl in *.
    rewrite Z.gcd_1_r in Hg. subst g. destruct Hd as [Ha Hb].
    rewrite Z.mul_1_l in Ha, Hb. subst. reflexivity.
  - unfold Qeq, inject_Z. simpl. rewrite Z2Pos.id by lia. lia.
Qed.

Lemma round_double_safe (n : Z) : 0 <= n < 2 ^ 53 -> JS.round_double n 1 = JS.of_Z n.
Proof.
  intros Hn. unfold JS.round_double.
  destruct (Z.eqb_spec n 0) as [->|Hn0]; [reflexivity|].
  change (Z.log2 1) with 0. rewrite Z.sub_0_r.
  assert (Hpos : 0 < n) by lia.
  pose proof (Z.log2_spec n Hpos) as [Hlo Hhi].
  pose proof (Z.log2_nonneg n) as He0.
  assert (He : Z.log2 n < 53).
  { apply Z.log2_lt_pow2; lia. }
  rewrite (proj2 (Z.leb_le 0 (Z.log2 n)) He0).
  rewrite Z.mul_1_l, (proj2 (Z.leb_le _ _) Hlo).
  rewrite Z.max_l by lia.
  destruct (Z.leb_spec 0 (Z.log2 n - 52)) as [Hk|Hk].
  - assert (Hk0 : Z.log2 n - 52 = 0) by lia. rewrite Hk0.
    change (1 * 2 ^ 0) with 1. rewrite Z.div_1_r, Z.mod_1_r.
    change (2 * 0 ?= 1) with Lt. cbv iota.
    rewrite (proj2 (Z.eqb_neq n 0) Hn0).
    rewrite Z.add_0_r.
    rewrite (proj2 (Z.leb_gt 1024 (Z.log2 n))) by lia.
    change (0 <=? 0) with true. cbv iota. rewrite Z.mul_1_r. reflexivity.
  - set (c := 2 ^ (- (Z.log2 n - 52))).
    assert (Hc : 0 < c) by (apply Z.pow_pos_nonneg; lia).
    rewrite Z.div_1_r, Z.mod_1_r.
    change (2 * 0 ?= 1) with Lt. cbv iota.
    rewrite (proj2 (Z.eqb_neq (n * c) 0)) by nia.
    assert (Hlog : Z.log2 (n * c) = - (Z.log2 n - 52) + Z.log2 n).
    { unfold c. apply Z.log2_mul_pow2; lia. }
    rewrite Hlog.
    rewrite (proj2 (Z.leb_gt 1024 _)) by lia.
    rewrite Qred_scaled by exact Hc. reflexivity.
Qed.

(** ** Decimal writing and reading *)

Lemma digit_not_white (c : ascii) : JS.is_digit c = true -> JS.is_white c = false.
Proof.
  destruct c as [[] [] [] [] [] [] [] []]; vm_compute; congruence.
Qed.

Lemma digit_not_sign (c : ascii) (s : list ascii) :
  JS.is_digit c = true -> JS.take_sign (c :: s) = (false, c :: s).
Proof.
  destruct c as [[] [] [] [] [] [] [] []]; vm_compute; congruence.
Qed.

Lemma digit_not_prefix (c : ascii) :
  JS.is_digit c = true ->
  (Ascii.eqb c "x" || Ascii.eqb c "X") = false /\
  (Ascii.eqb c "o" || Ascii.eqb c "O") = false /\
  (Ascii.eqb c "b" || Ascii.eqb c "B") = false /\
  c <> "I"%char.
Proof.
  destruct c as [[] [] [] [] [] [] [] []]; vm_compute; intuition congruence.
Qed.

Lemma span_digits_all (l : list ascii) :
  Forall (fun c => JS.is_digit c = true) l -> JS.span_digits l = (l, []).
Proof.
  induction 1 as [|c l Hc _ IH]; simpl; [reflexivity|].
  rewrite Hc, IH. reflexivity.
Qed.

Lemma trim_left_digits (l : list ascii) :
  match l with c :: _ => JS.is_digit c = true | [] => True end -> JS.trim_left l = l.
Proof.
  destruct l as [|c l]; simpl; [reflexivity|].
  intros Hc. rewrite (digit_not_white c Hc). reflexivity.
Qed.

Lemma trim_digits (l : list ascii) :
  Forall (fun c => JS.is_digit c = true) l -> JS.trim l = l.
Proof.
  intros Hl. unfold JS.trim.
  rewrite (trim_left_digits l) by (destruct Hl; auto).
  rewrite trim_left_digits, rev_involutive; [reflexivity|].
  apply Forall_rev in Hl. destruct Hl; auto.
Qed.

Lemma string_of_uint_digits (d : Decimal.uint) :
  Forall (fun c => JS.is_digit c = true) (JS.chars (NilEmpty.string_of_uint d)).
Proof.
  induction d; simpl; constructor; (reflexivity || assumption).
Qed.

Lemma digits_from_acc (d : Decimal.uint) (acc : positive) :
  JS.digits_from 10 (Npos acc) (JS.chars (NilEmpty.string_of_uint d))
  = Some (Npos (Pos.of_uint_acc d acc)).
Proof.
  revert acc. induction d; intros acc; cbn [NilEmpty.string_of_uint JS.chars
    list_ascii_of_string JS.digits_from Pos.of_uint_acc]; [reflexivity|..];
    match goal with
    | |- context [JS.digit_val 10 ?c] =>
        let v := eval vm_compute in (JS.digit_val 10 c) in
        change (JS.digit_val 10 c) with v
    end; cbv iota; fold (JS.chars (NilEmpty.string_of_uint d)); rewrite <- IHd;
    f_equal; lia.
Qed.

Lemma digits_from_zero (d : Decimal.uint) :
  JS.digits_from 10 0%N (JS.chars (NilEmpty.string_of_uint d)) = Some (Pos.of_uint d).
Proof.
  induction d; cbn [NilEmpty.string_of_uint JS.chars list_ascii_of_string
    JS.digits_from Pos.of_uint]; [reflexivity|..];
    match goal with
    | |- context [JS.digit_val 10 ?c] =>
        let v := eval vm_compute in (JS.digit_val 10 c) in
        change (JS.digit_val 10 c) with v
    end; cbv iota; fold (JS.chars (NilEmpty.string_of_uint d));
    try exact IHd; apply (digits_from_acc d).
Qed.

Lemma decimal_digits (n : N) :
  Forall (fun c => JS.is_digit c = true) (JS.chars (decimal n)) /\
  JS.chars (decimal n) <> [] /\
  JS.digits_from 10 0%N (JS.chars (decimal n)) = Some n.
Proof.
  unfold decimal.
  pose proof (DecimalN.Unsigned.of_to n) as Hn.
  assert (Hnil : N.to_uint n <> Decimal.Nil).
  { destruct n as [|p]; [discriminate|apply DecimalPos.Unsigned.to_uint_nonnil]. }
  destruct (N.to_uint n) as [|d|d|d|d|d|d|d|d|d|d] eqn:Hd; [contradiction|..];
    (split; [apply string_of_uint_digits|]; split; [discriminate|];
     rewrite <- Hn; apply digits_from_zero).
Qed.

Lemma Number_decimal (n : N) :
  JS.StringToNumber (decimal n) = JS.round_double (Z.of_N n) 1.
Proof.
  destruct (decimal_digits n) as (Hall & Hne & Hval).
  unfold JS.StringToNumber. rewrite (trim_digits _ Hall).
  destruct (JS.chars (decimal n)) as [|c l] eqn:Hl; [contradiction|].
  apply Forall_cons in Hall as [Hc Hall'].
  assert (Hnd : JS.non_decimal (c :: l) = None).
  { unfold JS.non_decimal. destruct l as [|p ds]; [destruct (Ascii.eqb c "0"); 
      destruct c as [[] [] [] [] [] [] [] []]; reflexivity|].
    apply Forall_cons in Hall' as [Hp _].
    destruct (digit_not_prefix p Hp) as (-> & -> & -> & _).
    destruct c as [[] [] [] [] [] [] [] []]; reflexivity. }
  rewrite Hnd, (digit_not_sign c l Hc).
  unfold JS.unsigned_decimal.
  destruct (decide (c :: l = JS.chars "Infinity")) as [Heq|_].
  { injection Heq as -> _. discriminate. }
  rewrite (span_digits_all (c :: l)) by (constructor; assumption).
  rewrite app_nil_r. simpl JS.exponent. cbv iota beta.
  rewrite Hval. unfold JS.decimal_value. simpl.
  rewrite Z.mul_1_r. reflexivity.
Qed.

Lemma chars_app (s t : string) : JS.chars (s +:+ t) = JS.chars s ++ JS.chars t.
Proof.
  unfold JS.chars. induction s as [|c s IH]; simpl; [reflexivity|].
  f_equal. exact IH.
Qed.

Lemma split_from_digits (sep : ascii) (cur l : list ascii) :
  JS.is_digit sep = false ->
  Forall (fun c => JS.is_digit c = true) l ->
  (forall rest, JS.split_from sep cur (l ++ sep :: rest)
                = (rev cur ++ l) :: JS.split_from sep [] rest) /\
  JS.split_from sep cur l = [rev cur ++ l].
Proof.
  intros Hsep Hl. revert cur.
  induction Hl as [|c l Hc _ IH]; intros cur; simpl.
  - rewrite Ascii.eqb_refl, app_nil_r. auto.
  - destruct (Ascii.eqb_spec c sep) as [->|_]; [congruence|].
    destruct (IH (c :: cur)) as [IH1 IH2]. simpl in IH1, IH2.
    rewrite <- !app_assoc in IH1, IH2. simpl in IH1, IH2.
    split; [intros rest; apply IH1|apply IH2].
Qed.

Lemma split_version_string (a : VersionTriple) :
  JS.split "." (version_string a)
  = [decimal (major a); decimal (minor a); decimal (patch a)].
Proof.
  unfold JS.split, version_string. rewrite !chars_app.
  change (JS.chars ".") with ["."%char]. simpl app.
  destruct (decimal_digits (major a)) as (H1 & _ & _).
  destruct (decimal_digits (minor a)) as (H2 & _ & _).
  destruct (decimal_digits (patch a)) as (H3 & _ & _).
  rewrite (proj1 (split_from_digits "." [] _ eq_refl H1)).
  rewrite (proj1 (split_from_digits "." [] _ eq_refl H2)).
  rewrite (proj2 (split_from_digits "." [] _ eq_refl H3)).
  simpl. unfold JS.chars. rewrite !string_of_list_ascii_of_string. reflexivity.
Qed.

Lemma version_string_denotes (a : VersionTriple) :
  safe a -> denotes (version_string a) a.
Proof.
  intros (H1 & H2 & H3). unfold denotes, components.
  rewrite split_version_string. simpl.
  rewrite !Number_decimal, !round_double_safe by lia. reflexivity.
Qed.

(** Every safe triple is denoted by the string that writes it, and on
    such strings the comparator is the comparison of the specification. *)
Lemma compareVersion_version_string (a b : VersionTriple) :
  safe a -> safe b ->
  compareVersion (version_string a) (version_string b) = compare_spec a b.
Proof.
  intros Ha Hb. apply compareVersion_compare_spec; apply version_string_denotes; assumption.
Qed.

(** C3.  A component that is not numeric is not read as 0: it converts
    to [NaN], which is neither smaller nor greater than any number, so
    ["x.0.0"] compares equal to ["1.0.0"] while ["0.0.0"] is smaller. *)
Theorem non_numeric_component_compares_equal :
  components "x.0.0" = [NaN; JS.of_N 0; JS.of_N 0] /\
  compareVersion "x.0.0" "1.0.0" = 0 /\
  compareVersion "0.0.0" "1.0.0" = -1.
Proof. vm_compute. auto. Qed.

(** C5.  On version triples [compareVersion] compares major, then
    minor, then patch: the first component that differs decides, with -1
    when it is smaller and 1 when it is greater, and the result is 0 when
    the three components agree. *)
Theorem compareVersion_lexicographic (v1 v2 : string) (a b : VersionTriple) :
  denotes v1 a -> denotes v2 b ->
  compareVersion v1 v2 = compare_spec a b /\
  (major a <> major b ->
   compareVersion v1 v2 = if (major a <? major b)%N then -1 else 1) /\
  (major a = major b -> minor a <> minor b ->
   compareVersion v1 v2 = if (minor a <? minor b)%N then -1 else 1) /\
  (major a = major b -> minor a = minor b -> patch a <> patch b ->
   compareVersion v1 v2 = if (patch a <? patch b)%N then -1 else 1) /\
  (major a = major b -> minor a = minor b -> patch a = patch b ->
   compareVersion v1 v2 = 0).
Proof.
  intros Ha Hb. rewrite (compareVersion_compare_spec v1 v2 a b Ha Hb).
  split; [reflexivity|]. clear Ha Hb.
  destruct a as [a1 a2 a3], b as [b1 b2 b3]. unfold compare_spec; simpl.
  repeat split; intros; subst; rewrite ?N.eqb_refl; simpl;
    try match goal with
        | H : ?x <> ?y |- _ => apply N.eqb_neq in H; rewrite H
        end; reflexivity.
Qed.

Lemma compareVersion_lexicographic_witness :
  denotes "1.2.3" {| major := 1; minor := 2; patch := 3 |} /\
  denotes "1.10.0" {| major := 1; minor := 10; patch := 0 |} /\
  compareVersion "1.2.3" "1.10.0" = -1.
Proof.
  split; [vm_compute; reflexivity|]. split; [vm_compute; reflexivity|].
  refine (proj1 (compareVersion_lexicographic "1.2.3" "1.10.0"
                   {| major := 1; minor := 2; patch := 3 |}
                   {| major := 1; minor := 10; patch := 0 |} _ _));
    vm_compute; reflexivity.
Defined.

(** C6.  On version triples the comparator is a total order: its value
    is -1, 0 or 1, swapping the arguments negates it, a version compares
    equal to itself, it is 0 only between equal triples, and it is
    transitive. *)
Theorem compareVersion_total_order (v1 v2 v3 : string) (a b c : VersionTriple) :
  denotes v1 a -> denotes v2 b -> denotes v3 c ->
  (compareVersion v1 v2 = -1 \/ compareVersion v1 v2 = 0 \/ compareVersion v1 v2 = 1) /\
  compareVersion v1 v2 = - compareVersion v2 v1 /\
  compareVersion v1 v1 = 0 /\
  (compareVersion v1 v2 = 0 <-> a = b) /\
  (compareVersion v1 v2 <= 0 -> compareVersion v2 v3 <= 0 -> compareVersion v1 v3 <= 0).
Proof.
  intros Ha Hb Hc. repeat split.
  - apply compareVersion_range.
  - apply compareVersion_antisym.
  - apply compareVersion_refl.
  - rewrite (compareVersion_compare_spec _ _ _ _ Ha Hb). apply compare_spec_zero.
  - rewrite (compareVersion_compare_spec _ _ _ _ Ha Hb). apply compare_spec_zero.
  - apply compareVersion_trans; eauto using denotes_numeric.
Qed.

Lemma compareVersion_total_order_witness :
  compareVersion "1.2.3" "1.10.0" <= 0 /\
  compareVersion "1.10.0" "2.0.0" <= 0 /\
  compareVersion "1.2.3" "2.0.0" <= 0.
Proof.
  split; [vm_compute; discriminate|]. split; [vm_compute; discriminate|].
  refine (proj2 (proj2 (proj2 (proj2
            (compareVersion_total_order "1.2.3" "1.10.0" "2.0.0"
               {| major := 1; minor := 2; patch := 3 |}
               {| major := 1; minor := 10; patch := 0 |}
               {| major := 2; minor := 0; patch := 0 |} _ _ _)))) _ _);
    vm_compute; (reflexivity || discriminate).
Defined.

(** C10.  The comparator reads the first three components only: two
    version strings whose first three components agree compare equal,
    whatever follows. *)
Theorem compareVersion_first_three (v1 v2 : string) :
  take 3 (JS.split "." v1) = take 3 (JS.split "." v2) ->
  compareVersion v1 v2 = 0.
Proof.
  intros H. rewrite compareVersion_components.
  assert (Hi : forall i, (i < 3)%nat -> JS.split "." v1 !! i = JS.split "." v2 !! i).
  { intros i Hi. rewrite <- (lookup_take_lt (JS.split "." v1) 3 i Hi), H.
    apply lookup_take_lt, Hi. }
  unfold components. rewrite !Hi by lia. apply compare_numbers_refl.
Qed.

Lemma compareVersion_first_three_witness :
  take 3 (JS.split "." "1.2.3.4") = take 3 (JS.split "." "1.2.3.9") /\
  compareVersion "1.2.3.4" "1.2.3.9" = 0.
Proof.
  split; [reflexivity|].
  apply (compareVersion_first_three "1.2.3.4" "1.2.3.9"). reflexivity.
Defined.

(** ** Sorting *)

Section SortFacts.
Context {A : Type} (comparefn : A -> A -> Z).

Lemma insert_perm (x : A) (l : list A) : JSArray.insert comparefn x l ≡ₚ x :: l.
Proof.
  induction l as [|y l IH]; simpl; [reflexivity|].
  destruct (comparefn x y <=? 0); [reflexivity|].
  rewrite IH. apply Permutation_swap.
Qed.

Lemma sort_perm (l : list A) : JSArray.sort comparefn l ≡ₚ l.
Proof.
  induction l as [|x l IH]; simpl; [reflexivity|].
  rewrite insert_perm, IH. reflexivity.
Qed.

(** The comparator is consistent on the elements that satisfy [P]. *)
Variable P : A -> Prop.
Hypothesis comparefn_total :
  forall x y, 0 < comparefn x y -> comparefn y x <= 0.
Hypothesis comparefn_trans :
  forall x y z, P x -> P y -> P z ->
    comparefn x y <= 0 -> comparefn y z <= 0 -> comparefn x z <= 0.

Lemma insert_ordered (x : A) (l : list A) :
  P x -> Forall P l -> JSArray.ordered comparefn l ->
  JSArray.ordered comparefn (JSArray.insert comparefn x l).
Proof.
  intros Hx Hl Hs. induction Hs as [|y l Hs IH Hy]; simpl.
  - repeat constructor.
  - apply Forall_cons in Hl as [Py Pl].
    destruct (Z.leb_spec (comparefn x y) 0) as [Hxy|Hxy].
    + constructor; [constructor; assumption|].
      constructor; [exact Hxy|].
      rewrite Forall_forall in Hy, Pl |- *. intros z Hz.
      apply comparefn_trans with y; auto.
    + constructor; [apply IH, Pl|].
      rewrite insert_perm. constructor; [|exact Hy].
      apply comparefn_total, Hxy.
Qed.

Lemma sort_ordered (l : list A) :
  Forall P l -> JSArray.ordered comparefn (JSArray.sort comparefn l).
Proof.
  induction l as [|x l IH]; simpl; intros Hl; [constructor|].
  apply Forall_cons in Hl as [Px Pl].
  apply insert_ordered; auto.
  rewrite sort_perm. exact Pl.
Qed.
End SortFacts.

Lemma find_first {A : Type} (f : A -> bool) (l : list A) :
  match List.find f l with
  | Some x =>
      exists pre post, l = pre ++ x :: post /\
        Forall (fun y => f y = false) pre /\ f x = true
  | None => Forall (fun y => f y = false) l
  end.
Proof.
  induction l as [|y l IH]; simpl; [constructor|].
  destruct (f y) eqn:Hy.
  - exists [], l. repeat split; auto.
  - destruct (List.find f l) as [x|].
    + destruct IH as (pre & post & -> & Hpre & Hx).
      exists (y :: pre), post. repeat split; auto.
    + constructor; auto.
Qed.

(** ** Target selection *)

Lemma sorted_items_perm (items : list CodeGeneratorConfigItem) :
  JSArray.sort reverse_order items ≡ₚ items.
Proof. apply sort_perm. Qed.

Lemma sorted_items_descending (items : list CodeGeneratorConfigItem) :
  Forall (fun c => numeric (codeGeneratorVersion c) = true) items ->
  descending (JSArray.sort reverse_order items).
Proof.
  intros H.
  apply (sort_ordered reverse_order
           (fun c => numeric (codeGeneratorVersion c) = true)); [| |exact H].
  - intros x y. unfold reverse_order.
    rewrite (compareVersion_antisym (codeGeneratorVersion x)). lia.
  - intros x y z Hx Hy Hz. unfold reverse_order. intros Hxy Hyz.
    apply compareVersion_trans with (codeGeneratorVersion y); assumption.
Qed.

(** The gate of the release branch, read both ways round. *)
Lemma gate_iff (ext min : string) :
  (0 <=? compareVersion ext min) = true <-> compareVersion min ext <= 0.
Proof. rewrite (compareVersion_antisym min ext). lia. Qed.

Lemma gate_false_iff (ext min : string) :
  (0 <=? compareVersion ext min) = false <-> 0 < compareVersion min ext.
Proof. rewrite (compareVersion_antisym min ext). lia. Qed.

(** In a list sorted by a relation, an element stands in the relation
    to every element that follows it. *)
Lemma StronglySorted_positions {A : Type} (R : A -> A -> Prop) (l : list A) :
  StronglySorted R l ->
  forall (i j : nat) (a b : A),
    (i < j)%nat -> l !! i = Some a -> l !! j = Some b -> R a b.
Proof.
  induction 1 as [|x l Hl IH Hx]; intros i j a b Hij Ha Hb.
  - rewrite lookup_nil in Ha. discriminate.
  - destruct j as [|j]; [lia|]. simpl in Hb. destruct i as [|i]; simpl in Ha.
    + injection Ha as <-. rewrite Forall_forall in Hx.
      apply Hx. eapply list_elem_of_lookup_2, Hb.
    + apply (IH i j); [lia|assumption..].
Qed.

Lemma StronglySorted_after {A : Type} (R : A -> A -> Prop) (pre : list A) (x : A)
    (post : list A) :
  StronglySorted R (pre ++ x :: post) -> Forall (R x) post.
Proof.
  induction pre as [|a pre IH]; simpl; intros H;
    apply StronglySorted_inv in H as [H1 H2]; [exact H2|exact (IH H1)].
Qed.

(** C4.  For a release build (the extension version has the form
    digits.digits.digits) and candidates with numeric versions, the
    candidates are scanned in descending order of their versions (a
    candidate is never followed by one of a greater version) and the
    selected item is the first one whose minimal workbench version is at
    most the extension version.  So it is never one whose minimal
    workbench version is greater than the extension version, no admitted
    candidate has a greater version than it, and there is none exactly
    when every candidate asks for a greater version. *)
Theorem release_target_first_admissible (ext : string) (config : CodeGeneratorConfig) :
  is_release ext = true ->
  let items := codeGeneratorConfigItems config in
  Forall (fun c => numeric (codeGeneratorVersion c) = true) items ->
  let sorted := JSArray.sort reverse_order items in
  sorted ≡ₚ items /\
  (forall (i j : nat) (a b : CodeGeneratorConfigItem),
     (i < j)%nat -> sorted !! i = Some a -> sorted !! j = Some b ->
     compareVersion (codeGeneratorVersion b) (codeGeneratorVersion a) <= 0) /\
  (forall item, targetConfigItem ext (Some config) = Some item ->
     item ∈ items /\ ~ 0 < compareVersion (iotWorkbenchMinimalVersion item) ext) /\
  match targetConfigItem ext (Some config) with
  | Some item =>
      (exists pre post, sorted = pre ++ item :: post /\
         Forall (fun c => 0 < compareVersion (iotWorkbenchMinimalVersion c) ext) pre /\
         compareVersion (iotWorkbenchMinimalVersion item) ext <= 0) /\
      (forall c, c ∈ items ->
         compareVersion (iotWorkbenchMinimalVersion c) ext <= 0 ->
         compareVersion (codeGeneratorVersion c) (codeGeneratorVersion item) <= 0)
  | None =>
      Forall (fun c => 0 < compareVersion (iotWorkbenchMinimalVersion c) ext) items
  end.
Proof.
  intros Hrel items Hnum sorted.
  assert (Hsorted :
    StronglySorted
      (fun a b => compareVersion (codeGeneratorVersion b) (codeGeneratorVersion a) <= 0)
      sorted) by exact (sorted_items_descending items Hnum).
  assert (Hfind : targetConfigItem ext (Some config) =
    List.find (fun item => 0 <=? compareVersion ext (iotWorkbenchMinimalVersion item)) sorted).
  { unfold targetConfigItem. rewrite Hrel. reflexivity. }
  pose proof (find_first
    (fun item => 0 <=? compareVersion ext (iotWorkbenchMinimalVersion item)) sorted) as Hf.
  rewrite <- Hfind in Hf.
  split; [apply sorted_items_perm|].
  split; [exact (StronglySorted_positions _ sorted Hsorted)|].
  split.
  - intros item Hitem. rewrite Hitem in Hf.
    destruct Hf as (pre & post & Hs & _ & Hgate). split.
    + rewrite <- (sorted_items_perm items). fold sorted. rewrite Hs.
      apply elem_of_app. right. left.
    + apply gate_iff in Hgate. lia.
  - destruct (targetConfigItem ext (Some config)) as [item|].
    + destruct Hf as (pre & post & Hs & Hpre & Hgate).
      assert (Hpre' :
        Forall (fun c => 0 < compareVersion (iotWorkbenchMinimalVersion c) ext) pre).
      { eapply Forall_impl; [exact Hpre|]. intros c Hc. apply gate_false_iff, Hc. }
      split; [exists pre, post; repeat split; [exact Hs|exact Hpre'|apply gate_iff, Hgate]|].
      intros c Hc Hadm.
      rewrite <- (sorted_items_perm items) in Hc. fold sorted in Hc. rewrite Hs in Hc.
      apply elem_of_app in Hc as [Hc|Hc].
      * rewrite Forall_forall in Hpre'. specialize (Hpre' c Hc). lia.
      * apply elem_of_cons in Hc as [->|Hc].
        { rewrite compareVersion_refl. lia. }
        rewrite Hs in Hsorted. apply StronglySorted_after in Hsorted as Hpost.
        rewrite Forall_forall in Hpost. exact (Hpost c Hc).
    + rewrite <- (sorted_items_perm items). fold sorted.
      eapply Forall_impl; [exact Hf|]. intros c Hc. apply gate_false_iff, Hc.
Qed.

Lemma release_target_first_admissible_witness :
  let items := codeGeneratorConfigItems Sample.config in
  let sorted := JSArray.sort reverse_order items in
  sorted ≡ₚ items /\
  (forall (i j : nat) (a b : CodeGeneratorConfigItem),
     (i < j)%nat -> sorted !! i = Some a -> sorted !! j = Some b ->
     compareVersion (codeGeneratorVersion b) (codeGeneratorVersion a) <= 0) /\
  (forall item, targetConfigItem "1.5.0" (Some Sample.config) = Some item ->
     item ∈ items /\ ~ 0 < compareVersion (iotWorkbenchMinimalVersion item) "1.5.0") /\
  match targetConfigItem "1.5.0" (Some Sample.config) with
  | Some item =>
      (exists pre post, sorted = pre ++ item :: post /\
         Forall (fun c => 0 < compareVersion (iotWorkbenchMinimalVersion c) "1.5.0") pre /\
         compareVersion (iotWorkbenchMinimalVersion item) "1.5.0" <= 0) /\
      (forall c, c ∈ items ->
         compareVersion (iotWorkbenchMinimalVersion c) "1.5.0" <= 0 ->
         compareVersion (codeGeneratorVersion c) (codeGeneratorVersion item) <= 0)
  | None =>
      Forall (fun c => 0 < compareVersion (iotWorkbenchMinimalVersion c) "1.5.0") items
  end.
Proof.
  apply (release_target_first_admissible "1.5.0" Sample.config);
    [reflexivity|repeat constructor].
Defined.

(** C7.  For a build that is not a release (the extension version does
    not have the form digits.digits.digits) and a list of candidates that
    is not empty, the selected item is the head of the list sorted by
    descending generator version: a candidate whose version no candidate
    exceeds.  The minimal workbench version is not consulted: every such
    extension version selects the same item. *)
Theorem prerelease_target_highest (ext : string) (config : CodeGeneratorConfig) :
  is_release ext = false ->
  codeGeneratorConfigItems config <> [] ->
  Forall (fun c => numeric (codeGeneratorVersion c) = true)
    (codeGeneratorConfigItems config) ->
  exists item,
    targetConfigItem ext (Some config) = Some item /\
    item ∈ codeGeneratorConfigItems config /\
    (forall c, c ∈ codeGeneratorConfigItems config ->
       compareVersion (codeGeneratorVersion c) (codeGeneratorVersion item) <= 0) /\
    (forall ext', is_release ext' = false ->
       targetConfigItem ext' (Some config) = Some item).
Proof.
  intros Hrel Hne Hnum.
  pose proof (sorted_items_perm (codeGeneratorConfigItems config)) as Hperm.
  pose proof (sorted_items_descending _ Hnum) as Hdesc.
  unfold targetConfigItem. rewrite Hrel. simpl.
  destruct (JSArray.sort reverse_order (codeGeneratorConfigItems config))
    as [|item rest] eqn:Hs.
  { symmetry in Hperm. apply Permutation_nil_r in Hperm. contradiction. }
  exists item. split; [reflexivity|]. split; [|split].
  - rewrite <- Hperm. left.
  - intros c Hc. rewrite <- Hperm in Hc.
    apply elem_of_cons in Hc as [->|Hc]; [rewrite compareVersion_refl; lia|].
    apply StronglySorted_inv in Hdesc as [_ Hall].
    rewrite Forall_forall in Hall. apply (Hall c), Hc.
  - intros ext' ->. reflexivity.
Qed.

Lemma prerelease_target_highest_witness :
  is_release "1.5.0-rc" = false /\
  codeGeneratorConfigItems Sample.config <> [] /\
  exists item,
    targetConfigItem "1.5.0-rc" (Some Sample.config) = Some item /\
    item ∈ codeGeneratorConfigItems Sample.config /\
    (forall c, c ∈ codeGeneratorConfigItems Sample.config ->
       compareVersion (codeGeneratorVersion c) (codeGeneratorVersion item) <= 0) /\
    (forall ext', is_release ext' = false ->
       targetConfigItem ext' (Some Sample.config) = Some item).
Proof.
  split; [reflexivity|]. split; [discriminate|].
  apply (prerelease_target_highest "1.5.0-rc" Sample.config);
    [reflexivity|discriminate|repeat constructor].
Defined.

(** ** The upgrade flow *)

Ltac flow_unfold :=
  unfold UpgradeCodeGenerator, upgrade, needUpgrade, request_config,
    request_package, writeFileSync, made, fileHash, extract, ConfigHandler_update,
    ConfigHandler_get, isDirectorySync, record, logged, bind, ret, throw in *.

Lemma needUpgrade_pure (K : Constants) (W : World)
    (target : CodeGeneratorConfigItem) (st : state) :
  exists need, needUpgrade K W target st = (Ok need, st).
Proof.
  flow_unfold. simpl.
  destruct (bool_decide _); simpl; eauto.
  destruct (settings st !! _); eauto.
Qed.

(** The detection reads the directory of the tool and the recorded
    version, and nothing else. *)
Lemma needUpgrade_reads (K : Constants) (W1 W2 : World)
    (target : CodeGeneratorConfigItem) (st1 st2 : state) :
  codeGenCommandPath K W2 = codeGenCommandPath K W1 ->
  dirs st2 = dirs st1 -> settings st2 = settings st1 ->
  fst (needUpgrade K W2 target st2) = fst (needUpgrade K W1 target st1).
Proof.
  intros Hp Hd Hs. flow_unfold. simpl. rewrite Hp, Hd.
  destruct (bool_decide _); simpl; [|reflexivity].
  rewrite Hs. destruct (settings st1 !! _); reflexivity.
Qed.

(** What a run of [upgrade] leaves behind: either the recorded version
    is as before and it threw or, the package having been downloaded,
    written, verified and extracted in this order, the version of the
    item is recorded. *)
Lemma upgrade_inv (K : Constants) (W : World) (configItem : CodeGeneratorConfigItem)
    (st st' : state) (r : result unit) :
  upgrade K W configItem st = (r, st') ->
  (exists e, r = Throw e /\ settings st' = settings st) \/
  (r = Ok tt /\
   settings st' =
     <[codeGeneratorVersionKey K := codeGeneratorVersion configItem]> (settings st) /\
   dirs st' =
     {[codeGenCommandPath K W]} ∪
     (list_to_set
        (mkdirp W
           (path_dirname W (scratch_file K W (snd (download_option W configItem))))) ∪
      dirs st) /\
   exists data entries,
     get_binary W (fst (download_option W configItem)) = Some data /\
     md5_hex W data = snd (download_option W configItem) /\
     unzip W data = Unzipped entries /\
     trace st' = trace st ++
       [Request (fst (download_option W configItem));
        WriteFile (scratch_file K W (snd (download_option W configItem)));
        HashFile (scratch_file K W (snd (download_option W configItem)));
        Extract (scratch_file K W (snd (download_option W configItem)))
          (codeGenCommandPath K W) true;
        UpdateSetting (codeGeneratorVersionKey K) (codeGeneratorVersion configItem)]).
Proof.
  flow_unfold. destruct (download_option W configItem) as [uri md5value]. simpl.
  destruct (get_binary W uri) as [data|]; simpl;
    [|intros [= <- <-]; left; eauto].
  destruct (writable W _); simpl; [|intros [= <- <-]; left; eauto].
  rewrite lookup_insert_eq.
  destruct (bool_decide_reflect (md5_hex W data = md5value)) as [Hmd5|Hmd5];
    simpl; [|intros [= <- <-]; left; eauto].
  rewrite lookup_insert_eq.
  destruct (unzip W data) as [entries|mkdir written] eqn:Hzip; simpl;
    [|intros [= <- <-]; left; eauto].
  destruct (settings_writable W); simpl; intros [= <- <-]; [|left; eauto].
  right. simpl. repeat split.
  exists data, entries. repeat split; auto.
  rewrite <- !app_assoc. reflexivity.
Qed.

(** A verification that fails: the scratch file stays, with the bytes
    downloaded, in the directory made for it, and nothing else has
    changed. *)
Lemma upgrade_hash_mismatch (K : Constants) (W : World)
    (configItem : CodeGeneratorConfigItem) (st : state) (data : string) :
  get_binary W (fst (download_option W configItem)) = Some data ->
  writable W (scratch_file K W (snd (download_option W configItem))) = true ->
  md5_hex W data <> snd (download_option W configItem) ->
  upgrade K W configItem st =
    (Throw HashError,
     {| files := <[scratch_file K W (snd (download_option W configItem)) := data]>
                   (files st);
        dirs :=
          list_to_set
            (mkdirp W
               (path_dirname W
                  (scratch_file K W (snd (download_option W configItem))))) ∪
          dirs st;
        settings := settings st;
        trace := trace st ++
          [Request (fst (download_option W configItem));
           WriteFile (scratch_file K W (snd (download_option W configItem)));
           HashFile (scratch_file K W (snd (download_option W configItem)))] |}).
Proof.
  flow_unfold. destruct (download_option W configItem) as [uri md5value]. simpl.
  intros -> -> Hmd5. simpl. rewrite lookup_insert_eq.
  rewrite (bool_decide_eq_false_2 _ Hmd5). simpl.
  rewrite <- !app_assoc. reflexivity.
Qed.

(** The flow once the configuration has been fetched and an item
    selected. *)
Lemma UpgradeCodeGenerator_selected (K : Constants) (W : World) (st : state)
    (codeGenConfig : option CodeGeneratorConfig) (target : CodeGeneratorConfigItem) :
  get_json W (codeGenConfigUrl W) = Some codeGenConfig ->
  targetConfigItem (extensionVersion W) codeGenConfig = Some target ->
  UpgradeCodeGenerator K W st =
    let st1 := logged (Request (codeGenConfigUrl W)) st in
    match fst (needUpgrade K W target st1) with
    | Ok true =>
        match upgrade K W target st1 with
        | (Ok _, st') => (Ok true, st')
        | (Throw e, st') => (Throw e, st')
        end
    | _ => (Ok true, st1)
    end.
Proof.
  intros Hcfg Htarget.
  unfold UpgradeCodeGenerator, request_config, bind at 1 2, record, ret at 1.
  rewrite Hcfg. simpl. rewrite Htarget. unfold bind at 1.
  destruct (needUpgrade_pure K W target (logged (Request (codeGenConfigUrl W)) st))
    as [need ->]. simpl.
  destruct need; [|reflexivity].
  unfold bind, ret. destruct (upgrade K W target _) as [[[]|e] st']; reflexivity.
Qed.

(** The flow when there is nothing to select from or nothing selected. *)
Lemma UpgradeCodeGenerator_rejected (K : Constants) (W : World) (st : state) :
  get_json W (codeGenConfigUrl W) = None ->
  UpgradeCodeGenerator K W st =
    (Throw (RequestError (codeGenConfigUrl W)),
     logged (Request (codeGenConfigUrl W)) st).
Proof.
  intros Hcfg.
  unfold UpgradeCodeGenerator, request_config, bind, record, throw.
  rewrite Hcfg. reflexivity.
Qed.

Lemma UpgradeCodeGenerator_no_target (K : Constants) (W : World) (st : state)
    (codeGenConfig : option CodeGeneratorConfig) :
  get_json W (codeGenConfigUrl W) = Some codeGenConfig ->
  targetConfigItem (extensionVersion W) codeGenConfig = None ->
  UpgradeCodeGenerator K W st =
    (Ok false, logged (Request (codeGenConfigUrl W)) st).
Proof.
  intros Hcfg Htarget.
  unfold UpgradeCodeGenerator, request_config, bind, record, ret.
  rewrite Hcfg. simpl. rewrite Htarget. reflexivity.
Qed.

(** C8.  The selection has no error case.  Without a configuration and
    for an empty list of candidates it selects nothing, whatever the
    extension version; for a list that is not empty it selects nothing
    exactly when the build is a release and no candidate is admitted.
    [UpgradeCodeGenerator] then returns [false]: it does not throw, and
    it makes no call beyond the request for the configuration. *)
Theorem no_target_is_none (ext : string) :
  targetConfigItem ext None = None /\
  targetConfigItem ext (Some {| codeGeneratorConfigItems := [] |}) = None /\
  (forall config,
     targetConfigItem ext (Some config) = None <->
     codeGeneratorConfigItems config = [] \/
     (is_release ext = true /\
      Forall (fun c => admits ext c = false) (codeGeneratorConfigItems config))) /\
  (forall K W st codeGenConfig,
     extensionVersion W = ext ->
     get_json W (codeGenConfigUrl W) = Some codeGenConfig ->
     targetConfigItem ext codeGenConfig = None ->
     UpgradeCodeGenerator K W st
     = (Ok false, logged (Request (codeGenConfigUrl W)) st)).
Proof.
  split; [reflexivity|]. split.
  { unfold targetConfigItem. simpl. destruct (is_release ext); reflexivity. }
  split.
  2: { intros K W st codeGenConfig <- Hcfg Htarget.
       apply (UpgradeCodeGenerator_no_target K W st codeGenConfig Hcfg Htarget). }
  intros config. unfold targetConfigItem.
  pose proof (sorted_items_perm (codeGeneratorConfigItems config)) as Hperm.
  destruct (is_release ext); simpl.
  - pose proof (find_first (admits ext)
        (JSArray.sort reverse_order (codeGeneratorConfigItems config))) as Hf.
    destruct (List.find _ _) as [item|].
    + destruct Hf as (pre & post & Hs & _ & Hadm). split; [discriminate|].
      intros [Hnil|[_ Hall]].
      * rewrite Hnil in Hs. simpl in Hs. destruct pre; discriminate.
      * rewrite <- Hperm, Hs in Hall.
        apply Forall_app in Hall as [_ Hall]. apply Forall_cons in Hall as [Hc _].
        congruence.
    + split; [|reflexivity]. intros _. right. split; [reflexivity|].
      rewrite <- Hperm. exact Hf.
  - destruct (JSArray.sort reverse_order (codeGeneratorConfigItems config))
      as [|item rest] eqn:Hs.
    + split; [|reflexivity]. intros _. left.
      symmetry in Hperm. apply Permutation_nil_r in Hperm. exact Hperm.
    + split; [discriminate|]. intros [Hnil|[Hrel _]]; [|discriminate].
      rewrite Hnil in Hs. discriminate.
Qed.

(** C1, as the specification states it, fails: in the sample world the
    digest of the download is not the expected one, and the scratch file
    is still there after the upgrade has thrown. *)
Lemma mismatch_keeps_scratch_file :
  ~ mismatch_discards_download Sample.constants (Sample.world "1.5.0" "xyz999")
      Sample.item_1_3_0 Sample.fresh.
Proof.
  intros H. destruct (H "payload") as (_ & Hfile & _).
  - reflexivity.
  - reflexivity.
  - discriminate.
  - vm_compute in Hfile. discriminate.
Qed.

(** C1, amended.  When the digest of the downloaded bytes differs from
    the expected one, the upgrade throws the verification error; the calls
    made are the request, the write of the scratch file and its hashing,
    so nothing is extracted; the recorded version is as before; the
    directory of the scratch file has been made for the write, and no
    other; the scratch file stays, holding the downloaded bytes; and
    [UpgradeCodeGenerator] ends with the same error and the same store. *)
Theorem hash_mismatch_aborts_upgrade (K : Constants) (W : World)
    (configItem : CodeGeneratorConfigItem) (st : state) (data : string) :
  get_binary W (fst (download_option W configItem)) = Some data ->
  writable W (scratch_file K W (snd (download_option W configItem))) = true ->
  md5_hex W data <> snd (download_option W configItem) ->
  let scratch := scratch_file K W (snd (download_option W configItem)) in
  let st' := snd (upgrade K W configItem st) in
  fst (upgrade K W configItem st) = Throw HashError /\
  trace st' = trace st ++
    [Request (fst (download_option W configItem)); WriteFile scratch; HashFile scratch] /\
  settings st' = settings st /\
  dirs st' = list_to_set (mkdirp W (path_dirname W scratch)) ∪ dirs st /\
  files st' !! scratch = Some data /\
  (forall st0 codeGenConfig,
     st = logged (Request (codeGenConfigUrl W)) st0 ->
     get_json W (codeGenConfigUrl W) = Some codeGenConfig ->
     targetConfigItem (extensionVersion W) codeGenConfig = Some configItem ->
     fst (needUpgrade K W configItem st) = Ok true ->
     UpgradeCodeGenerator K W st0 = (Throw HashError, st')).
Proof.
  intros Hget Hwrite Hmd5 scratch st'. subst st'.
  rewrite (upgrade_hash_mismatch K W configItem st data Hget Hwrite Hmd5).
  simpl. repeat split.
  - apply lookup_insert_eq.
  - intros st0 codeGenConfig -> Hcfg Htarget Hneed.
    rewrite (UpgradeCodeGenerator_selected K W st0 _ _ Hcfg Htarget).
    cbv zeta. rewrite Hneed.
    rewrite (upgrade_hash_mismatch K W configItem _ data Hget Hwrite Hmd5).
    reflexivity.
Qed.

Lemma hash_mismatch_aborts_upgrade_witness :
  let run :=
    upgrade Sample.constants (Sample.world "1.5.0" "xyz999") Sample.item_1_3_0
      Scenario.removed in
  fst run = Throw HashError /\
  dirs (snd run) = list_to_set ["/tmp/iotworkbench"] ∪ dirs Scenario.removed /\
  files (snd run) !! "/tmp/iotworkbench/abc123.zip" = Some "payload".
Proof.
  destruct (hash_mismatch_aborts_upgrade Sample.constants
              (Sample.world "1.5.0" "xyz999") Sample.item_1_3_0
              Scenario.removed "payload" eq_refl eq_refl)
    as (Hthrow & _ & _ & Hdirs & Hfile & _); [discriminate|].
  exact (conj Hthrow (conj Hdirs Hfile)).
Defined.

(** C2.  The recorded version changes only in a run that returns [true]
    after the package has been extracted successfully, the write of the
    version being the call that follows the extraction; a run that throws,
    whatever the step that failed, and a run that returns [false] leave
    the recorded settings as they were. *)
Theorem version_recorded_after_extraction (K : Constants) (W : World)
    (st st' : state) (r : result bool) :
  UpgradeCodeGenerator K W st = (r, st') ->
  (forall e, r = Throw e -> settings st' = settings st) /\
  (r = Ok false -> settings st' = settings st) /\
  (settings st' <> settings st ->
   r = Ok true /\
   exists target data entries calls,
     targetConfigItem (extensionVersion W) (default None (get_json W (codeGenConfigUrl W)))
       = Some target /\
     get_binary W (fst (download_option W target)) = Some data /\
     md5_hex W data = snd (download_option W target) /\
     unzip W data = Unzipped entries /\
     settings st' =
       <[codeGeneratorVersionKey K := codeGeneratorVersion target]> (settings st) /\
     trace st' = trace st ++ calls ++
       [Extract (scratch_file K W (snd (download_option W target)))
          (codeGenCommandPath K W) true;
        UpdateSetting (codeGeneratorVersionKey K) (codeGeneratorVersion target)]).
Proof.
  intros Hrun.
  assert (Hcases :
    settings st' = settings st \/
    (r = Ok true /\
     exists target data entries calls,
       targetConfigItem (extensionVersion W)
         (default None (get_json W (codeGenConfigUrl W))) = Some target /\
       get_binary W (fst (download_option W target)) = Some data /\
       md5_hex W data = snd (download_option W target) /\
       unzip W data = Unzipped entries /\
       settings st' =
         <[codeGeneratorVersionKey K := codeGeneratorVersion target]> (settings st) /\
       trace st' = trace st ++ calls ++
         [Extract (scratch_file K W (snd (download_option W target)))
            (codeGenCommandPath K W) true;
          UpdateSetting (codeGeneratorVersionKey K) (codeGeneratorVersion target)])).
  { destruct (get_json W (codeGenConfigUrl W)) as [codeGenConfig|] eqn:Hcfg;
      [|rewrite (UpgradeCodeGenerator_rejected K W st Hcfg) in Hrun;
        injection Hrun as <- <-; left; reflexivity].
    destruct (targetConfigItem (extensionVersion W) codeGenConfig)
      as [target|] eqn:Htarget;
      [|rewrite (UpgradeCodeGenerator_no_target K W st _ Hcfg Htarget) in Hrun;
        injection Hrun as <- <-; left; reflexivity].
    rewrite (UpgradeCodeGenerator_selected K W st _ _ Hcfg Htarget) in Hrun.
    cbv zeta in Hrun.
    destruct (fst (needUpgrade K W target _)) as [[|]|e];
      try (injection Hrun as <- <-; left; reflexivity).
    destruct (upgrade K W target _) as [ru stu] eqn:Hup.
    apply upgrade_inv in Hup
      as [(e & -> & Hset)|(-> & Hset & _ & data & entries & Hget & Hmd5 & Hzip & Htr)].
    - injection Hrun as <- <-. left. exact Hset.
    - injection Hrun as <- <-. right. split; [reflexivity|].
      exists target, data, entries.
      exists [Request (codeGenConfigUrl W);
              Request (fst (download_option W target));
              WriteFile (scratch_file K W (snd (download_option W target)));
              HashFile (scratch_file K W (snd (download_option W target)))].
      simpl. repeat split; auto.
      rewrite Htr. simpl. rewrite <- app_assoc. reflexivity. }
  split; [|split].
  - intros e ->. destruct Hcases as [H|[H _]]; [exact H|discriminate].
  - intros ->. destruct Hcases as [H|[H _]]; [exact H|discriminate].
  - intros Hne. destruct Hcases as [H|H]; [contradiction|exact H].
Qed.

Lemma version_recorded_after_extraction_witness :
  settings (snd (UpgradeCodeGenerator Sample.constants
                   (Sample.world "1.5.0" "xyz999") Sample.fresh))
  = settings Sample.fresh.
Proof.
  refine (proj1 (version_recorded_after_extraction Sample.constants
                   (Sample.world "1.5.0" "xyz999") Sample.fresh _ _ _) HashError _).
  - apply surjective_pairing.
  - vm_compute. reflexivity.
Defined.

(** C9.  After a run that returned [true], a second run against the same
    configuration document, by the same extension version and for the
    same tool directory, fetches the configuration and does nothing else:
    no download, no write, no hashing, no extraction, no write of the
    version; files, directories and recorded settings are what the first
    run left.  The version of the selected item is taken to be a version,
    hence not the empty string. *)
Theorem second_run_is_noop (K : Constants) (W1 W2 : World) (st0 st1 : state) :
  UpgradeCodeGenerator K W1 st0 = (Ok true, st1) ->
  get_json W2 (codeGenConfigUrl W2) = get_json W1 (codeGenConfigUrl W1) ->
  extensionVersion W2 = extensionVersion W1 ->
  codeGenCommandPath K W2 = codeGenCommandPath K W1 ->
  (forall target,
     targetConfigItem (extensionVersion W1)
       (default None (get_json W1 (codeGenConfigUrl W1))) = Some target ->
     codeGeneratorVersion target <> "") ->
  UpgradeCodeGenerator K W2 st1 =
    (Ok true,
     {| files := files st1; dirs := dirs st1; settings := settings st1;
        trace := trace st1 ++ [Request (codeGenConfigUrl W2)] |}).
Proof.
  intros Hrun Hsame Hext Hpath Hversion.
  destruct (get_json W1 (codeGenConfigUrl W1)) as [codeGenConfig|] eqn:Hcfg;
    [|rewrite (UpgradeCodeGenerator_rejected K W1 st0 Hcfg) in Hrun; discriminate].
  destruct (targetConfigItem (extensionVersion W1) codeGenConfig)
    as [target|] eqn:Htarget;
    [|rewrite (UpgradeCodeGenerator_no_target K W1 st0 _ Hcfg Htarget) in Hrun;
      discriminate].
  specialize (Hversion target Htarget).
  rewrite (UpgradeCodeGenerator_selected K W1 st0 _ _ Hcfg Htarget) in Hrun.
  rewrite <- Hext in Htarget.
  rewrite (UpgradeCodeGenerator_selected K W2 st1 _ _ Hsame Htarget).
  cbv zeta in *.
  assert (Hneed : fst (needUpgrade K W2 target
                         (logged (Request (codeGenConfigUrl W2)) st1)) = Ok false);
    [|rewrite Hneed; reflexivity].
  destruct (needUpgrade_pure K W1 target (logged (Request (codeGenConfigUrl W1)) st0))
    as [need Hneed1].
  rewrite Hneed1 in Hrun. simpl in Hrun. destruct need.
  - destruct (upgrade K W1 target _) as [ru stu] eqn:Hup.
    apply upgrade_inv in Hup as [(e & -> & _)|(-> & Hset & Hdirs & _)];
      [discriminate|].
    injection Hrun as <-.
    unfold needUpgrade, isDirectorySync, ConfigHandler_get, bind, ret. simpl.
    rewrite Hpath, Hdirs.
    rewrite bool_decide_eq_true_2
      by (apply elem_of_union_l, elem_of_singleton; reflexivity).
    simpl.
    rewrite Hset, lookup_insert_eq.
    rewrite (bool_decide_eq_false_2 _ Hversion), compareVersion_refl.
    reflexivity.
  - injection Hrun as <-.
    rewrite (needUpgrade_reads K W1 W2 target
               (logged (Request (codeGenConfigUrl W1)) st0)
               (logged (Request (codeGenConfigUrl W2))
                  (logged (Request (codeGenConfigUrl W1)) st0))
               Hpath eq_refl eq_refl).
    rewrite Hneed1. reflexivity.
Qed.

Lemma second_run_is_noop_witness :
  UpgradeCodeGenerator Sample.constants (Sample.world "1.5.0" "abc123")
    (snd (UpgradeCodeGenerator Sample.constants (Sample.world "1.5.0" "abc123")
            Sample.fresh))
  = (Ok true,
     logged (Request "https://host/config.json")
       (snd (UpgradeCodeGenerator Sample.constants (Sample.world "1.5.0" "abc123")
               Sample.fresh))).
Proof.
  apply (second_run_is_noop Sample.constants (Sample.world "1.5.0" "abc123")
           (Sample.world "1.5.0" "abc123") Sample.fresh).
  - vm_compute. reflexivity.
  - reflexivity.
  - reflexivity.
  - reflexivity.
  - intros target Htarget. vm_compute in Htarget.
    injection Htarget as <-. discriminate.
Defined.

(** * Further properties of the upgrade flow *)

(** ** The selection *)

(** The selected item is one of the items of the fetched document. *)
Theorem target_is_candidate (ext : string) (codeGenConfig : option CodeGeneratorConfig)
    (item : CodeGeneratorConfigItem) :
  targetConfigItem ext codeGenConfig = Some item ->
  exists config,
    codeGenConfig = Some config /\ item ∈ codeGeneratorConfigItems config.
Proof.
  destruct codeGenConfig as [config|]; [|discriminate].
  intros Htarget. exists config. split; [reflexivity|].
  rewrite <- (sorted_items_perm (codeGeneratorConfigItems config)).
  unfold targetConfigItem in Htarget.
  destruct (is_release ext); simpl in Htarget.
  - apply find_some in Htarget as [Hin _]. apply list_elem_of_In, Hin.
  - destruct (JSArray.sort reverse_order _) as [|x l]; [discriminate|].
    injection Htarget as ->. left.
Qed.

Lemma target_is_candidate_witness :
  exists config,
    Some Sample.config = Some config /\
    Sample.item_1_3_0 ∈ codeGeneratorConfigItems config.
Proof.
  apply (target_is_candidate "1.5.0" (Some Sample.config) Sample.item_1_3_0).
  reflexivity.
Defined.

(** Two lists in the order of a comparator that are permutations of each
    other are equal, when the elements that compare equal are equal. *)
Lemma ordered_unique {A : Type} (comparefn : A -> A -> Z) (l1 l2 : list A) :
  (forall x y, x ∈ l1 -> y ∈ l1 ->
     comparefn x y <= 0 -> comparefn y x <= 0 -> x = y) ->
  JSArray.ordered comparefn l1 -> JSArray.ordered comparefn l2 ->
  l1 ≡ₚ l2 -> l1 = l2.
Proof.
  revert l2. induction l1 as [|x l1 IH]; intros l2 Hanti H1 H2 Hperm.
  - apply Permutation_nil_l in Hperm. congruence.
  - destruct l2 as [|y l2]; [apply Permutation_nil_r in Hperm; discriminate|].
    apply StronglySorted_inv in H1 as [H1 Hx].
    apply StronglySorted_inv in H2 as [H2 Hy].
    rewrite Forall_forall in Hx, Hy.
    assert (Hxy : x = y).
    { assert (Hyin : y ∈ x :: l1) by (rewrite Hperm; left).
      assert (Hxin : x ∈ y :: l2) by (rewrite <- Hperm; left).
      apply elem_of_cons in Hyin as [Heq|Hyin]; [congruence|].
      apply elem_of_cons in Hxin as [Heq|Hxin]; [congruence|].
      apply Hanti; [left|right; exact Hyin|apply Hx, Hyin|apply Hy, Hxin]. }
    subst y. f_equal. apply Permutation_cons_inv in Hperm.
    apply IH; auto.
    intros a b Ha Hb. apply Hanti; right; assumption.
Qed.

(** The order in which the document lists the items does not matter,
    when their generator versions are numeric and no two of them compare
    equal. *)
Theorem target_independent_of_order (ext : string)
    (items items' : list CodeGeneratorConfigItem) :
  items ≡ₚ items' ->
  Forall (fun c => numeric (codeGeneratorVersion c) = true) items ->
  (forall x y, x ∈ items -> y ∈ items ->
     compareVersion (codeGeneratorVersion x) (codeGeneratorVersion y) = 0 -> x = y) ->
  targetConfigItem ext (Some {| codeGeneratorConfigItems := items |})
  = targetConfigItem ext (Some {| codeGeneratorConfigItems := items' |}).
Proof.
  intros Hperm Hnum Hdistinct.
  assert (Hsort : JSArray.sort reverse_order items = JSArray.sort reverse_order items').
  { apply (ordered_unique reverse_order).
    - intros x y Hx Hy Hxy Hyx. unfold reverse_order in Hxy, Hyx.
      rewrite sorted_items_perm in Hx, Hy.
      apply Hdistinct; auto.
      rewrite (compareVersion_antisym (codeGeneratorVersion x)) in Hyx |- *. lia.
    - apply sorted_items_descending, Hnum.
    - apply sorted_items_descending. rewrite <- Hperm. exact Hnum.
    - rewrite !sorted_items_perm. exact Hperm. }
  unfold targetConfigItem. simpl. rewrite Hsort. reflexivity.
Qed.

Lemma target_independent_of_order_witness :
  targetConfigItem "1.5.0"
    (Some {| codeGeneratorConfigItems := [Sample.item_1_3_0; Sample.item_1_4_0] |})
  = targetConfigItem "1.5.0"
    (Some {| codeGeneratorConfigItems := [Sample.item_1_4_0; Sample.item_1_3_0] |}).
Proof.
  apply (target_independent_of_order "1.5.0").
  - apply Permutation_swap.
  - repeat constructor.
  - intros x y Hx Hy.
    apply elem_of_cons in Hx as [->|Hx]; [|apply list_elem_of_singleton in Hx as ->];
      (apply elem_of_cons in Hy as [->|Hy]; [|apply list_elem_of_singleton in Hy as ->]);
      vm_compute; congruence.
Defined.

(** ** Release versions *)

Lemma span_digits_spec (l : list ascii) :
  l = fst (JS.span_digits l) ++ snd (JS.span_digits l) /\
  Forall (fun c => JS.is_digit c = true) (fst (JS.span_digits l)) /\
  match snd (JS.span_digits l) with
  | c :: _ => JS.is_digit c = false
  | [] => True
  end.
Proof.
  induction l as [|c l IH]; simpl; [auto|].
  destruct (JS.is_digit c) eqn:Hc; [|auto].
  destruct (JS.span_digits l) as [ds rest]. simpl in *.
  destruct IH as (-> & Hds & Hrest). auto.
Qed.

Lemma span_digits_app (ds rest : list ascii) :
  Forall (fun c => JS.is_digit c = true) ds ->
  match rest with c :: _ => JS.is_digit c = false | [] => True end ->
  JS.span_digits (ds ++ rest) = (ds, rest).
Proof.
  intros Hds Hrest. induction Hds as [|c ds Hc _ IH]; simpl.
  - destruct rest as [|c rest]; [reflexivity|]. simpl. rewrite Hrest. reflexivity.
  - rewrite Hc, IH. reflexivity.
Qed.

(** The strings the pattern of a release version accepts. *)
Lemma is_release_iff (v : string) :
  is_release v = true <->
  exists d1 d2 d3,
    JS.chars v = d1 ++ "."%char :: d2 ++ "."%char :: d3 /\
    d1 <> [] /\ d2 <> [] /\ d3 <> [] /\
    Forall (fun c => JS.is_digit c = true) (d1 ++ d2 ++ d3).
Proof.
  unfold is_release, digits1. split.
  - pose proof (span_digits_spec (JS.chars v)) as (H1 & Hd1 & _).
    destruct (JS.span_digits (JS.chars v)) as [d1 r1]. simpl in *.
    destruct d1 as [|c1 d1]; [discriminate|].
    destruct r1 as [|p1 r1]; [discriminate|].
    destruct (Ascii.eqb_spec p1 ".") as [->|Hp1];
      [|destruct p1 as [[] [] [] [] [] [] [] []]; try discriminate; contradiction].
    pose proof (span_digits_spec r1) as (H2 & Hd2 & _).
    destruct (JS.span_digits r1) as [d2 r2]. simpl in *.
    destruct d2 as [|c2 d2]; [discriminate|].
    destruct r2 as [|p2 r2]; [discriminate|].
    destruct (Ascii.eqb_spec p2 ".") as [->|Hp2];
      [|destruct p2 as [[] [] [] [] [] [] [] []]; try discriminate; contradiction].
    pose proof (span_digits_spec r2) as (H3 & Hd3 & _).
    destruct (JS.span_digits r2) as [d3 r3]. simpl in *.
    destruct d3 as [|c3 d3]; [discriminate|].
    destruct r3 as [|p3 r3]; [|discriminate].
    intros _. exists (c1 :: d1), (c2 :: d2), (c3 :: d3).
    rewrite app_nil_r in H3. subst r2. subst r1.
    split; [exact H1|]. repeat split; try discriminate.
    repeat (apply Forall_app; split); assumption.
  - intros (d1 & d2 & d3 & -> & Hn1 & Hn2 & Hn3 & Hall).
    apply Forall_app in Hall as [Hd1 Hall]. apply Forall_app in Hall as [Hd2 Hd3].
    rewrite (span_digits_app d1 ("."%char :: d2 ++ "."%char :: d3) Hd1 eq_refl).
    destruct d1 as [|c1 d1]; [contradiction|].
    rewrite (span_digits_app d2 ("."%char :: d3) Hd2 eq_refl).
    destruct d2 as [|c2 d2]; [contradiction|].
    rewrite (span_digits_all d3 Hd3).
    destruct d3 as [|c3 d3]; [contradiction|]. reflexivity.
Qed.

Lemma round_double_not_nan (n d : Z) : is_nan (JS.round_double n d) = false.
Proof.
  unfold JS.round_double.
  repeat match goal with
         | |- context [if ?b then _ else _] => destruct b
         end; reflexivity.
Qed.

Lemma digits_from_some (l : list ascii) (acc : N) :
  Forall (fun c => JS.is_digit c = true) l ->
  exists n, JS.digits_from 10 acc l = Some n.
Proof.
  intros Hl. revert acc. induction Hl as [|c l Hc _ IH]; intros acc; simpl; [eauto|].
  unfold JS.is_digit in Hc. destruct (JS.digit_val 10 c) as [d|]; [|discriminate].
  apply IH.
Qed.

(** [Number] of a sequence of decimal digits is a number. *)
Lemma Number_digits (l : list ascii) :
  l <> [] -> Forall (fun c => JS.is_digit c = true) l ->
  is_nan (JS.StringToNumber (string_of_list_ascii l)) = false.
Proof.
  intros Hne Hall. unfold JS.StringToNumber, JS.chars.
  rewrite list_ascii_of_string_of_list_ascii, (trim_digits _ Hall).
  destruct l as [|c l]; [contradiction|].
  pose proof Hall as Hall0. apply Forall_cons in Hall as [Hc Hall'].
  assert (Hnd : JS.non_decimal (c :: l) = None).
  { unfold JS.non_decimal. destruct l as [|p ds];
      [destruct c as [[] [] [] [] [] [] [] []]; reflexivity|].
    apply Forall_cons in Hall' as [Hp _].
    destruct (digit_not_prefix p Hp) as (-> & -> & -> & _).
    destruct c as [[] [] [] [] [] [] [] []]; reflexivity. }
  rewrite Hnd, (digit_not_sign c l Hc).
  unfold JS.unsigned_decimal.
  destruct (decide (c :: l = JS.chars "Infinity")) as [Heq|_].
  { injection Heq as -> _. discriminate. }
  rewrite (span_digits_all (c :: l) Hall0).
  rewrite app_nil_r. simpl JS.exponent. cbv iota beta.
  destruct (digits_from_some (c :: l) 0%N Hall0) as [n ->].
  unfold JS.decimal_value. simpl. apply round_double_not_nan.
Qed.

(** A release version has exactly three components, and each of them
    converts to a number: none is [NaN]. *)
Theorem release_version_is_numeric (v : string) :
  is_release v = true ->
  length (JS.split "." v) = 3%nat /\ numeric v = true.
Proof.
  intros (d1 & d2 & d3 & Hv & Hn1 & Hn2 & Hn3 & Hall)%is_release_iff.
  apply Forall_app in Hall as [Hd1 Hall]. apply Forall_app in Hall as [Hd2 Hd3].
  assert (Hsplit : JS.split "." v
                   = map string_of_list_ascii [d1; d2; d3]).
  { unfold JS.split. rewrite Hv.
    rewrite (proj1 (split_from_digits "." [] _ eq_refl Hd1)).
    rewrite (proj1 (split_from_digits "." [] _ eq_refl Hd2)).
    rewrite (proj2 (split_from_digits "." [] _ eq_refl Hd3)). reflexivity. }
  split; [rewrite Hsplit; reflexivity|].
  unfold numeric, components. rewrite Hsplit. simpl.
  rewrite !Number_digits by assumption. reflexivity.
Qed.

Lemma release_version_is_numeric_witness :
  length (JS.split "." "1.5.0") = 3%nat /\ numeric "1.5.0" = true.
Proof. apply (release_version_is_numeric "1.5.0"). reflexivity. Defined.

(** The string that writes a triple is a release version, whatever the
    size of its components. *)
Theorem version_string_is_release (a : VersionTriple) :
  is_release (version_string a) = true.
Proof.
  apply is_release_iff.
  destruct (decimal_digits (major a)) as (H1 & Hn1 & _).
  destruct (decimal_digits (minor a)) as (H2 & Hn2 & _).
  destruct (decimal_digits (patch a)) as (H3 & Hn3 & _).
  exists (JS.chars (decimal (major a))), (JS.chars (decimal (minor a))),
    (JS.chars (decimal (patch a))).
  split.
  { unfold version_string. rewrite !chars_app. reflexivity. }
  repeat split; try assumption.
  repeat (apply Forall_app; split); assumption.
Qed.

(** ** Versions with fewer components *)

Lemma compare_numbers_undecided (xs ys : list jsnum) :
  Forall2 (fun x y => x = NaN \/ y = x) xs ys -> compare_numbers xs ys = 0.
Proof.
  induction 1 as [|x y xs ys [-> | ->] _ IH]; simpl; [reflexivity| |].
  - destruct y; exact IH.
  - unfold JS.gt. rewrite JSFacts.lt_irrefl. exact IH.
Qed.

(** A version compares equal to every version that continues it with
    further components: a component that is missing converts to [NaN] and
    never decides. *)
Theorem compareVersion_prefix (v1 v2 : string) :
  JS.split "." v1 `prefix_of` JS.split "." v2 ->
  compareVersion v1 v2 = 0 /\ compareVersion v2 v1 = 0.
Proof.
  intros [more Hmore].
  assert (H12 : compareVersion v1 v2 = 0).
  { rewrite compareVersion_components. unfold components. rewrite Hmore.
    assert (Hi : forall i,
      JS.Number (JS.split "." v1 !! i) = NaN \/
      JS.Number ((JS.split "." v1 ++ more) !! i) = JS.Number (JS.split "." v1 !! i)).
    { intros i. destruct (JS.split "." v1 !! i) as [s|] eqn:Hs; [|left; reflexivity].
      right. rewrite (lookup_app_l_Some _ _ _ _ Hs). reflexivity. }
    apply compare_numbers_undecided.
    do 3 (constructor; [apply Hi|]). constructor. }
  split; [exact H12|].
  rewrite compareVersion_antisym, H12. reflexivity.
Qed.

Lemma compareVersion_prefix_witness :
  compareVersion "1.2" "1.2.7" = 0 /\ compareVersion "1.2.7" "1.2" = 0.
Proof.
  apply (compareVersion_prefix "1.2" "1.2.7"). exists ["7"]. reflexivity.
Defined.

(** ** Outcomes of an upgrade *)

(** Every outcome of [upgrade], with the store it leaves. *)
Lemma upgrade_cases (K : Constants) (W : World) (configItem : CodeGeneratorConfigItem)
    (st : state) :
  let uri := fst (download_option W configItem) in
  let md5value := snd (download_option W configItem) in
  let filePath := scratch_file K W md5value in
  let target := codeGenCommandPath K W in
  let key := codeGeneratorVersionKey K in
  let folder : gset string := list_to_set (mkdirp W (path_dirname W filePath)) in
  upgrade K W configItem st =
    match get_binary W uri with
    | None =>
        (Throw (RequestError uri),
         {| files := files st; dirs := dirs st; settings := settings st;
            trace := trace st ++ [Request uri] |})
    | Some data =>
        if writable W filePath then
          if bool_decide (md5_hex W data = md5value) then
            match unzip W data with
            | Unzipped entries =>
                if settings_writable W then
                  (Ok tt,
                   {| files := write_entries W target entries
                                 (<[filePath := data]> (files st));
                      dirs := {[target]} ∪ (folder ∪ dirs st);
                      settings := <[key := codeGeneratorVersion configItem]> (settings st);
                      trace := trace st ++
                        [Request uri; WriteFile filePath; HashFile filePath;
                         Extract filePath target true;
                         UpdateSetting key (codeGeneratorVersion configItem)] |})
                else
                  (Throw SettingsError,
                   {| files := write_entries W target entries
                                 (<[filePath := data]> (files st));
                      dirs := {[target]} ∪ (folder ∪ dirs st);
                      settings := settings st;
                      trace := trace st ++
                        [Request uri; WriteFile filePath; HashFile filePath;
                         Extract filePath target true;
                         UpdateSetting key (codeGeneratorVersion configItem)] |})
            | UnzipError mkdir written =>
                (Throw ExtractError,
                 {| files := write_entries W target written
                               (<[filePath := data]> (files st));
                    dirs := if mkdir then {[target]} ∪ (folder ∪ dirs st) else (folder ∪ dirs st);
                    settings := settings st;
                    trace := trace st ++
                      [Request uri; WriteFile filePath; HashFile filePath;
                       Extract filePath target false] |})
            end
          else
            (Throw HashError,
             {| files := <[filePath := data]> (files st); dirs := (folder ∪ dirs st);
                settings := settings st;
                trace := trace st ++
                  [Request uri; WriteFile filePath; HashFile filePath] |})
        else
          (Throw (WriteError filePath),
           {| files := files st; dirs := (folder ∪ dirs st); settings := settings st;
              trace := trace st ++ [Request uri; WriteFile filePath] |})
    end.
Proof.
  flow_unfold. destruct (download_option W configItem) as [uri md5value]. simpl.
  destruct (get_binary W uri) as [data|]; simpl; [|reflexivity].
  destruct (writable W _); simpl;
    [|rewrite <- !app_assoc; reflexivity].
  rewrite lookup_insert_eq.
  destruct (bool_decide (md5_hex W data = md5value)); simpl;
    [|rewrite <- !app_assoc; reflexivity].
  rewrite lookup_insert_eq.
  destruct (unzip W data) as [entries|mkdir written]; simpl;
    [|rewrite <- !app_assoc; reflexivity].
  destruct (settings_writable W); simpl; rewrite <- !app_assoc; reflexivity.
Qed.

(** The calls a run of the whole flow adds to the trace, and what it
    returns, in terms of the outcome of [upgrade]. *)
Lemma UpgradeCodeGenerator_cases (K : Constants) (W : World) (st : state) :
  let st1 := logged (Request (codeGenConfigUrl W)) st in
  UpgradeCodeGenerator K W st =
    match get_json W (codeGenConfigUrl W) with
    | None => (Throw (RequestError (codeGenConfigUrl W)), st1)
    | Some codeGenConfig =>
        match targetConfigItem (extensionVersion W) codeGenConfig with
        | None => (Ok false, st1)
        | Some target =>
            match fst (needUpgrade K W target st1) with
            | Ok true =>
                match upgrade K W target st1 with
                | (Ok _, st') => (Ok true, st')
                | (Throw e, st') => (Throw e, st')
                end
            | _ => (Ok true, st1)
            end
        end
    end.
Proof.
  intros st1.
  destruct (get_json W (codeGenConfigUrl W)) as [codeGenConfig|] eqn:Hcfg;
    [|apply UpgradeCodeGenerator_rejected, Hcfg].
  destruct (targetConfigItem (extensionVersion W) codeGenConfig) as [target|] eqn:Ht;
    [|apply (UpgradeCodeGenerator_no_target K W st _ Hcfg Ht)].
  apply (UpgradeCodeGenerator_selected K W st _ _ Hcfg Ht).
Qed.

Ltac flow_cases Hrun :=
  rewrite UpgradeCodeGenerator_cases in Hrun; cbv zeta in Hrun;
  repeat match type of Hrun with
         | context [match get_json ?W ?u with _ => _ end] =>
             destruct (get_json W u) as [?codeGenConfig|] eqn:?Hcfg
         | context [match targetConfigItem ?e ?c with _ => _ end] =>
             destruct (targetConfigItem e c) as [?target|] eqn:?Htarget
         | context [match fst (needUpgrade ?K ?W ?t ?s) with _ => _ end] =>
             destruct (fst (needUpgrade K W t s)) as [[|]|?e] eqn:?Hneed
         end.

Ltac upgrade_cases_in Hrun :=
  rewrite upgrade_cases in Hrun; cbv zeta in Hrun;
  repeat match type of Hrun with
         | context [match get_binary ?W ?u with _ => _ end] =>
             destruct (get_binary W u) as [?data|] eqn:?Hget
         | context [if writable ?W ?p then _ else _] =>
             destruct (writable W p) eqn:?Hwritable
         | context [if bool_decide ?P then _ else _] =>
             destruct (bool_decide_reflect P) as [?Hmd5|?Hmd5]
         | context [match unzip ?W ?d with _ => _ end] =>
             destruct (unzip W d) as [?entries|?mkdir ?written] eqn:?Hzip
         | context [if settings_writable ?W then _ else _] =>
             destruct (settings_writable W) eqn:?Hsettings
         end.

Ltac no_such_call Hin :=
  repeat (apply elem_of_cons in Hin as [Hin|Hin]; [discriminate|]);
  apply elem_of_nil in Hin; contradiction.

(** Nothing is extracted that has not been verified: a run that calls
    [extract] does so on the scratch file of the selected item, after the
    bytes downloaded for it have been found to have the expected digest. *)
Theorem extraction_only_after_verification (K : Constants) (W : World)
    (st st' : state) (r : result bool) (calls : list event)
    (sourceZip targetFoder : string) (ok : bool) :
  UpgradeCodeGenerator K W st = (r, st') ->
  trace st' = trace st ++ calls ->
  Extract sourceZip targetFoder ok ∈ calls ->
  exists target data,
    targetConfigItem (extensionVersion W)
      (default None (get_json W (codeGenConfigUrl W))) = Some target /\
    get_binary W (fst (download_option W target)) = Some data /\
    md5_hex W data = snd (download_option W target) /\
    sourceZip = scratch_file K W (snd (download_option W target)) /\
    targetFoder = codeGenCommandPath K W.
Proof.
  intros Hrun Htrace Hin.
  flow_cases Hrun;
    try (injection Hrun as <- <-; simpl in Htrace;
         apply app_inv_head in Htrace; subst calls; no_such_call Hin).
  upgrade_cases_in Hrun; injection Hrun as <- <-; simpl in Htrace;
    rewrite <- app_assoc in Htrace; apply app_inv_head in Htrace; subst calls;
    simpl in Hin;
    try no_such_call Hin;
    exists target, data; simpl;
    (repeat (apply elem_of_cons in Hin as [Hin|Hin]; [try discriminate|]);
     [injection Hin as -> -> ->; auto | try (apply elem_of_nil in Hin; contradiction);
      try no_such_call Hin]).
Qed.

Lemma extraction_only_after_verification_witness :
  exists target data,
    targetConfigItem "1.5.0" (Some Sample.config) = Some target /\
    get_binary (Sample.world "1.5.0" "abc123")
      (fst (download_option (Sample.world "1.5.0" "abc123") target)) = Some data /\
    md5_hex (Sample.world "1.5.0" "abc123") data
    = snd (download_option (Sample.world "1.5.0" "abc123") target) /\
    "/tmp/iotworkbench/abc123.zip"
    = scratch_file Sample.constants (Sample.world "1.5.0" "abc123")
        (snd (download_option (Sample.world "1.5.0" "abc123") target)) /\
    "/home/user/codegen"
    = codeGenCommandPath Sample.constants (Sample.world "1.5.0" "abc123").
Proof.
  refine (extraction_only_after_verification Sample.constants
            (Sample.world "1.5.0" "abc123") Sample.fresh _ _ _
            "/tmp/iotworkbench/abc123.zip" "/home/user/codegen" true _ _ _).
  - apply surjective_pairing.
  - vm_compute. reflexivity.
  - do 4 right. left.
Defined.



Lemma throw_keeps_settings (K : Constants) (W : World) (st st' : state) (e : error) :
  UpgradeCodeGenerator K W st = (Throw e, st') -> settings st' = settings st.
Proof.
  intros Hrun. flow_cases Hrun; try discriminate;
    try (injection Hrun as _ <-; reflexivity).
  upgrade_cases_in Hrun; try discriminate; injection Hrun as _ <-; reflexivity.
Qed.

(** The version recorded being absent, empty or older than the selected
    one, a run that throws is followed by a run that finds the upgrade
    still needed. *)
Theorem failed_upgrade_is_retried (K : Constants) (W : World) (st st' : state)
    (e : error) (target : CodeGeneratorConfigItem) :
  UpgradeCodeGenerator K W st = (Throw e, st') ->
  match settings st !! codeGeneratorVersionKey K with
  | None => True
  | Some v => v = "" \/ 0 < compareVersion (codeGeneratorVersion target) v
  end ->
  fst (needUpgrade K W target st') = Ok true.
Proof.
  intros Hrun Hold. apply throw_keeps_settings in Hrun.
  unfold needUpgrade, isDirectorySync, ConfigHandler_get, bind, ret. simpl.
  destruct (bool_decide _); simpl; [|reflexivity].
  rewrite Hrun.
  destruct (settings st !! codeGeneratorVersionKey K) as [v|]; [|reflexivity].
  simpl. destruct Hold as [->|Hold]; [reflexivity|].
  rewrite (proj2 (Z.ltb_lt _ _) Hold). rewrite orb_true_r. reflexivity.
Qed.

Lemma failed_upgrade_is_retried_witness :
  fst (needUpgrade Sample.constants (Sample.world "1.5.0" "xyz999") Sample.item_1_3_0
         (snd (UpgradeCodeGenerator Sample.constants (Sample.world "1.5.0" "xyz999")
                 Sample.fresh)))
  = Ok true.
Proof.
  apply (failed_upgrade_is_retried Sample.constants (Sample.world "1.5.0" "xyz999")
           Sample.fresh _ HashError).
  - vm_compute. reflexivity.
  - vm_compute. exact I.
Defined.

(** After a run that returned [true] the directory of the tool exists
    and a version is recorded that the selected one does not exceed. *)
Theorem success_records_target (K : Constants) (W : World) (st st' : state) :
  UpgradeCodeGenerator K W st = (Ok true, st') ->
  exists target v,
    targetConfigItem (extensionVersion W)
      (default None (get_json W (codeGenConfigUrl W))) = Some target /\
    codeGenCommandPath K W ∈ dirs st' /\
    settings st' !! codeGeneratorVersionKey K = Some v /\
    compareVersion (codeGeneratorVersion target) v <= 0.
Proof.
  intros Hrun. flow_cases Hrun; try discriminate.
  - upgrade_cases_in Hrun; try discriminate.
    injection Hrun as <-. exists target, (codeGeneratorVersion target). simpl.
    split; [exact Htarget|]. split; [set_solver|].
    rewrite lookup_insert_eq, compareVersion_refl. split; [reflexivity|lia].
  - injection Hrun as <-. exists target. simpl.
    revert Hneed.
    unfold needUpgrade, isDirectorySync, ConfigHandler_get, bind, ret. simpl.
    destruct (bool_decide_reflect (codeGenCommandPath K W ∈ dirs st)) as [Hdir|Hdir];
      simpl; [|discriminate].
    destruct (settings st !! codeGeneratorVersionKey K) as [v|]; [|discriminate].
    simpl. intros [= Hneed]. apply orb_false_elim in Hneed as [_ Hcmp].
    exists v. repeat split; auto. apply Z.ltb_ge, Hcmp.
  - exfalso. destruct (needUpgrade_pure K W target
                         (logged (Request (codeGenConfigUrl W)) st)) as [need Hn].
    rewrite Hn in Hneed. discriminate.
Qed.

Lemma success_records_target_witness :
  exists target v,
    targetConfigItem "1.5.0" (Some Sample.config) = Some target /\
    "/home/user/codegen"
      ∈ dirs (snd (UpgradeCodeGenerator Sample.constants
                     (Sample.world "1.5.0" "abc123") Sample.fresh)) /\
    settings (snd (UpgradeCodeGenerator Sample.constants
                     (Sample.world "1.5.0" "abc123") Sample.fresh))
      !! "codeGeneratorVersion" = Some v /\
    compareVersion (codeGeneratorVersion target) v <= 0.
Proof.
  apply (success_records_target Sample.constants (Sample.world "1.5.0" "abc123")
           Sample.fresh).
  vm_compute. reflexivity.
Defined.

(** The directory of the tool being absent while a version that the
    selected one does not exceed is still recorded, an extraction that
    fails after having created the directory makes the next run return
    [true] without downloading or extracting anything. *)
Theorem failed_extraction_passes_for_installed (K : Constants) (W : World)
    (st : state) (codeGenConfig : option CodeGeneratorConfig)
    (target : CodeGeneratorConfigItem) (v data : string)
    (written : list (string * string)) :
  get_json W (codeGenConfigUrl W) = Some codeGenConfig ->
  targetConfigItem (extensionVersion W) codeGenConfig = Some target ->
  codeGenCommandPath K W ∉ dirs st ->
  settings st !! codeGeneratorVersionKey K = Some v ->
  v <> "" ->
  compareVersion (codeGeneratorVersion target) v <= 0 ->
  get_binary W (fst (download_option W target)) = Some data ->
  writable W (scratch_file K W (snd (download_option W target))) = true ->
  md5_hex W data = snd (download_option W target) ->
  unzip W data = UnzipError true written ->
  fst (UpgradeCodeGenerator K W st) = Throw ExtractError /\
  UpgradeCodeGenerator K W (snd (UpgradeCodeGenerator K W st))
  = (Ok true,
     logged (Request (codeGenConfigUrl W)) (snd (UpgradeCodeGenerator K W st))).
Proof.
  intros Hcfg Htarget Hdir Hv Hne Hcmp Hget Hwrite Hmd5 Hzip.
  assert (Hneed1 : fst (needUpgrade K W target
                          (logged (Request (codeGenConfigUrl W)) st)) = Ok true).
  { unfold needUpgrade, isDirectorySync, bind, ret. simpl.
    rewrite (bool_decide_eq_false_2 _ Hdir). reflexivity. }
  assert (Hrun1 : UpgradeCodeGenerator K W st =
    (Throw ExtractError,
     {| files := write_entries W (codeGenCommandPath K W) written
                   (<[scratch_file K W (snd (download_option W target)) := data]>
                      (files st));
        dirs :=
          {[codeGenCommandPath K W]} ∪
          (list_to_set
             (mkdirp W
                (path_dirname W (scratch_file K W (snd (download_option W target))))) ∪
           dirs st);
        settings := settings st;
        trace := (trace st ++ [Request (codeGenConfigUrl W)]) ++
          [Request (fst (download_option W target));
           WriteFile (scratch_file K W (snd (download_option W target)));
           HashFile (scratch_file K W (snd (download_option W target)));
           Extract (scratch_file K W (snd (download_option W target)))
             (codeGenCommandPath K W) false] |})).
  { rewrite UpgradeCodeGenerator_cases. cbv zeta.
    rewrite Hcfg, Htarget, Hneed1, upgrade_cases. cbv zeta.
    rewrite Hget, Hwrite, (bool_decide_eq_true_2 _ Hmd5), Hzip. reflexivity. }
  rewrite Hrun1. split; [reflexivity|]. simpl.
  rewrite UpgradeCodeGenerator_cases. cbv zeta. rewrite Hcfg, Htarget.
  match goal with
  | |- context [fst (needUpgrade K W target ?s)] =>
      assert (Hneed2 : fst (needUpgrade K W target s) = Ok false)
  end.
  { unfold needUpgrade, isDirectorySync, ConfigHandler_get, bind, ret. simpl.
    rewrite bool_decide_eq_true_2
      by (apply elem_of_union_l, elem_of_singleton; reflexivity).
    simpl. rewrite Hv, (bool_decide_eq_false_2 _ Hne). simpl.
    rewrite (proj2 (Z.ltb_ge _ _) Hcmp). reflexivity. }
  rewrite Hneed2. reflexivity.
Qed.

Lemma failed_extraction_passes_for_installed_witness :
  fst (UpgradeCodeGenerator Sample.constants Scenario.broken_world Scenario.removed)
  = Throw ExtractError /\
  UpgradeCodeGenerator Sample.constants Scenario.broken_world
    (snd (UpgradeCodeGenerator Sample.constants Scenario.broken_world Scenario.removed))
  = (Ok true,
     logged (Request "https://host/config.json")
       (snd (UpgradeCodeGenerator Sample.constants Scenario.broken_world
               Scenario.removed))).
Proof.
  apply (failed_extraction_passes_for_installed Sample.constants Scenario.broken_world
           Scenario.removed (Some Sample.config) Sample.item_1_3_0 "1.3.0" "payload" []).
  - reflexivity.
  - reflexivity.
  - apply not_elem_of_empty.
  - reflexivity.
  - discriminate.
  - vm_compute. discriminate.
  - reflexivity.
  - reflexivity.
  - reflexivity.
  - reflexivity.
Defined.

(** * Properties of the code generation *)

(** ** The name of a capability model file *)

Lemma lazy_any_sound (follow taken s r : list ascii) :
  lazy_any follow taken s = Some r ->
  exists pre,
    s = pre ++ follow /\ r = rev taken ++ pre /\
    Forall (fun c => line_terminator c = false) pre.
Proof.
  revert taken. induction s as [|c s IH]; intros taken; simpl.
  - destruct (bool_decide_reflect ([] = follow)) as [<-|_]; [|discriminate].
    intros [= <-]. exists []. rewrite !app_nil_r. auto.
  - destruct (bool_decide_reflect (c :: s = follow)) as [<-|_].
    + intros [= <-]. exists []. rewrite !app_nil_r. auto.
    + destruct (line_terminator c) eqn:Hc; [discriminate|].
      intros (pre & -> & -> & Hpre)%IH. exists (c :: pre).
      simpl. rewrite <- app_assoc. auto.
Qed.

Lemma lazy_any_complete (follow taken pre : list ascii) :
  Forall (fun c => line_terminator c = false) pre ->
  lazy_any follow taken (pre ++ follow) = Some (rev taken ++ pre).
Proof.
  intros Hpre. revert taken. induction Hpre as [|c pre Hc _ IH]; intros taken.
  - rewrite app_nil_r. simpl app.
    destruct follow as [|f follow]; cbn [lazy_any];
      rewrite bool_decide_eq_true_2 by reflexivity; reflexivity.
  - cbn [app lazy_any]. rewrite bool_decide_eq_false_2.
    + rewrite Hc, IH. simpl. rewrite <- app_assoc. reflexivity.
    + intros Heq. apply (f_equal length) in Heq. simpl in Heq.
      rewrite length_app in Heq. lia.
Qed.

Lemma chars_string (l : list ascii) : JS.chars (string_of_list_ascii l) = l.
Proof. apply list_ascii_of_string_of_list_ascii. Qed.

Lemma string_chars (s : string) : string_of_list_ascii (JS.chars s) = s.
Proof. apply string_of_list_ascii_of_string. Qed.

(** A file name that the pattern accepts is the group followed by
    [.capabilitymodel.json], and the group has no line break. *)
Lemma capability_core_sound (fileName fileCoreName : string) :
  capability_core fileName = Some fileCoreName ->
  fileName = fileCoreName +:+ ".capabilitymodel.json" /\
  Forall (fun c => line_terminator c = false) (JS.chars fileCoreName).
Proof.
  unfold capability_core.
  destruct (lazy_any _ [] (JS.chars fileName)) as [r|] eqn:Hr; [|discriminate].
  intros [= <-]. apply lazy_any_sound in Hr as (pre & Hs & -> & Hpre).
  simpl. rewrite chars_string. split; [|exact Hpre].
  rewrite <- (string_chars fileName), Hs.
  rewrite <- (chars_string pre) at 1. rewrite <- chars_app.
  apply string_chars.
Qed.

(** A text without line break followed by [.capabilitymodel.json] is
    accepted, with that text as the group. *)
Lemma capability_core_complete (fileCoreName : string) :
  Forall (fun c => line_terminator c = false) (JS.chars fileCoreName) ->
  capability_core (fileCoreName +:+ ".capabilitymodel.json") = Some fileCoreName.
Proof.
  intros Hpre. unfold capability_core. rewrite chars_app.
  rewrite (lazy_any_complete _ [] _ Hpre). simpl.
  rewrite string_chars. reflexivity.
Qed.

(** The pattern accepts a file name exactly when it is a text without
    line break followed by [.capabilitymodel.json]; the group is that
    text, so that the name is recovered from it. *)
Theorem capability_core_iff (fileName fileCoreName : string) :
  capability_core fileName = Some fileCoreName <->
  fileName = fileCoreName +:+ ".capabilitymodel.json" /\
  Forall (fun c => line_terminator c = false) (JS.chars fileCoreName).
Proof.
  split.
  - apply capability_core_sound.
  - intros [-> Hpre]. apply capability_core_complete, Hpre.
Qed.

(** ** [GenerateDeviceCodeCore] *)

(** For a file named [<core>.capabilitymodel.json] the generator is
    called once, with the core of the name, and the function returns
    [true] whatever the generator reports. *)
Theorem core_generates_for_capability_model (W : World) (U : Studio)
    (capabilityModelFilePath fileCoreName : string) (info : CodeGenExecutionInfo)
    (codeGenerator : CodeGenerator) (result : bool) (d : desk) :
  CreateCodeGeneratorImpl U (codeGenProjectType info) (deviceConnectionType info)
    = Some codeGenerator ->
  basename U capabilityModelFilePath = fileCoreName +:+ ".capabilitymodel.json" ->
  fileCoreName <> "" ->
  Forall (fun c => line_terminator c = false) (JS.chars fileCoreName) ->
  codeGenerator (targetFolder info) capabilityModelFilePath fileCoreName
    (path_join W (targetFolder info) (schemaFolder info)) = Some result ->
  GenerateDeviceCodeCore W U capabilityModelFilePath info d
  = (Done true,
     noted (GenerateCode (targetFolder info) capabilityModelFilePath fileCoreName
              (path_join W (targetFolder info) (schemaFolder info))) d).
Proof.
  intros Hgen Hname Hcore Hline Hresult. unfold GenerateDeviceCodeCore.
  rewrite Hgen, Hname, (capability_core_complete _ Hline).
  rewrite (bool_decide_eq_false_2 _ Hcore).
  unfold Act.bind, note. rewrite Hresult. reflexivity.
Qed.

Lemma core_generates_for_capability_model_witness :
  GenerateDeviceCodeCore (Sample.world "1.5.0" "abc123") Workspace.studio
    "/out/schema/thermostat.capabilitymodel.json" Workspace.info (Workspace.desk_with [])
  = (Done true,
     noted (GenerateCode "/out" "/out/schema/thermostat.capabilitymodel.json"
              "thermostat" "/out/schema") (Workspace.desk_with [])).
Proof.
  apply (core_generates_for_capability_model (Sample.world "1.5.0" "abc123")
           Workspace.studio "/out/schema/thermostat.capabilitymodel.json" "thermostat"
           Workspace.info Workspace.generator false).
  - reflexivity.
  - reflexivity.
  - discriminate.
  - repeat constructor.
  - reflexivity.
Defined.

(** Without a generator for the project type, or for a file whose name
    is not a core without line break, not empty, followed by
    [.capabilitymodel.json], the function returns [false] and the
    generator is not called. *)
Theorem core_rejects_other_files (W : World) (U : Studio)
    (capabilityModelFilePath : string) (info : CodeGenExecutionInfo) (d : desk) :
  CreateCodeGeneratorImpl U (codeGenProjectType info) (deviceConnectionType info) = None \/
  (forall fileCoreName,
     fileCoreName <> "" ->
     Forall (fun c => line_terminator c = false) (JS.chars fileCoreName) ->
     basename U capabilityModelFilePath <> fileCoreName +:+ ".capabilitymodel.json") ->
  GenerateDeviceCodeCore W U capabilityModelFilePath info d = (Done false, d).
Proof.
  intros Hno. unfold GenerateDeviceCodeCore.
  destruct (CreateCodeGeneratorImpl U _ _) as [codeGenerator|]; [|reflexivity].
  destruct Hno as [Hno|Hno]; [discriminate|].
  destruct (capability_core (basename U capabilityModelFilePath))
    as [fileCoreName|] eqn:Hcore; [|reflexivity].
  apply capability_core_sound in Hcore as [Hname Hline].
  destruct (bool_decide_reflect (fileCoreName = "")) as [_|Hne]; [reflexivity|].
  exfalso. exact (Hno fileCoreName Hne Hline Hname).
Qed.

Lemma core_rejects_other_files_witness :
  GenerateDeviceCodeCore (Sample.world "1.5.0" "abc123") Workspace.studio
    "/out/schema/.capabilitymodel.json" Workspace.info (Workspace.desk_with [])
  = (Done false, Workspace.desk_with []).
Proof.
  apply (core_rejects_other_files (Sample.world "1.5.0" "abc123") Workspace.studio).
  right. intros fileCoreName Hne _ Hname.
  change (basename Workspace.studio "/out/schema/.capabilitymodel.json")
    with ("" +:+ ".capabilitymodel.json") in Hname.
  apply (f_equal JS.chars) in Hname. rewrite !chars_app in Hname.
  apply app_inv_tail in Hname. destruct fileCoreName; [contradiction|discriminate].
Defined.

(** ** [DownloadInterfaceFile] *)


(** One [try] block with its empty [catch]. *)
Lemma try_fetch_cases (W : World) (U : Studio) (urnId : string)
    (repositoryId : option string) (filePath : string) (d : desk) :
  Act.catch (fetch_interface W U urnId repositoryId filePath)
    (fun _ => Act.ret false) d =
  match GetInterfaceAsync U urnId repositoryId with
  | Some (Some content) =>
      let d1 :=
        set_store (made W (path_dirname W filePath) (store d))
          (noted (WriteInterface filePath) (noted (GetInterface urnId repositoryId) d)) in
      if writable W filePath then
        (Done true,
         set_store (set_files (<[filePath := content]> (files (store d))) (store d1)) d1)
      else (Done false, d1)
  | _ => (Done false, noted (GetInterface urnId repositoryId) d)
  end.
Proof.
  unfold Act.catch, fetch_interface, Act.bind, note, write_file, make_directory_of,
    put_file, Act.bind, Act.ret, Act.throw.
  destruct (GetInterfaceAsync U urnId repositoryId) as [[content|]|]; try reflexivity.
  cbv zeta. destruct (writable W filePath); reflexivity.
Qed.

(** Without a connection string, neither configured nor entered, the
    function returns [false] after the prompt: no repository is
    contacted and the store is as before. *)
Theorem download_needs_connection_string (W : World) (C : StubConstants) (U : Studio)
    (urnId targetFolder : string) (d : desk) :
  match settings (store d) !! modelRepositoryKeyName C with
  | Some (String _ _) => False
  | _ => True
  end ->
  match script d with
  | Text (String _ _) :: _ => False
  | _ => True
  end ->
  DownloadInterfaceFile W C U urnId targetFolder d =
    (Done false,
     {| store := store d; script := tail (script d);
        journal := journal d ++
          [ShowInputBox
             "Please input the connection string to access the model repository."] |}).
Proof.
  intros Hcfg Hscript. unfold DownloadInterfaceFile, Act.bind at 1.
  destruct (settings (store d) !! modelRepositoryKeyName C) as [[|c cs]|];
    try contradiction;
    unfold Act.bind, showInputBox, Act.bind, note, next_answer, noted, Act.ret; simpl;
    destruct (script d) as [|[i|[|c v]|] rest]; try contradiction; reflexivity.
Qed.

Lemma download_needs_connection_string_witness :
  fst (DownloadInterfaceFile (Sample.world "1.5.0" "abc123") Workspace.constants
         Workspace.studio "urn:remote" "/out/schema" (Workspace.desk_with [Dismiss]))
  = Done false.
Proof.
  rewrite (download_needs_connection_string (Sample.world "1.5.0" "abc123")
             Workspace.constants Workspace.studio "urn:remote" "/out/schema"
             (Workspace.desk_with [Dismiss])); [reflexivity|exact I|exact I].
Defined.




(** With a connection string configured and the interface held by the
    private repository, the user is not prompted and the public
    repository is not queried: the calls are the connection, the query of
    the private repository and the write, which makes the directory of
    the file. *)
Theorem private_repository_first (W : World) (C : StubConstants) (U : Studio)
    (urnId targetFolder connectionString repositoryId content : string) (d : desk) :
  settings (store d) !! modelRepositoryKeyName C = Some connectionString ->
  connectionString <> "" ->
  ConnectMetamodelRepository U connectionString = Some true ->
  RepositoryIdValue U connectionString = Some repositoryId ->
  GetInterfaceAsync U urnId (Some repositoryId) = Some (Some content) ->
  let filePath :=
    path_join W targetFolder (generateInterfaceFileNameFromUrnId U urnId targetFolder) in
  writable W filePath = true ->
  DownloadInterfaceFile W C U urnId targetFolder d =
    (Done true,
     {| store :=
          set_files (<[filePath := content]> (files (store d)))
            (made W (path_dirname W filePath) (store d));
        script := script d;
        journal := journal d ++
          [Connect connectionString; GetInterface urnId (Some repositoryId);
           WriteInterface filePath] |}).
Proof.
  intros Hcfg Hne Hconnect Hrepo Hprivate filePath Hw.
  unfold DownloadInterfaceFile, Act.bind at 1 2. rewrite Hcfg.
  destruct connectionString as [|c cs]; [contradiction|]. unfold Act.ret at 1.
  fold filePath. unfold download_connected, Act.bind at 1, note.
  rewrite Hconnect, Hrepo. unfold Act.bind. rewrite try_fetch_cases.
  rewrite Hprivate. cbv zeta. rewrite Hw. unfold set_store, noted. simpl.
  rewrite <- !app_assoc. reflexivity.
Qed.

Lemma private_repository_first_witness :
  DownloadInterfaceFile (Sample.world "1.5.0" "abc123") Workspace.constants
    Workspace.private_studio "urn:remote" "/out/schema" Workspace.configured =
  (Done true,
   {| store := set_files (<["/out/schema/urn:remote.interface.json" := "private"]>
                            (files (store Workspace.configured)))
                 (made (Sample.world "1.5.0" "abc123") "/out/schema"
                    (store Workspace.configured));
      script := [];
      journal := [Connect "HostName=repo"; GetInterface "urn:remote" (Some "repo");
                  WriteInterface "/out/schema/urn:remote.interface.json"] |}).
Proof.
  apply (private_repository_first (Sample.world "1.5.0" "abc123") Workspace.constants
           Workspace.private_studio "urn:remote" "/out/schema" "HostName=repo" "repo"
           "private" Workspace.configured);
    (reflexivity || discriminate).
Defined.

(** The connection string being entered at the prompt, and the private
    repository rejecting the query or not holding the interface, the
    public repository is queried and what it holds is written, in the
    directory made for the file. *)
Theorem public_repository_second (W : World) (C : StubConstants) (U : Studio)
    (urnId targetFolder connectionString repositoryId content : string)
    (rest : list answer) (d : desk) :
  settings (store d) !! modelRepositoryKeyName C = None ->
  script d = Text connectionString :: rest ->
  connectionString <> "" ->
  ConnectMetamodelRepository U connectionString = Some true ->
  RepositoryIdValue U connectionString = Some repositoryId ->
  GetInterfaceAsync U urnId (Some repositoryId) = None \/
  GetInterfaceAsync U urnId (Some repositoryId) = Some None ->
  GetInterfaceAsync U urnId None = Some (Some content) ->
  let filePath :=
    path_join W targetFolder (generateInterfaceFileNameFromUrnId U urnId targetFolder) in
  writable W filePath = true ->
  DownloadInterfaceFile W C U urnId targetFolder d =
    (Done true,
     {| store :=
          set_files (<[filePath := content]> (files (store d)))
            (made W (path_dirname W filePath) (store d));
        script := rest;
        journal := journal d ++
          [ShowInputBox
             "Please input the connection string to access the model repository.";
           Connect connectionString; GetInterface urnId (Some repositoryId);
           GetInterface urnId None; WriteInterface filePath] |}).
Proof.
  intros Hcfg Hscript Hne Hconnect Hrepo Hprivate Hpublic filePath Hw.
  unfold DownloadInterfaceFile, showInputBox, Act.bind, note, next_answer, Act.ret.
  rewrite Hcfg. simpl. rewrite Hscript.
  destruct connectionString as [|c cs]; [contradiction|].
  fold filePath. unfold download_connected, Act.bind at 1, note.
  rewrite Hconnect, Hrepo. unfold Act.bind. rewrite !try_fetch_cases.
  destruct Hprivate as [-> | ->]; rewrite try_fetch_cases, Hpublic; cbv zeta;
    rewrite Hw; unfold set_store, noted; simpl;
    rewrite <- !app_assoc; reflexivity.
Qed.

Lemma public_repository_second_witness :
  DownloadInterfaceFile (Sample.world "1.5.0" "abc123") Workspace.constants
    Workspace.studio "urn:remote" "/out/schema"
    (Workspace.desk_with [Text "HostName=repo"; Dismiss]) =
  (Done true,
   {| store := set_files (<["/out/schema/urn:remote.interface.json" := "remote"]>
                            (files Workspace.installed))
                 (made (Sample.world "1.5.0" "abc123") "/out/schema"
                    Workspace.installed);
      script := [Dismiss];
      journal :=
        [ShowInputBox
           "Please input the connection string to access the model repository.";
         Connect "HostName=repo"; GetInterface "urn:remote" (Some "repo");
         GetInterface "urn:remote" None;
         WriteInterface "/out/schema/urn:remote.interface.json"] |}).
Proof.
  apply (public_repository_second (Sample.world "1.5.0" "abc123") Workspace.constants
           Workspace.studio "urn:remote" "/out/schema" "HostName=repo" "repo" "remote"
           [Dismiss] (Workspace.desk_with [Text "HostName=repo"; Dismiss]));
    try (reflexivity || discriminate).
  left. reflexivity.
Defined.

(** ** [GenerateDeviceCodeStub] *)

Lemma scan_from (C : StubConstants) (U : Studio) (st : state) (fileList : list string)
    (found : list QuickPickItem * list InterfaceInfo) :
  let is_model p :=
    negb (bool_decide (p ∈ dirs st))
    && ends_with (basename U p) (capabilityModelSuffix C) in
  let is_interface info :=
    path info ∈ fileList /\ (path info ∉ dirs st) /\
    ends_with (basename U (path info)) (capabilityModelSuffix C) = false /\
    ends_with (basename U (path info)) (interfaceSuffix C) = true /\
    Json.truthy (Some (urnId info)) = true /\
    exists text fileJson,
      files st !! (path info) = Some text /\
      JSON_parse U text = Some fileJson /\
      Json.member fileJson "@id" = Some (Some (urnId info)) in
  exists more,
    foldl (scan_file C U st) found fileList
    = (fst found ++ map (capability_item U) (List.filter is_model fileList),
       snd found ++ more) /\
    Forall is_interface more.
Proof.
  intros is_model is_interface. subst is_interface.
  revert found. induction fileList as [|p l IH]; intros found; simpl.
  - exists []. rewrite !app_nil_r. destruct found. auto.
  - destruct (IH (scan_file C U st found p)) as (more & -> & Hmore).
    assert (Hmore' : Forall (fun info =>
      path info ∈ p :: l /\ (path info ∉ dirs st) /\
      ends_with (basename U (path info)) (capabilityModelSuffix C) = false /\
      ends_with (basename U (path info)) (interfaceSuffix C) = true /\
      Json.truthy (Some (urnId info)) = true /\
      exists text fileJson,
        files st !! (path info) = Some text /\
        JSON_parse U text = Some fileJson /\
        Json.member fileJson "@id" = Some (Some (urnId info))) more).
    { eapply Forall_impl; [exact Hmore|]. intros info (Hin & Hrest).
      split; [right; exact Hin|exact Hrest]. }
    unfold scan_file, is_model.
    destruct (bool_decide_reflect (p ∈ dirs st)) as [Hdir|Hdir]; simpl.
    { exists more. auto. }
    destruct (ends_with (basename U p) (capabilityModelSuffix C)) eqn:Hcap; simpl.
    { exists more. split; [|exact Hmore']. f_equal.
      rewrite <- app_assoc. reflexivity. }
    destruct (ends_with (basename U p) (interfaceSuffix C)) eqn:Hint;
      [|exists more; auto].
    destruct (files st !! p) as [text|] eqn:Htext; [|exists more; auto].
    destruct (JSON_parse U text) as [fileJson|] eqn:Hparse; [|exists more; auto].
    destruct (Json.member fileJson "@id") as [[id|]|] eqn:Hid; cbn -[Json.truthy];
      try (exists more; auto; fail).
    destruct (Json.truthy (Some id)) eqn:Htruthy; [|exists more; auto].
    exists ({| urnId := id; path := p |} :: more). cbn -[Json.truthy].
    rewrite <- app_assoc. split; [reflexivity|].
    constructor; [|exact Hmore']. simpl.
    split; [left|]. repeat split; auto. exists text, fileJson. auto.
Qed.

(** The capability models offered for selection are the paths of the
    listing that are not directories and whose base name ends with the
    suffix of capability models, in the order of the listing; the
    interfaces kept are files of the listing with the suffix of
    interfaces and without that of capability models, whose text parses
    to a document with a truthy [@id]. *)
Theorem scan_classifies (C : StubConstants) (U : Studio) (st : state)
    (fileList : list string) :
  fst (scan C U st fileList)
  = map (capability_item U)
      (List.filter
         (fun p => negb (bool_decide (p ∈ dirs st))
                   && ends_with (basename U p) (capabilityModelSuffix C))
         fileList) /\
  Forall
    (fun info =>
       path info ∈ fileList /\ (path info ∉ dirs st) /\
       ends_with (basename U (path info)) (capabilityModelSuffix C) = false /\
       ends_with (basename U (path info)) (interfaceSuffix C) = true /\
       Json.truthy (Some (urnId info)) = true /\
       exists text fileJson,
         files st !! (path info) = Some text /\
         JSON_parse U text = Some fileJson /\
         Json.member fileJson "@id" = Some (Some (urnId info)))
    (snd (scan C U st fileList)).
Proof.
  unfold scan. destruct (scan_from C U st fileList ([], [])) as (more & -> & Hmore).
  simpl. auto.
Qed.

(** A run of [UpgradeCodeGenerator] that throws ends the code generation
    with its error before anything is asked, the recorded settings being
    as before; when the configuration document offers no generator for
    the extension, the code generation goes on to the selection of the
    capability model with the generator that is installed. *)
Theorem stub_after_upgrade (K : Constants) (W : World) (C : StubConstants)
    (U : Studio) (d : desk) :
  (forall e st,
     UpgradeCodeGenerator K W (store d) = (Throw e, st) ->
     GenerateDeviceCodeStub K W C U d
     = (Failed (UpgradeFailed e),
        {| store := st; script := script d; journal := journal d |}) /\
     settings st = settings (store d)) /\
  (forall codeGenConfig,
     get_json W (codeGenConfigUrl W) = Some codeGenConfig ->
     targetConfigItem (extensionVersion W) codeGenConfig = None ->
     GenerateDeviceCodeStub K W C U d
     = select_capability_model W C U
         {| store := logged (Request (codeGenConfigUrl W)) (store d);
            script := script d; journal := journal d |}).
Proof.
  unfold GenerateDeviceCodeStub, Act.bind, upgrade_generator. split.
  - intros e st Hrun. rewrite Hrun. split; [reflexivity|].
    apply (throw_keeps_settings K W _ _ e Hrun).
  - intros codeGenConfig Hcfg Htarget.
    rewrite (UpgradeCodeGenerator_no_target K W (store d) _ Hcfg Htarget).
    reflexivity.
Qed.







Lemma stub_after_upgrade_witness :
  fst (GenerateDeviceCodeStub Sample.constants (Sample.world "1.5.0" "xyz999")
         Workspace.constants Workspace.studio
         {| store := Sample.fresh; script := [Pick 0]; journal := [] |})
  = Failed (UpgradeFailed HashError).
Proof.
  destruct (proj1 (stub_after_upgrade Sample.constants (Sample.world "1.5.0" "xyz999")
                     Workspace.constants Workspace.studio
                     {| store := Sample.fresh; script := [Pick 0]; journal := [] |})
              HashError
              (snd (UpgradeCodeGenerator Sample.constants (Sample.world "1.5.0" "xyz999")
                      Sample.fresh)))
    as [H _].
  - vm_compute. reflexivity.
  - rewrite H. reflexivity.
Defined.

(** * Properties of the environment configuration *)

Section EnvironmentFacts.
Variable P : Configurer.

Lemma askToOverwrite_skips projectPath pre rest s :
  Forall (fun f => target_exists P projectPath f = Some false) pre ->
  askToOverwrite P projectPath (pre ++ rest) s = askToOverwrite P projectPath rest s.
Proof.
  unfold target_exists.
  induction 1 as [|f pre Hf _ IH]; [reflexivity|].
  cbn [app askToOverwrite]. rewrite Hf. exact IH.
Qed.

(** When none of the target files exists, nothing is asked and the
    files may be written. *)
Theorem overwrite_without_prompt projectPath infos s :
  Forall (fun f => target_exists P projectPath f = Some false) infos ->
  askToOverwrite P projectPath infos s = (Done true, s).
Proof.
  intros H. rewrite <- (app_nil_r infos).
  rewrite (askToOverwrite_skips _ _ [] s H). reflexivity.
Qed.

(** The user is asked once, about the first target file that exists: the
    files after it are neither looked up nor asked about, and only the
    answer 'Yes to all' allows to overwrite. *)
Theorem overwrite_asks_about_first_existing projectPath pre f post s :
  Forall (fun f => target_exists P projectPath f = Some false) pre ->
  target_exists P projectPath f = Some true ->
  let (r, s') := askToOverwrite P projectPath (pre ++ f :: post) s in
  calls s' = calls s ++ [overwrite_prompt (fileName f)] /\
  answers s' = tail (answers s) /\
  telemetry s' = telemetry s /\
  r = match answers s with
      | Pick 0 :: _ => Done false
      | Pick 1 :: _ => Done true
      | _ => Failed (CancelOperationError
                       ("Ask to overwrite " +:+ fileName f +:+ " selection cancelled."))
      end.
Proof.
  intros Hpre Hf. rewrite (askToOverwrite_skips _ _ _ s Hpre).
  unfold target_exists in Hf.
  cbn [askToOverwrite]. rewrite Hf.
  unfold askToOverwriteFile, ask, called, Act.bind, Act.ret, Act.throw. cbn.
  destruct (answers s) as [|[[|[|i]]|v|] rest]; cbn;
    try rewrite lookup_nil; cbn; repeat split; reflexivity.
Qed.

Lemma askToOverwrite_cases projectPath infos s :
  let (r, s') := askToOverwrite P projectPath infos s in
  (s' = s /\
   (r = Failed FileExistsError \/
    (r = Done true /\
     Forall (fun f => target_exists P projectPath f = Some false) infos))) \/
  (exists f,
     In f infos /\ target_exists P projectPath f = Some true /\
     calls s' = calls s ++ [overwrite_prompt (fileName f)] /\
     answers s' = tail (answers s) /\
     telemetry s' = telemetry s /\
     r = match answers s with
         | Pick 0 :: _ => Done false
         | Pick 1 :: _ => Done true
         | _ => Failed (CancelOperationError
                          ("Ask to overwrite " +:+ fileName f +:+
                           " selection cancelled."))
         end).
Proof.
  induction infos as [|f infos IH].
  - left. split; [reflexivity|]. right. split; [reflexivity|constructor].
  - destruct (target_exists P projectPath f) as [[|]|] eqn:Hf.
    + cbn [askToOverwrite]. unfold target_exists in Hf. rewrite Hf.
      fold (target_exists P projectPath f) in Hf.
      unfold askToOverwriteFile, ask, called, Act.bind, Act.ret, Act.throw. cbn.
      destruct (answers s) as [|[[|[|i]]|v|] rest] eqn:Hanswers; cbn;
        try rewrite lookup_nil; cbn;
        right; exists f; (split; [left; reflexivity|]); (split; [exact Hf|]);
        cbn; rewrite ?Hanswers; repeat split; reflexivity.
    + cbn [askToOverwrite]. unfold target_exists in Hf. rewrite Hf.
      fold (target_exists P projectPath f) in Hf.
      destruct (askToOverwrite P projectPath infos s) as [r s'].
      destruct IH as [[-> [-> | [-> Hnone]]] | (g & Hin & Hrest)].
      * left. auto.
      * left. split; [reflexivity|]. right. split; [reflexivity|].
        constructor; assumption.
      * right. exists g. split; [right; exact Hin|exact Hrest].
    + cbn [askToOverwrite]. unfold target_exists in Hf. rewrite Hf.
      left. split; [reflexivity|]. left. reflexivity.
Qed.

Lemma askToCustomize_cases (s : session) :
  let (r, s') := askToCustomize s in
  calls s' = calls s ++ [customize_prompt] /\
  telemetry s' = telemetry s /\
  answers s' = tail (answers s) /\
  (r = Done true \/ r = Done false \/
   exists message, r = Failed (CancelOperationError message)).
Proof.
  unfold askToCustomize, ask, called, Act.bind, Act.ret, Act.throw.
  cbn [calls answers telemetry].
  destruct (answers s) as [|[[|[|i]]|v|] rest]; cbn;
    try rewrite lookup_nil; cbn; repeat split; eauto.
Qed.

Lemma configure_shape platform projectPath infos openInNewWindow s (asks : list EnvCall) (c : bool) (s2 : session) :
  Forall (fun c => is_configure c = false) asks ->
  (platform <> EmbeddedLinux -> ~ In customize_prompt asks) ->
  calls s2 = calls s ++ asks ->
  (platform <> EmbeddedLinux -> c = false /\ telemetry s2 = telemetry s) ->
  (platform = EmbeddedLinux ->
   t_customizeEnvironment (telemetry s2) = Some (if c then "true" else "false")) ->
  (Exists (fun f => target_exists P projectPath f = Some true) infos ->
   exists rest, answers s = Pick 1 :: rest) ->
  steps_shape P platform projectPath infos openInNewWindow s
    (Act.bind
       (called (ConfigureProjectEnv platform projectPath infos openInNewWindow c))
       (fun _ =>
          if configureProjectEnv_resolves P platform projectPath infos
               openInNewWindow c
          then Act.ret tt else Act.throw ConfigureError) s2).
Proof.
  intros Hasks Hnocust Hcalls Hother Hlinux Hexists.
  unfold steps_shape, Act.bind, called, Act.ret, Act.throw.
  destruct (configureProjectEnv_resolves P platform projectPath infos
              openInNewWindow c) eqn:Hres;
    (split; [discriminate|]); exists asks;
    (split; [exact Hasks|]); (split; [exact Hnocust|]);
    right; exists c; cbn [calls telemetry];
    rewrite Hcalls, <- app_assoc, Hres;
    repeat split; try assumption; try (apply Hother; assumption);
    try discriminate; auto.
Qed.

Lemma cancelled_shape platform projectPath infos openInNewWindow s (asks : list EnvCall) (message : string) (s2 : session) :
  Forall (fun c => is_configure c = false) asks ->
  (platform <> EmbeddedLinux -> ~ In customize_prompt asks) ->
  calls s2 = calls s ++ asks ->
  steps_shape P platform projectPath infos openInNewWindow s
    (Done tt, cancelled message s2).
Proof.
  intros Hasks Hnocust Hcalls. split; [discriminate|]. exists asks.
  split; [exact Hasks|]. split; [exact Hnocust|]. left.
  split; [exact Hcalls|]. intros _. cbn. split; [reflexivity|eauto].
Qed.

Lemma steps_4_5_shape platform projectPath infos openInNewWindow s (asks : list EnvCall) (s2 : session) :
  Forall (fun c => is_configure c = false) asks ->
  ~ In customize_prompt asks ->
  calls s2 = calls s ++ asks ->
  telemetry s2 = telemetry s ->
  (Exists (fun f => target_exists P projectPath f = Some true) infos ->
   exists rest, answers s = Pick 1 :: rest) ->
  steps_shape P platform projectPath infos openInNewWindow s
    (let configure (customizeEnvironment : bool) : Act session EnvError unit :=
       Act.bind
         (called (ConfigureProjectEnv platform projectPath infos
                    openInNewWindow customizeEnvironment))
         (fun _ =>
            if configureProjectEnv_resolves P platform projectPath infos
                 openInNewWindow customizeEnvironment
            then Act.ret tt else Act.throw ConfigureError) in
     match platform with
     | EmbeddedLinux =>
         match askToCustomize s2 with
         | (Failed (CancelOperationError message), s') =>
             (Done tt, cancelled message s')
         | (Failed e, s') => (Failed e, s')
         | (Done customizeEnvironment, s') =>
             configure customizeEnvironment
               (set_telemetry
                  {| t_platform := t_platform (telemetry s');
                     t_templateName := t_templateName (telemetry s');
                     t_customizeEnvironment :=
                       Some (if customizeEnvironment then "true" else "false");
                     t_errorMessage := t_errorMessage (telemetry s');
                     t_result := t_result (telemetry s') |} s')
         end
     | _ => configure false s2
     end).
Proof.
  intros Hasks Hnocust Hcalls Htel Hexists. cbv zeta.
  destruct platform.
  - (* Embedded Linux: step 4 asks *)
    assert (Hasks' :
      Forall (fun c => is_configure c = false) (asks ++ [customize_prompt])).
    { apply Forall_app. split; [exact Hasks|]. repeat constructor. }
    pose proof (askToCustomize_cases s2) as Hcases.
    destruct (askToCustomize s2) as [r s'].
    destruct Hcases as (Hcalls' & Htel' & _ & [-> | [-> | [message ->]]]).
    + apply (configure_shape _ _ _ _ _ (asks ++ [customize_prompt])); cbn;
        try congruence; auto.
      rewrite Hcalls', Hcalls, <- app_assoc. reflexivity.
    + apply (configure_shape _ _ _ _ _ (asks ++ [customize_prompt])); cbn;
        try congruence; auto.
      rewrite Hcalls', Hcalls, <- app_assoc. reflexivity.
    + apply (cancelled_shape _ _ _ _ _ (asks ++ [customize_prompt])); try congruence; auto.
      rewrite Hcalls', Hcalls, <- app_assoc. reflexivity.
  - apply (configure_shape _ _ _ _ _ asks); auto; discriminate.
  - apply (configure_shape _ _ _ _ _ asks); auto; discriminate.
Qed.

Lemma overwrite_and_configure_shape platform projectPath infos openInNewWindow s :
  steps_shape P platform projectPath infos openInNewWindow s
    (overwrite_and_configure P platform projectPath infos openInNewWindow s).
Proof.
  unfold overwrite_and_configure.
  pose proof (askToOverwrite_cases projectPath infos s) as Hcases.
  destruct (askToOverwrite P projectPath infos s) as [r0 s1].
  destruct Hcases as
    [[-> [-> | [-> Hnone]]] | (f & Hin & Hex & Hcalls & Hans & Htel & ->)].
  - split; [discriminate|]. exists [].
    split; [constructor|]. split; [intros _ []|]. left.
    split; [symmetry; apply app_nil_r|discriminate].
  - apply (steps_4_5_shape _ _ _ _ _ []);
      [constructor|intros []|symmetry; apply app_nil_r|reflexivity|].
    intros Hsome. exfalso.
    apply Exists_exists in Hsome as (g & Hg & Hgex).
    rewrite Forall_forall in Hnone. specialize (Hnone g Hg). congruence.
  - assert (Hprompt :
      Forall (fun c => is_configure c = false) [overwrite_prompt (fileName f)])
      by (repeat constructor).
    assert (Hnocust : ~ In customize_prompt [overwrite_prompt (fileName f)]).
    { intros [H|[]]. discriminate H. }
    destruct (answers s) as [|[[|[|i]]|v|] rest] eqn:Hanswers;
      try (apply (cancelled_shape _ _ _ _ _ [overwrite_prompt (fileName f)]); auto);
      apply (steps_4_5_shape _ _ _ _ _ [overwrite_prompt (fileName f)]); eauto.
Qed.

Lemma configure_with_template_cases platform projectPath templates templateName
    openInNewWindow s :
  let run :=
    configure_with_template P platform projectPath templates templateName
      openInNewWindow s in
  (calls run.2 = calls s /\
   exists e, run.1 = Failed e /\ forall message, e <> CancelOperationError message) \/
  (exists infos s1,
     run = overwrite_and_configure P platform projectPath infos openInNewWindow s1 /\
     calls s1 = calls s /\
     answers s1 = answers s /\
     t_customizeEnvironment (telemetry s1) = t_customizeEnvironment (telemetry s)).
Proof.
  cbv zeta. unfold configure_with_template. unfold Act.bind at 1.
  destruct templates as [templates|];
    [|left; split; [reflexivity|eexists; split; [reflexivity|discriminate]]].
  destruct (List.filter _ templates) as [|template ?];
    [left; split; [reflexivity|eexists; split; [reflexivity|discriminate]]|].
  destruct (getTemplateFilesInfo P _) as [infos|];
    [|left; split; [reflexivity|eexists; split; [reflexivity|discriminate]]].
  right. eexists infos, _. split; [reflexivity|]. cbn. auto.
Qed.

Lemma fails_early platform s (e : EnvError) (s1 : session) (asks : list EnvCall) :
  calls s1 = calls s ++ asks ->
  Forall (fun c => is_configure c = false) asks ->
  (platform <> EmbeddedLinux -> asks = []) ->
  ~ In customize_prompt asks ->
  (forall message, e <> CancelOperationError message) ->
  stops_early platform s (Failed e, s1).
Proof.
  intros Hcalls Hasks Hother Hnocust He. exists asks.
  repeat split; auto. left. exists e. auto.
Qed.

Lemma selectContainer_cases templates s :
  let (r, s') := selectContainer P templates s in
  exists items selection,
    r = Done selection /\
    calls s' = calls s ++ [Asked "Select a platform" items] /\
    answers s' = tail (answers s) /\
    telemetry s' = telemetry s.
Proof.
  unfold selectContainer, ask, called, Act.bind. cbn [calls answers telemetry].
  destruct (answers s) as [|a rest]; cbn; eauto 7.
Qed.

(** Up to step 3, a run stops early or reaches step 3 with the files of a
    template. *)
Lemma core_cases projectPath platform openInNewWindow s :
  let run :=
    configureProjectEnvironmentCore P projectPath platform openInNewWindow s in
  stops_early platform s run \/
  (exists infos s1 asks,
     run = overwrite_and_configure P platform projectPath infos openInNewWindow s1 /\
     projectPath <> "" /\
     platform <> OtherPlatform /\
     calls s1 = calls s ++ asks /\
     Forall (fun c => is_configure c = false) asks /\
     ~ In customize_prompt asks /\
     (platform <> EmbeddedLinux -> asks = [] /\ answers s1 = answers s) /\
     (platform = EmbeddedLinux -> answers s1 = tail (answers s)) /\
     t_customizeEnvironment (telemetry s1) = t_customizeEnvironment (telemetry s)).
Proof.
  cbv zeta.
  unfold configureProjectEnvironmentCore. unfold Act.bind. cbn beta.
  assert (Hnil : forall s1 : session, calls s1 = calls s -> calls s1 = calls s ++ [])
    by (intros; rewrite app_nil_r; assumption).
  case_bool_decide as Hpath;
    [left; apply (fails_early _ _ _ _ []); auto; discriminate|].
  destruct (readFile P _) as [templateJsonFileString|];
    [|left; apply (fails_early _ _ _ _ []); auto; discriminate].
  destruct (parse_templates P _) as [[|templates]|];
    [left; apply (fails_early _ _ _ _ []); auto; discriminate| |
     left; apply (fails_early _ _ _ _ []); auto; discriminate].
  destruct platform.
  - destruct templates as [templates|];
      [|left; apply (fails_early _ _ _ _ []); auto; discriminate].
    match goal with
    | |- context [selectContainer P templates ?s0] =>
        pose proof (selectContainer_cases templates s0) as Hselect;
        destruct (selectContainer P templates s0) as [r s1]
    end.
    destruct Hselect as (items & selection & -> & Hcalls & Hanswers & Htel).
    cbn [calls answers telemetry set_telemetry] in Hcalls, Hanswers, Htel.
    assert (Hprompt :
      Forall (fun c => is_configure c = false) [Asked "Select a platform" items])
      by (repeat constructor).
    assert (Hnocust : ~ In customize_prompt [Asked "Select a platform" items]).
    { intros [H|[]]. discriminate H. }
    destruct selection as [containerSelection|].
    + case_bool_decide as Hname;
        [left; apply (fails_early _ _ _ _ [Asked "Select a platform" items]);
         auto; try discriminate; congruence|].
      match goal with
      | |- context [configure_with_template P ?pl ?pp ?ts ?n ?o ?s0] =>
          pose proof (configure_with_template_cases pl pp ts n o s0) as Hcases;
          cbv zeta in Hcases;
          destruct (configure_with_template P pl pp ts n o s0) as [r s2]
      end.
      destruct Hcases as
        [(Hcalls2 & e & Hr & He) | (infos & s3 & -> & Hcalls3 & Hanswers3 & Htel3)].
      * cbn [fst snd] in Hcalls2, Hr. subst r. left.
        apply (fails_early _ _ _ _ [Asked "Select a platform" items]);
          auto; congruence.
      * right. exists infos, s3, [Asked "Select a platform" items].
        split; [reflexivity|]. split; [exact Hpath|]. split; [discriminate|].
        split; [congruence|]. split; [exact Hprompt|]. split; [exact Hnocust|].
        split; [congruence|]. split; [congruence|].
        rewrite Htel3, Htel. reflexivity.
    + left. exists [Asked "Select a platform" items].
      split; [exact Hcalls|]. split; [exact Hprompt|].
      split; [congruence|]. split; [exact Hnocust|].
      right. cbn. eauto.
  - match goal with
    | |- context [configure_with_template P ?pl ?pp ?ts ?n ?o ?s0] =>
        pose proof (configure_with_template_cases pl pp ts n o s0) as Hcases;
        cbv zeta in Hcases;
        destruct (configure_with_template P pl pp ts n o s0) as [r s2]
    end.
    destruct Hcases as
      [(Hcalls2 & e & Hr & He) | (infos & s3 & -> & Hcalls3 & Hanswers3 & Htel3)].
    + cbn [fst snd] in Hcalls2, Hr. subst r. left.
      apply (fails_early _ _ _ _ []); auto; discriminate.
    + right. exists infos, s3, [].
      split; [reflexivity|]. split; [exact Hpath|]. split; [discriminate|].
      split; [rewrite app_nil_r; exact Hcalls3|]. split; [constructor|].
      split; [intros []|]. split; [intros _; split; [reflexivity|exact Hanswers3]|].
      split; [discriminate|]. exact Htel3.
  - left; apply (fails_early _ _ _ _ []); auto; discriminate.
Qed.

Lemma configureProjectEnvironmentCore_shape projectPath platform openInNewWindow s :
  core_shape P projectPath platform openInNewWindow s
    (configureProjectEnvironmentCore P projectPath platform openInNewWindow s).
Proof.
  destruct (core_cases projectPath platform openInNewWindow s) as
    [(asks & Hcalls & Hasks & Hother & Hnocust & Hrun) |
     (infos & s1 & asks & Hrun & Hpath & Hplatform & Hcalls & Hasks & Hnocust &
      Hother & Hlinux & Htel)].
  - split.
    + intros message Hr.
      destruct Hrun as [(e & He & Hne) | (Hdone & _)]; [|congruence].
      rewrite He in Hr. injection Hr as ->. exact (Hne message eq_refl).
    + exists asks. split; [exact Hasks|]. split; [intros _; exact Hnocust|].
      left. split; [exact Hcalls|].
      destruct Hrun as [(e & He & _) | (_ & Hres)]; [congruence|auto].
  - rewrite Hrun.
    pose proof (overwrite_and_configure_shape platform projectPath infos
                  openInNewWindow s1) as Hshape.
    destruct (overwrite_and_configure P platform projectPath infos
                openInNewWindow s1) as [r s'].
    destruct Hshape as (Hcancel & asks' & Hasks' & Hnocust' & Hshape).
    split; [exact Hcancel|].
    exists (asks ++ asks').
    split; [apply Forall_app; split; assumption|].
    split.
    { intros Hp Hin. apply in_app_or in Hin as [Hin|Hin]; [auto|].
      exact (Hnocust' Hp Hin). }
    cbn [fst snd].
    destruct Hshape as
      [(Hcalls' & Hdone) | (c & Hcalls' & Hc & Hreport & Hyes & Hres)].
    + left. split; [|exact Hdone].
      rewrite Hcalls', Hcalls, <- app_assoc. reflexivity.
    + right. exists infos, c.
      split; [rewrite Hcalls', Hcalls, <- !app_assoc; reflexivity|].
      split; [intros Hp; apply Hc; exact Hp|].
      split; [exact Hreport|]. split; [|exact Hres].
      intros Hexists. destruct (Hyes Hexists) as (rest & Hrest).
      unfold overwrite_answer.
      destruct platform; [| |congruence].
      * rewrite (Hlinux eq_refl) in Hrest.
        destruct (answers s) as [|a tl]; [discriminate|].
        cbn in Hrest. subst tl. reflexivity.
      * destruct Hother as [_ Hsame]; [discriminate|].
        rewrite Hsame in Hrest. rewrite Hrest. reflexivity.
Qed.

Lemma configure_call_unique (asks : list EnvCall) (a b : EnvCall) :
  Forall (fun c => is_configure c = false) asks ->
  is_configure a = true ->
  In a (asks ++ [b]) -> a = b.
Proof.
  intros Hasks Ha Hin. apply in_app_or in Hin as [Hin|[Hin|[]]]; [|auto].
  rewrite Forall_forall in Hasks.
  apply list_elem_of_In in Hin. rewrite (Hasks a Hin) in Ha. discriminate.
Qed.


(** The project is configured at most once, by the last call of a run,
    and the run returns exactly when that call resolves. *)
Theorem configured_once_at_the_end projectPath platform openInNewWindow s :
  let run :=
    configureProjectEnvironmentCore P projectPath platform openInNewWindow s in
  exists asks conf,
    calls run.2 = calls s ++ asks ++ conf /\
    Forall (fun c => is_configure c = false) asks /\
    (conf = [] \/
     exists infos customizeEnvironment,
       conf = [ConfigureProjectEnv platform projectPath infos openInNewWindow
                 customizeEnvironment] /\
       (run.1 = Done tt <->
        configureProjectEnv_resolves P platform projectPath infos
          openInNewWindow customizeEnvironment = true)).
Proof.
  cbv zeta.
  destruct (configureProjectEnvironmentCore_shape projectPath platform
              openInNewWindow s) as (_ & asks & Hasks & _ & Hshape).
  destruct Hshape as
    [(Hcalls & _) | (infos & c & Hcalls & _ & _ & _ & Hres)].
  - exists asks, []. rewrite app_nil_r. auto.
  - exists asks, [ConfigureProjectEnv platform projectPath infos openInNewWindow c].
    split; [exact Hcalls|]. split; [exact Hasks|]. right. eauto.
Qed.

(** A run that returns without having configured the project has recorded
    a cancellation. *)
Theorem return_without_configuration_is_cancelled projectPath platform
    openInNewWindow s :
  let run :=
    configureProjectEnvironmentCore P projectPath platform openInNewWindow s in
  run.1 = Done tt ->
  Forall (fun c => is_configure c = false) (calls run.2) ->
  t_result (telemetry run.2) = Some "Cancelled" /\
  is_Some (t_errorMessage (telemetry run.2)).
Proof.
  cbv zeta. intros Hdone Hnone.
  destruct (configureProjectEnvironmentCore_shape projectPath platform
              openInNewWindow s) as (_ & asks & Hasks & _ & Hshape).
  destruct Hshape as [(_ & Hcancelled) | (infos & c & Hcalls & _)].
  - exact (Hcancelled Hdone).
  - exfalso. rewrite Hcalls, !Forall_app in Hnone.
    destruct Hnone as (_ & _ & Hconf).
    apply Forall_cons in Hconf as [Hconf _]. discriminate Hconf.
Qed.

(** Existing configuration files are overwritten only after the answer
    'Yes to all'. *)
Theorem overwriting_needs_yes_to_all projectPath platform openInNewWindow s
    new platform' projectPath' infos openInNewWindow' customizeEnvironment :
  let run :=
    configureProjectEnvironmentCore P projectPath platform openInNewWindow s in
  calls run.2 = calls s ++ new ->
  In (ConfigureProjectEnv platform' projectPath' infos openInNewWindow'
        customizeEnvironment) new ->
  Exists (fun f => target_exists P projectPath f = Some true) infos ->
  overwrite_answer platform s = Some (Pick 1).
Proof.
  cbv zeta. intros Hnew Hin Hexists.
  destruct (configureProjectEnvironmentCore_shape projectPath platform
              openInNewWindow s) as (_ & asks & Hasks & _ & Hshape).
  destruct Hshape as
    [(Hcalls & _) | (infos0 & c & Hcalls & _ & _ & Hyes & _)];
    rewrite Hnew in Hcalls; apply app_inv_head in Hcalls; subst new.
  - exfalso. rewrite Forall_forall in Hasks.
    apply list_elem_of_In in Hin. discriminate (Hasks _ Hin).
  - apply (configure_call_unique asks) in Hin; [|exact Hasks|reflexivity].
    injection Hin as -> -> -> -> ->. exact (Hyes Hexists).
Qed.

(** Only an Embedded Linux project is asked about customization; any other
    one is configured without it. *)
Theorem customization_only_for_embedded_linux projectPath platform
    openInNewWindow s new :
  let run :=
    configureProjectEnvironmentCore P projectPath platform openInNewWindow s in
  platform <> EmbeddedLinux ->
  calls run.2 = calls s ++ new ->
  ~ In customize_prompt new /\
  forall platform' projectPath' infos openInNewWindow' customizeEnvironment,
    In (ConfigureProjectEnv platform' projectPath' infos openInNewWindow'
          customizeEnvironment) new ->
    customizeEnvironment = false.
Proof.
  cbv zeta. intros Hplatform Hnew.
  destruct (configureProjectEnvironmentCore_shape projectPath platform
              openInNewWindow s) as (_ & asks & Hasks & Hnocust & Hshape).
  specialize (Hnocust Hplatform).
  destruct Hshape as
    [(Hcalls & _) | (infos0 & c & Hcalls & Hc & _)];
    rewrite Hnew in Hcalls; apply app_inv_head in Hcalls; subst new.
  - split; [exact Hnocust|]. intros ? ? ? ? ? Hin. exfalso.
    rewrite Forall_forall in Hasks.
    apply list_elem_of_In in Hin. discriminate (Hasks _ Hin).
  - split.
    + intros Hin. apply in_app_or in Hin as [Hin|[Hin|[]]]; [auto|discriminate].
    + intros ? ? ? ? ? Hin.
      apply (configure_call_unique asks) in Hin; [|exact Hasks|reflexivity].
      injection Hin as -> -> -> -> ->. exact (Hc Hplatform).
Qed.

(** The customization passed to the configuration of an Embedded Linux
    project is the one reported in the telemetry. *)
Theorem customization_is_reported projectPath openInNewWindow s new
    platform' projectPath' infos openInNewWindow' customizeEnvironment :
  let run :=
    configureProjectEnvironmentCore P projectPath EmbeddedLinux openInNewWindow s in
  calls run.2 = calls s ++ new ->
  In (ConfigureProjectEnv platform' projectPath' infos openInNewWindow'
        customizeEnvironment) new ->
  t_customizeEnvironment (telemetry run.2) =
    Some (if customizeEnvironment then "true" else "false").
Proof.
  cbv zeta. intros Hnew Hin.
  destruct (configureProjectEnvironmentCore_shape projectPath EmbeddedLinux
              openInNewWindow s) as (_ & asks & Hasks & _ & Hshape).
  destruct Hshape as
    [(Hcalls & _) | (infos0 & c & Hcalls & _ & Hreport & _)];
    rewrite Hnew in Hcalls; apply app_inv_head in Hcalls; subst new.
  - exfalso. rewrite Forall_forall in Hasks.
    apply list_elem_of_In in Hin. discriminate (Hasks _ Hin).
  - apply (configure_call_unique asks) in Hin; [|exact Hasks|reflexivity].
    injection Hin as -> -> -> -> ->. exact (Hreport eq_refl).
Qed.
End EnvironmentFacts.

Lemma overwrite_without_prompt_witness :
  askToOverwrite Project.configurer "/project"
    [ {| fileName := "tasks.json"; targetPath := ".vscode" |};
      {| fileName := "settings.json"; targetPath := ".vscode" |} ]
    (Project.session_with [Pick 0])
  = (Done true, Project.session_with [Pick 0]).
Proof.
  apply (overwrite_without_prompt Project.configurer).
  repeat constructor.
Defined.

Lemma overwrite_asks_about_first_existing_witness :
  let (r, s') :=
    askToOverwrite Project.configurer "/project"
      ([ {| fileName := "tasks.json"; targetPath := ".vscode" |} ] ++
       {| fileName := "c_cpp_properties.json"; targetPath := ".vscode" |} ::
       [ {| fileName := "settings.json"; targetPath := ".vscode" |} ])
      (Project.session_with [Pick 1]) in
  calls s' = [] ++ [overwrite_prompt "c_cpp_properties.json"] /\
  answers s' = [] /\
  telemetry s' = telemetry (Project.session_with [Pick 1]) /\
  r = Done true.
Proof.
  apply (overwrite_asks_about_first_existing Project.configurer "/project"
           [ {| fileName := "tasks.json"; targetPath := ".vscode" |} ]
           {| fileName := "c_cpp_properties.json"; targetPath := ".vscode" |}
           [ {| fileName := "settings.json"; targetPath := ".vscode" |} ]
           (Project.session_with [Pick 1]));
    [repeat constructor|reflexivity].
Defined.


Lemma return_without_configuration_is_cancelled_witness :
  let run :=
    configureProjectEnvironmentCore Project.configurer "/project" EmbeddedLinux
      false (Project.session_with [Pick 1; Dismiss]) in
  t_result (telemetry run.2) = Some "Cancelled" /\
  is_Some (t_errorMessage (telemetry run.2)).
Proof.
  apply (return_without_configuration_is_cancelled Project.configurer "/project"
           EmbeddedLinux false (Project.session_with [Pick 1; Dismiss]));
    [reflexivity|repeat constructor].
Defined.

Lemma overwriting_needs_yes_to_all_witness :
  overwrite_answer Arduino (Project.session_with [Pick 1]) = Some (Pick 1).
Proof.
  apply (overwriting_needs_yes_to_all Project.configurer "/project" Arduino false
           (Project.session_with [Pick 1])
           (calls (configureProjectEnvironmentCore Project.configurer "/project"
                     Arduino false (Project.session_with [Pick 1])).2)
           Arduino "/project"
           [ {| fileName := "tasks.json"; targetPath := ".vscode" |};
             {| fileName := "c_cpp_properties.json"; targetPath := ".vscode" |};
             {| fileName := "settings.json"; targetPath := ".vscode" |} ]
           false false).
  - reflexivity.
  - right. left. reflexivity.
  - apply Exists_cons_tl, Exists_cons_hd. reflexivity.
Defined.

Lemma customization_only_for_embedded_linux_witness :
  let new :=
    calls (configureProjectEnvironmentCore Project.configurer "/project" Arduino
             false (Project.session_with [Pick 1])).2 in
  ~ In customize_prompt new /\
  forall platform' projectPath' infos openInNewWindow' customizeEnvironment,
    In (ConfigureProjectEnv platform' projectPath' infos openInNewWindow'
          customizeEnvironment) new ->
    customizeEnvironment = false.
Proof.
  apply (customization_only_for_embedded_linux Project.configurer "/project"
           Arduino false (Project.session_with [Pick 1]));
    [discriminate|reflexivity].
Defined.

Lemma customization_is_reported_witness :
  t_customizeEnvironment
    (telemetry
       (configureProjectEnvironmentCore Project.configurer "/project"
          EmbeddedLinux false (Project.session_with [Pick 1; Pick 1; Pick 0])).2)
  = Some "true".
Proof.
  apply (customization_is_reported Project.configurer "/project" false
           (Project.session_with [Pick 1; Pick 1; Pick 0])
           (calls (configureProjectEnvironmentCore Project.configurer "/project"
                     EmbeddedLinux false
                     (Project.session_with [Pick 1; Pick 1; Pick 0])).2)
           EmbeddedLinux "/project"
           [ {| fileName := "tasks.json"; targetPath := ".vscode" |};
             {| fileName := "c_cpp_properties.json"; targetPath := ".vscode" |};
             {| fileName := "settings.json"; targetPath := ".vscode" |} ]
           false true).
  - reflexivity.
  - do 3 right. left. reflexivity.
Defined.

(** * Properties of the upload to a Raspberry Pi *)

Import RaspberryPi.

Lemma truthy_nonempty (x : option string) :
  truthy x = true -> default "" x <> "".
Proof.
  destruct x as [v|]; [|discriminate]. cbn.
  destruct (String.eqb_spec v ""); [discriminate|auto].
Qed.

(** The questions leave the settings as they are. *)
Lemma quickPick_asks placeHolder items t :
  exists choice t',
    quickPick placeHolder items t = (Done choice, t') /\
    config t' = config t /\
    replies t' = tail (replies t) /\
    (replies t = [] -> choice = None).
Proof.
  unfold quickPick, show, reply, Act.bind, Act.ret. cbn.
  destruct (replies t) as [|a rest]; cbn; eauto 8.
  do 2 eexists. repeat split; eauto. discriminate.
Qed.

Lemma inputBox_asks prompt t :
  exists value t',
    inputBox prompt t = (Done value, t') /\
    config t' = config t /\
    replies t' = tail (replies t).
Proof.
  unfold inputBox, show, reply, Act.bind, Act.ret. cbn.
  destruct (replies t) as [|a rest]; cbn; eauto 8.
Qed.

Lemma selectDevice_config (B : Board) script t :
  config (selectDevice B script t).2 = config t.
Proof.
  revert t. induction script as [|a script IH]; intros t; cbn [selectDevice];
    unfold Act.bind, autoDiscoverDeviceIp;
    (destruct (discover B (scans t)) as [infos|]; [|reflexivity]);
    match goal with
    | |- context [quickPick ?p ?i ?t0] =>
        destruct (quickPick_asks p i t0) as (choice & t1 & -> & Hcfg & _)
    end; cbn in Hcfg.
  - exact Hcfg.
  - destruct choice as [item|]; [|exact Hcfg].
    destruct (label_is item _); [|exact Hcfg].
    rewrite IH. exact Hcfg.
Qed.

Lemma selectDevice_outcome (B : Board) script t :
  (exists choice, (selectDevice B script t).1 = Done choice) \/
  (selectDevice B script t).1 = Failed (Rejected Discover).
Proof.
  revert t. induction script as [|a script IH]; intros t; cbn [selectDevice];
    unfold Act.bind, autoDiscoverDeviceIp;
    (destruct (discover B (scans t)) as [infos|]; [|right; reflexivity]);
    match goal with
    | |- context [quickPick ?p ?i ?t0] =>
        destruct (quickPick_asks p i t0) as (choice & t1 & -> & _)
    end.
  - left. eauto.
  - destruct choice as [item|]; [|left; eauto].
    destruct (label_is item _); [apply IH|left; eauto].
Qed.

Ltac ask_step :=
  match goal with
  | |- context [inputBox ?p ?t0] =>
      let v := fresh "value" in
      let t1 := fresh "t" in
      let Hcfg := fresh "Hcfg" in
      destruct (inputBox_asks p t0) as (v & t1 & -> & Hcfg & _)
  end.

(** Every outcome of [configDeviceSettings]. *)
Lemma configDeviceSettings_cases (B : Board) t :
  let run := configDeviceSettings B t in
  (exists message,
     run.1 = Failed (OperationCanceledError message) /\ config run.2 = config t) \/
  (run.1 = Failed (Rejected Discover) /\ config run.2 = config t) \/
  (run.1 = Done tt /\
   updated (config run.2) = true /\
   host (config run.2) <> "" /\
   user (config run.2) <> "" /\
   projectPath (config run.2) <> "" /\
   (is_nan (port (config t)) = false -> is_nan (port (config run.2)) = false) /\
   (password (config t) <> "" -> password (config run.2) <> "")).
Proof.
  cbv zeta. destruct (configDeviceSettings B t) as [r t'] eqn:Hrun.
  cbn [fst snd]. revert Hrun.
  unfold configDeviceSettings. unfold Act.bind at 1.
  match goal with
  | |- context [quickPick ?p ?i ?t0] =>
      destruct (quickPick_asks p i t0) as (choice & t1 & -> & Hcfg1 & _)
  end.
  destruct choice as [choice|];
    [|intros [= <- <-]; left; eexists; split; [reflexivity|exact Hcfg1]].
  unfold Act.bind at 1.
  (* the host found by discovery, if any *)
  assert (Hhost :
    exists r t2,
      (if label_is choice "$(search) Auto discover"
       then
         Act.bind (fun t => selectDevice B (replies t) t)
           (fun selectDeviceChoice =>
              match selectDeviceChoice with
              | None =>
                  Act.throw (OperationCanceledError "Device selection cancelled.")
              | Some selectDeviceChoice =>
                  if label_is selectDeviceChoice "$(gear) Manual setup"
                  then Act.ret None
                  else Act.ret (item_label selectDeviceChoice)
              end)
       else Act.ret None) t1 = (r, t2) /\
      config t2 = config t /\
      ((exists found, r = Done found) \/
       r = Failed (Rejected Discover) \/
       exists message, r = Failed (OperationCanceledError message))).
  { destruct (label_is choice _).
    - unfold Act.bind.
      pose proof (selectDevice_config B (replies t1) t1) as Hcfg.
      pose proof (selectDevice_outcome B (replies t1) t1) as Hout.
      destruct (selectDevice B (replies t1) t1) as [r0 t2]. cbn in Hcfg, Hout.
      destruct Hout as [[found ->] | ->].
      + destruct found as [item|]; cbn.
        * destruct (label_is item _); cbn; do 2 eexists;
            (split; [reflexivity|]); (split; [congruence|]); eauto.
        * do 2 eexists. split; [reflexivity|]. split; [congruence|eauto].
      + do 2 eexists. split; [reflexivity|]. split; [congruence|eauto].
    - do 2 eexists. split; [reflexivity|]. split; [exact Hcfg1|eauto]. }
  destruct Hhost as (r0 & t2 & -> & Hcfg2 & [[found ->] | [-> | [message ->]]]);
    [|intros [= <- <-]; right; left; split; [reflexivity|exact Hcfg2]
     |intros [= <- <-]; left; eexists; split; [reflexivity|exact Hcfg2]].
  unfold Act.bind at 1.
  assert (Hname :
    exists r t3,
      (if truthy found then Act.ret (default "" found)
       else
         Act.bind (inputBox "Please input device ip or hostname here.")
           (fun raspiHost =>
              if truthy raspiHost then Act.ret (default "" raspiHost)
              else Act.throw (OperationCanceledError "Hostname input cancelled.")))
        t2 = (r, t3) /\
      config t3 = config t /\
      ((exists raspiHost, r = Done raspiHost /\ raspiHost <> "") \/
       exists message, r = Failed (OperationCanceledError message))).
  { destruct (truthy found) eqn:Hfound.
    - do 2 eexists. split; [reflexivity|]. split; [exact Hcfg2|].
      left. eexists. split; [reflexivity|]. apply truthy_nonempty, Hfound.
    - unfold Act.bind. ask_step.
      destruct (truthy value) eqn:Hvalue; do 2 eexists;
        (split; [reflexivity|]); (split; [congruence|]).
      + left. eexists. split; [reflexivity|]. apply truthy_nonempty, Hvalue.
      + right. eauto. }
  destruct Hname as (r0 & t3 & -> & Hcfg3 & [(raspiHost & -> & Hhost) | [message ->]]);
    [|intros [= <- <-]; left; eexists; split; [reflexivity|exact Hcfg3]].
  unfold Act.bind at 1. ask_step.
  destruct (truthy value) eqn:Hport; cbn [negb];
    [|intros [= <- <-]; left; eexists; split; [reflexivity|congruence]].
  unfold Act.bind at 1 2. ask_step.
  destruct (truthy value0) eqn:Huser; cbn [negb];
    [|intros [= <- <-]; left; eexists; split; [reflexivity|congruence]].
  unfold Act.bind at 1. ask_step.
  destruct value1 as [entered|];
    [|intros [= <- <-]; left; eexists; split; [reflexivity|congruence]].
  unfold Act.bind at 1 2. ask_step.
  destruct (truthy value1) eqn:Hpath; cbn [negb];
    [|intros [= <- <-]; left; eexists; split; [reflexivity|congruence]].
  unfold Act.bind, show, set_config. cbn. intros [= <- <-].
  right. right. cbn.
  split; [reflexivity|]. split; [reflexivity|]. split; [exact Hhost|].
  split; [apply truthy_nonempty, Huser|].
  split; [apply truthy_nonempty, Hpath|].
  split.
  - intros Hold. destruct (is_nan (JS.Number value)) eqn:Hnan; cbn [negb].
    + congruence.
    + exact Hnan.
  - intros Hold. destruct (String.eqb_spec entered ""); congruence.
Qed.

(** A failed configuration leaves every setting as it was. *)
Theorem failed_configuration_keeps_settings (B : Board) (t t' : terminal)
    (e : DeviceError) :
  configDeviceSettings B t = (Failed e, t') ->
  config t' = config t.
Proof.
  intros Hrun. pose proof (configDeviceSettings_cases B t) as Hcases.
  cbv zeta in Hcases. rewrite Hrun in Hcases. cbn [fst snd] in Hcases.
  destruct Hcases as [(message & _ & Hcfg) | [(_ & Hcfg) | (Hdone & _)]];
    [exact Hcfg|exact Hcfg|discriminate Hdone].
Qed.














Lemma failed_configuration_keeps_settings_witness :
  config (configDeviceSettings board (terminal_with [Pick 0; Pick 0; Dismiss])).2
  = initial.
Proof.
  apply (failed_configuration_keeps_settings board
           (terminal_with [Pick 0; Pick 0; Dismiss])
           (configDeviceSettings board (terminal_with [Pick 0; Pick 0; Dismiss])).2
           (OperationCanceledError "Device selection cancelled.")).
  vm_compute. reflexivity.
Defined.




(** The sample board outside of the remote environment, where
    [askAndOpenInRemote] rejects. *)
Lemma upload_failures_local_witness :
  let B :=
    {| isRemote := false; askAndOpenInRemote_resolves := false;
       projectFolder := projectFolder board; outputPath := outputPath board;
       cmakeFileName := cmakeFileName board; join := join board;
       fileExists := fileExists board; executeCommand := executeCommand board;
       discover := discover board; ssh_open := ssh_open board;
       ssh_uploadFile := ssh_uploadFile board; ssh_exec := ssh_exec board;
       ssh_close := ssh_close board |} in
  upload B (terminal_with [Pick 0])
  = (Failed (Rejected AskAndOpenInRemote),
     {| config := initial; replies := [Pick 0]; scans := 0; shown := [OpenInRemote] |}).
Proof. reflexivity. Qed.
